(** * aws-ai-cost-optimizer: the two Lambda stages, embedded and verified

    Stage 1 ([lambda/cost_analyzer/handler.py]) collects CloudWatch and EC2
    figures, applies two threshold rules and stores a snapshot in DynamoDB.
    Stage 2 ([lambda/ai_recommender/*.py]) fetches the latest snapshot, asks a
    text-generation backend for a report and distributes it.

    Python values are modelled as the interpreter has them: integers are
    unbounded ([Z]), floats are IEEE-754 binary64 ([spec_float] at precision
    53, exponent bound 1024, rounding to nearest even), raised exceptions are
    an explicit error result.  The services the program talks to (EC2,
    CloudWatch, DynamoDB, the HTTP backends, the process environment and the
    clock) are passed to the functions as the answers they give. *)

From Stdlib Require Import ZArith List Bool String Ascii Lia.
From Stdlib Require Import Floats.SpecFloat.
From Stdlib Require DecimalString OrderedTypeEx.
Import ListNotations.

Set Warnings "-register-all".

Local Open Scope string_scope.
Local Open Scope Z_scope.

(* ================================================================== *)
(** ** Python runtime: exceptions, numbers, formatting *)

Module Py.

(** The exception classes the program can meet.  [RequestException] stands
    for [requests.exceptions.RequestException] and all its subclasses
    (connection errors, timeouts, [HTTPError] from [raise_for_status]);
    [ServiceError] for whatever a boto3 call raises. *)
Inductive exn : Type :=
  | KeyError (key : string)
  | IndexError (msg : string)
  | TypeError (msg : string)
  | ValueError (msg : string)
  | AttributeError (msg : string)
  | OverflowError (msg : string)
  | ZeroDivisionError (msg : string)
  | RequestException (msg : string)
  | ServiceError (msg : string).

(** [str(e)] *)
Definition str_exn (e : exn) : string :=
  match e with
  | KeyError key => "'" ++ key ++ "'"
  | IndexError msg | TypeError msg | ValueError msg | AttributeError msg
  | OverflowError msg | ZeroDivisionError msg | RequestException msg
  | ServiceError msg => msg
  end.

(** A computation either returns or raises. *)
Inductive res (A : Type) : Type :=
  | Ok (a : A)
  | Raise (e : exn).
Arguments Ok {A} a.
Arguments Raise {A} e.

Definition bind {A B : Type} (c : res A) (k : A -> res B) : res B :=
  match c with
  | Ok a => k a
  | Raise e => Raise e
  end.

(** [try: c  except Exception: h e] *)
Definition try_except {A : Type} (c : res A) (h : exn -> res A) : res A :=
  match c with
  | Ok a => Ok a
  | Raise e => h e
  end.

(** Monadic traversal of a list, left to right, stopping at the first
    exception: a [for] loop that appends one result per element. *)
Fixpoint mapM {A B : Type} (f : A -> res B) (l : list A) : res (list B) :=
  match l with
  | [] => Ok []
  | a :: l' =>
      bind (f a) (fun b => bind (mapM f l') (fun bs => Ok (b :: bs)))
  end.

(** *** Numbers *)

Definition prec : Z := 53.
Definition emax : Z := 1024.

Definition fadd := SFadd prec emax.
Definition fmul := SFmul prec emax.
Definition fdiv := SFdiv prec emax.

(** A Python number: [int] or [float]. *)
Inductive num : Type :=
  | PInt (z : Z)
  | PFloat (f : spec_float).

(** [float(z)]: the nearest double, ties to even; [OverflowError] when the
    integer is too large for a double. *)
Definition float_of_int (z : Z) : res spec_float :=
  match binary_normalize prec emax z 0 false with
  | S754_infinity _ => Raise (OverflowError "int too large to convert to float")
  | f => Ok f
  end.

(** A decimal float literal [m / 10^k] of the source text, correctly
    rounded: [float_lit 1 1] is [0.1], [float_lit 149 1] is [14.9]. *)
Definition float_lit (m : Z) (k : Z) : spec_float :=
  fdiv (binary_normalize prec emax m 0 false)
       (binary_normalize prec emax (10 ^ k) 0 false).

(** [x + y] *)
Definition add (x y : num) : res num :=
  match x, y with
  | PInt a, PInt b => Ok (PInt (a + b))
  | PInt a, PFloat g => bind (float_of_int a) (fun f => Ok (PFloat (fadd f g)))
  | PFloat f, PInt b => bind (float_of_int b) (fun g => Ok (PFloat (fadd f g)))
  | PFloat f, PFloat g => Ok (PFloat (fadd f g))
  end.

(** [x * y] *)
Definition mul (x y : num) : res num :=
  match x, y with
  | PInt a, PInt b => Ok (PInt (a * b))
  | PInt a, PFloat g => bind (float_of_int a) (fun f => Ok (PFloat (fmul f g)))
  | PFloat f, PInt b => bind (float_of_int b) (fun g => Ok (PFloat (fmul f g)))
  | PFloat f, PFloat g => Ok (PFloat (fmul f g))
  end.

(** The exact order between a double and an integer, as CPython's mixed
    comparison computes it: no rounding of the integer, [None] for NaN. *)
Definition compare_float_int (f : spec_float) (z : Z) : option comparison :=
  match f with
  | S754_nan => None
  | S754_infinity s => Some (if s then Lt else Gt)
  | S754_zero _ => Some (0 ?= z)
  | S754_finite s m e =>
      let v := cond_Zopp s (Zpos m) in
      if 0 <=? e then Some (v * 2 ^ e ?= z)
      else Some (v ?= z * 2 ^ (- e))
  end.

Definition compare (x y : num) : option comparison :=
  match x, y with
  | PInt a, PInt b => Some (a ?= b)
  | PFloat f, PInt b => compare_float_int f b
  | PInt a, PFloat g => option_map CompOpp (compare_float_int g a)
  | PFloat f, PFloat g => SFcompare f g
  end.

(** [x < y], [x <= y], [x == y], [x > y]; every comparison with NaN is
    false. *)
Definition lt (x y : num) : bool :=
  match compare x y with Some Lt => true | _ => false end.
Definition le (x y : num) : bool :=
  match compare x y with Some Lt | Some Eq => true | _ => false end.
Definition eqb (x y : num) : bool :=
  match compare x y with Some Eq => true | _ => false end.
Definition gt (x y : num) : bool :=
  match compare x y with Some Gt => true | _ => false end.

(** [sum(xs)]: starts from the integer [0] and adds from the left. *)
Fixpoint sum_from (acc : num) (xs : list num) : res num :=
  match xs with
  | [] => Ok acc
  | x :: xs' => bind (add acc x) (fun acc' => sum_from acc' xs')
  end.

Definition sum (xs : list num) : res num := sum_from (PInt 0) xs.

(** [int(x)]: truncation toward zero; [ValueError] on NaN and
    [OverflowError] on an infinity. *)
Definition int_of_float (f : spec_float) : res Z :=
  match f with
  | S754_nan => Raise (ValueError "cannot convert float NaN to integer")
  | S754_infinity _ =>
      Raise (OverflowError "cannot convert float infinity to integer")
  | S754_zero _ => Ok 0
  | S754_finite s m e =>
      Ok (cond_Zopp s (if 0 <=? e then Zpos m * 2 ^ e
                       else Zpos m / 2 ^ (- e)))
  end.

Definition int (x : num) : res Z :=
  match x with
  | PInt z => Ok z
  | PFloat f => int_of_float f
  end.

(** [x / y] (true division) for the two cases the program meets; the
    quotient of two integers is correctly rounded from the exact ratio. *)
Definition raw_float (z : Z) : spec_float :=
  match z with
  | Z0 => S754_zero false
  | Zpos p => S754_finite false p 0
  | Zneg p => S754_finite true p 0
  end.

Definition truediv (x y : num) : res num :=
  match x, y with
  | PInt a, PInt b =>
      if b =? 0 then Raise (ZeroDivisionError "division by zero")
      else match fdiv (raw_float a) (raw_float b) with
           | S754_infinity _ =>
               Raise (OverflowError "integer division result too large for a float")
           | q => Ok (PFloat q)
           end
  | PFloat f, PInt b =>
      if b =? 0 then Raise (ZeroDivisionError "float division by zero")
      else bind (float_of_int b) (fun g => Ok (PFloat (fdiv f g)))
  | PInt a, PFloat g =>
      match g with
      | S754_zero _ => Raise (ZeroDivisionError "float division by zero")
      | _ => bind (float_of_int a) (fun f => Ok (PFloat (fdiv f g)))
      end
  | PFloat f, PFloat g =>
      match g with
      | S754_zero _ => Raise (ZeroDivisionError "float division by zero")
      | _ => Ok (PFloat (fdiv f g))
      end
  end.

(** [max(xs)] on a non-empty sequence: the first element, replaced by each
    later one that compares greater. *)
Definition max_from (acc : num) (xs : list num) : num :=
  fold_left (fun best x => if gt x best then x else best) xs acc.

Definition max (xs : list num) : res num :=
  match xs with
  | [] => Raise (ValueError "max() arg is an empty sequence")
  | x :: xs' => Ok (max_from x xs')
  end.

(** *** Text *)

(** Strings are kept as their UTF-8 bytes; [len(s)] counts code points,
    that is the bytes that are not continuation bytes [10xxxxxx]. *)
Definition is_continuation (c : ascii) : bool :=
  let n := Z.of_nat (nat_of_ascii c) in (128 <=? n) && (n <? 192).

Fixpoint len_str (s : string) : Z :=
  match s with
  | EmptyString => 0
  | String c s' => (if is_continuation c then 0 else 1) + len_str s'
  end.

(** The code points of a string, each as a one-character string. *)
Fixpoint chars_from (cur : string) (s : string) : list string :=
  match s with
  | EmptyString => match cur with EmptyString => [] | _ => [cur] end
  | String c s' =>
      if is_continuation c then chars_from (cur ++ String c EmptyString) s'
      else match cur with
           | EmptyString => chars_from (String c EmptyString) s'
           | _ => cur :: chars_from (String c EmptyString) s'
           end
  end.

Definition chars (s : string) : list string := chars_from EmptyString s.

(** [s.lower()] and [s.upper()] on the ASCII letters; other bytes are
    kept.  [str.lower] and [str.upper] also map letters outside ASCII: no
    such letter lower-cases to an ASCII one the program compares with, and
    nothing proved below depends on what [upper] makes of one. *)
Definition lower_char (c : ascii) : ascii :=
  let n := nat_of_ascii c in
  if (65 <=? Z.of_nat n) && (Z.of_nat n <=? 90)
  then ascii_of_nat (n + 32) else c.

Definition upper_char (c : ascii) : ascii :=
  let n := nat_of_ascii c in
  if (97 <=? Z.of_nat n) && (Z.of_nat n <=? 122)
  then ascii_of_nat (n - 32) else c.

Fixpoint map_chars (f : ascii -> ascii) (s : string) : string :=
  match s with
  | EmptyString => EmptyString
  | String c s' => String (f c) (map_chars f s')
  end.

Definition lower : string -> string := map_chars lower_char.
Definition upper : string -> string := map_chars upper_char.

(** [sep.join(parts)] *)
Definition join (sep : string) (parts : list string) : string :=
  String.concat sep parts.

(** [str(z)] for an integer. *)
Definition str_int (z : Z) : string :=
  DecimalString.NilZero.string_of_int (Z.to_int z).

Definition pad2 (z : Z) : string :=
  if z <? 10 then "0" ++ str_int z else str_int z.

(** Half-to-even rounding of the rational [n / d] ([d > 0]) to an integer. *)
Definition round_half_even (n d : Z) : Z :=
  let q := n / d in
  let r := n mod d in
  match 2 * r ?= d with
  | Lt => q
  | Gt => q + 1
  | Eq => if Z.even q then q else q + 1
  end.

(** The magnitude of a finite double times one hundred, rounded half to
    even on its exact value: the digits [format(x, '.2f')] prints. *)
Definition hundredths (m : positive) (e : Z) : Z :=
  if 0 <=? e then Zpos m * 2 ^ e * 100
  else round_half_even (Zpos m * 100) (2 ^ (- e)).

(** [round(x, 2)]: the decimal with two places nearest the exact value
    (ties to even), then the double nearest that decimal; integers, NaN and
    the infinities round to themselves. *)
Definition round2_float (f : spec_float) : spec_float :=
  match f with
  | S754_finite s m e =>
      if 0 <=? e then f
      else match hundredths m e with
           | Zpos h => fdiv (S754_finite s h 0) (S754_finite false 100 0)
           | _ => S754_zero s
           end
  | _ => f
  end.

Definition round2 (x : num) : num :=
  match x with
  | PInt z => PInt z
  | PFloat f => PFloat (round2_float f)
  end.

(** [format(f, '.2f')] for a double. *)
Definition format_2f_float (f : spec_float) : string :=
  match f with
  | S754_nan => "nan"
  | S754_infinity s => if s then "-inf" else "inf"
  | S754_zero s => if s then "-0.00" else "0.00"
  | S754_finite s m e =>
      let h := hundredths m e in
      (if s then "-" else "") ++ str_int (h / 100) ++ "." ++ pad2 (h mod 100)
  end.

(** [f"{x:.2f}"] for a number: an integer is converted to a double first. *)
Definition format_2f (x : num) : res string :=
  match x with
  | PInt z => bind (float_of_int z) (fun f => Ok (format_2f_float f))
  | PFloat f => Ok (format_2f_float f)
  end.

(** [x - y] *)
Definition fsub := SFsub prec emax.

Definition sub (x y : num) : res num :=
  match x, y with
  | PInt a, PInt b => Ok (PInt (a - b))
  | PInt a, PFloat g => bind (float_of_int a) (fun f => Ok (PFloat (fsub f g)))
  | PFloat f, PInt b => bind (float_of_int b) (fun g => Ok (PFloat (fsub f g)))
  | PFloat f, PFloat g => Ok (PFloat (fsub f g))
  end.

(** The magnitude of a finite double times ten, rounded half to even on
    its exact value: the digits [format(x, '.1f')] prints. *)
Definition tenths (m : positive) (e : Z) : Z :=
  if 0 <=? e then Zpos m * 2 ^ e * 10
  else round_half_even (Zpos m * 10) (2 ^ (- e)).

(** [format(f, '+.1f')] for a double: the sign is always printed. *)
Definition format_plus_1f_float (f : spec_float) : string :=
  match f with
  | S754_nan => "+nan"
  | S754_infinity s => if s then "-inf" else "+inf"
  | S754_zero s => if s then "-0.0" else "+0.0"
  | S754_finite s m e =>
      let t := tenths m e in
      (if s then "-" else "+") ++ str_int (t / 10) ++ "." ++ str_int (t mod 10)
  end.

(** [f"{x:+.1f}"] for a number: an integer is converted to a double first. *)
Definition format_plus_1f (x : num) : res string :=
  match x with
  | PInt z => bind (float_of_int z) (fun f => Ok (format_plus_1f_float f))
  | PFloat f => Ok (format_plus_1f_float f)
  end.

End Py.

Notation "x <- c ;; k" := (Py.bind c (fun x => k))
  (at level 61, c at next level, right associativity).

(* ================================================================== *)
(** ** JSON documents: what [json.loads] returns and [json.dumps] takes *)

Module Json.

Inductive value : Type :=
  | JNull
  | JBool (b : bool)
  | JNum (n : Py.num)
  | JStr (s : string)
  | JList (l : list value)
  | JDict (kv : list (string * value)).

Definition JInt (z : Z) : value := JNum (Py.PInt z).

Fixpoint lookup (k : string) (kv : list (string * value)) : option value :=
  match kv with
  | [] => None
  | (k', v) :: kv' => if String.eqb k k' then Some v else lookup k kv'
  end.

(** [d.get(k, default)]; [AttributeError] when [d] is not a dict. *)
Definition get (d : value) (k : string) (default : value) : Py.res value :=
  match d with
  | JDict kv =>
      Py.Ok (match lookup k kv with Some v => v | None => default end)
  | _ => Py.Raise (Py.AttributeError "object has no attribute 'get'")
  end.

(** [len(v)]; numbers, booleans and [None] have no length. *)
Definition len (v : value) : Py.res Z :=
  match v with
  | JStr s => Py.Ok (Py.len_str s)
  | JList l => Py.Ok (Z.of_nat (List.length l))
  | JDict kv => Py.Ok (Z.of_nat (List.length kv))
  | _ => Py.Raise (Py.TypeError "object has no len()")
  end.

(** Truth value: [if v:] and [not v]. *)
Definition truthy (v : value) : bool :=
  match v with
  | JNull => false
  | JBool b => b
  | JNum (Py.PInt z) => negb (z =? 0)
  | JNum (Py.PFloat (S754_zero _)) => false
  | JNum (Py.PFloat _) => true
  | JStr s => negb (String.eqb s "")
  | JList l => match l with [] => false | _ => true end
  | JDict kv => match kv with [] => false | _ => true end
  end.

(** [for x in v]: the elements of a list, the keys of a dict, the
    characters of a string; anything else is not iterable. *)
Definition iterate (v : value) : Py.res (list value) :=
  match v with
  | JList l => Py.Ok l
  | JDict kv => Py.Ok (map (fun p => JStr (fst p)) kv)
  | JStr s => Py.Ok (map JStr (Py.chars s))
  | _ => Py.Raise (Py.TypeError "object is not iterable")
  end.

(** [f"{v:.2f}"]: numbers and booleans format, everything else raises
    ([ValueError] for a string, [TypeError] for [None], lists and dicts). *)
Definition format_2f (v : value) : Py.res string :=
  match v with
  | JNum n => Py.format_2f n
  | JBool b => Py.format_2f (Py.PInt (if b then 1 else 0))
  | JStr _ =>
      Py.Raise (Py.ValueError "Unknown format code 'f' for object of type 'str'")
  | JNull =>
      Py.Raise (Py.TypeError
                  "unsupported format string passed to NoneType.__format__")
  | JList _ =>
      Py.Raise (Py.TypeError
                  "unsupported format string passed to list.__format__")
  | JDict _ =>
      Py.Raise (Py.TypeError
                  "unsupported format string passed to dict.__format__")
  end.

(** [v[k]] with a string key and [v[n]] with an integer index. *)
Inductive key : Type :=
  | KStr (s : string)
  | KInt (z : Z).

Definition index_in (what : string) (l : list value) (z : Z) : Py.res value :=
  let n := Z.of_nat (List.length l) in
  let i := if z <? 0 then z + n else z in
  if (0 <=? i) && (i <? n)
  then match nth_error l (Z.to_nat i) with
       | Some x => Py.Ok x
       | None => Py.Raise (Py.IndexError (what ++ " index out of range"))
       end
  else Py.Raise (Py.IndexError (what ++ " index out of range")).

Definition subscript (v : value) (k : key) : Py.res value :=
  match v, k with
  | JDict kv, KStr s =>
      match lookup s kv with
      | Some x => Py.Ok x
      | None => Py.Raise (Py.KeyError s)
      end
  | JDict _, KInt z => Py.Raise (Py.KeyError (Py.str_int z))
  | JList l, KInt z => index_in "list" l z
  | JList _, KStr _ =>
      Py.Raise (Py.TypeError "list indices must be integers or slices, not str")
  | JStr s, KInt z => index_in "string" (map JStr (Py.chars s)) z
  | JStr _, KStr _ =>
      Py.Raise (Py.TypeError "string indices must be integers, not 'str'")
  | _, _ => Py.Raise (Py.TypeError "object is not subscriptable")
  end.

(** [v[:n]]: lists and strings slice; a dict or a scalar raises. *)
Definition slice_to (n : nat) (v : value) : Py.res value :=
  match v with
  | JList l => Py.Ok (JList (firstn n l))
  | JStr s => Py.Ok (JStr (String.concat "" (firstn n (Py.chars s))))
  | _ => Py.Raise (Py.TypeError "object is not subscriptable")
  end.

Section Printing.

(** [repr] of a float and of a string, taken from the interpreter. *)
Variable float_repr : spec_float -> string.
Variable str_repr : string -> string.

Definition str_num (n : Py.num) : string :=
  match n with
  | Py.PInt z => Py.str_int z
  | Py.PFloat f => float_repr f
  end.

(** [repr(v)] *)
Fixpoint repr (v : value) : string :=
  match v with
  | JNull => "None"
  | JBool b => if b then "True" else "False"
  | JNum n => str_num n
  | JStr s => str_repr s
  | JList l => "[" ++ Py.join ", " (map repr l) ++ "]"
  | JDict kv =>
      "{" ++ Py.join ", "
               (map (fun p => str_repr (fst p) ++ ": " ++ repr (snd p)) kv)
          ++ "}"
  end.

(** [str(v)], what an f-string prints for [{v}]. *)
Definition str (v : value) : string :=
  match v with
  | JStr s => s
  | _ => repr v
  end.

End Printing.

End Json.

(* ================================================================== *)
(** ** The DynamoDB table both stages share *)

Module Dynamo.

(** An attribute value, as the program hands it to boto3: a string that is
    not a JSON text, an integer, a string holding the JSON text of [j]
    (what [json.dumps] wrote and [json.loads] reads back), or any other
    value ([None], a boolean, a float, a list, a dict). *)
Inductive attr : Type :=
  | AText (s : string)
  | ANumber (z : Z)
  | AJson (j : Json.value)
  | AObj (j : Json.value).

Definition item : Type := list (string * attr).

Fixpoint attr_of (k : string) (it : item) : option attr :=
  match it with
  | [] => None
  | (k', a) :: it' => if String.eqb k k' then Some a else attr_of k it'
  end.

(** [it[k]] *)
Definition item_get (it : item) (k : string) : Py.res attr :=
  match attr_of k it with
  | Some a => Py.Ok a
  | None => Py.Raise (Py.KeyError k)
  end.

(** [it[k] = a] *)
Fixpoint item_set (it : item) (k : string) (a : attr) : item :=
  match it with
  | [] => [(k, a)]
  | (k', a') :: it' =>
      if String.eqb k k' then (k, a) :: it' else (k', a') :: item_set it' k a
  end.

(** The table: its items in the order a Scan walks them, the position the
    service gives an item with a new key, and the fault (if any) every call
    to the service currently raises. *)
Record table : Type := {
  items : list item;
  slot : string -> nat;
  outage : option Py.exn
}.

Definition with_items (t : table) (l : list item) : table :=
  {| items := l; slot := slot t; outage := outage t |}.

Definition has_id (id : string) (it : item) : bool :=
  match attr_of "id" it with
  | Some (AText s) => String.eqb s id
  | _ => false
  end.

Fixpoint insert_at (n : nat) (it : item) (l : list item) : list item :=
  match n, l with
  | O, _ => it :: l
  | S n', [] => [it]
  | S n', x :: l' => x :: insert_at n' it l'
  end.

Fixpoint replace_id (id : string) (it : item) (l : list item)
  : option (list item) :=
  match l with
  | [] => None
  | x :: l' =>
      if has_id id x then Some (it :: l')
      else option_map (cons x) (replace_id id it l')
  end.

(** *** What boto3 refuses to send

    Before a request goes out, boto3 serializes every value.  An integer
    is converted in a decimal context of 38 digits, exponent at most 126,
    that traps every loss: [decimal_signals z] is the text of the
    exception, if any.  A float is refused wherever it sits in the
    value. *)
Definition decimal_signals (z : Z) : option string :=
  let a := Z.abs z in
  if a <? 10 ^ 38 then None
  else if (10 ^ 127 <=? a)
          || ((10 ^ 126 <=? a) && (10 ^ 38 <=? Py.round_half_even a (10 ^ 89)))
  then Some "[<class 'decimal.Overflow'>, <class 'decimal.Inexact'>, <class 'decimal.Rounded'>]"
  else
    let digits := Z.of_nat (String.length (Py.str_int a)) in
    if a mod 10 ^ (digits - 38) =? 0
    then Some "[<class 'decimal.Rounded'>]"
    else Some "[<class 'decimal.Inexact'>, <class 'decimal.Rounded'>]".

Definition serialize_number (z : Z) : Py.res unit :=
  match decimal_signals z with
  | Some signals => Py.Raise (Py.ServiceError signals)
  | None => Py.Ok tt
  end.

Fixpoint serialize_value (j : Json.value) : Py.res unit :=
  match j with
  | Json.JNull | Json.JBool _ | Json.JStr _ => Py.Ok tt
  | Json.JNum (Py.PInt z) => serialize_number z
  | Json.JNum (Py.PFloat _) =>
      Py.Raise (Py.TypeError
                  "Float types are not supported. Use Decimal types instead.")
  | Json.JList l =>
      (fix each (l : list Json.value) : Py.res unit :=
         match l with
         | [] => Py.Ok tt
         | x :: l' => _ <- serialize_value x ;; each l'
         end) l
  | Json.JDict kv =>
      (fix each (kv : list (string * Json.value)) : Py.res unit :=
         match kv with
         | [] => Py.Ok tt
         | (_, x) :: kv' => _ <- serialize_value x ;; each kv'
         end) kv
  end.

Definition serialize (a : attr) : Py.res unit :=
  match a with
  | AText _ | AJson _ => Py.Ok tt
  | ANumber z => serialize_number z
  | AObj j => serialize_value j
  end.

Fixpoint serialize_all (l : list (string * attr)) : Py.res unit :=
  match l with
  | [] => Py.Ok tt
  | (_, a) :: l' => _ <- serialize a ;; serialize_all l'
  end.

(** [table.put_item(Item=it)]: the partition key is the string attribute
    [id]; an item with the same key is replaced. *)
Definition put_item (t : table) (it : item) : Py.res table :=
  _ <- serialize_all it ;;
  match outage t with
  | Some e => Py.Raise e
  | None =>
      match attr_of "id" it with
      | Some (AText id) =>
          match replace_id id it (items t) with
          | Some l => Py.Ok (with_items t l)
          | None => Py.Ok (with_items t (insert_at (slot t id) it (items t)))
          end
      | _ => Py.Raise (Py.ServiceError "ValidationException")
      end
  end.

(** The attributes a projection keeps. *)
Definition project (names : list string) (it : item) : item :=
  filter (fun p => existsb (String.eqb (fst p)) names) it.

(** [table.scan(Limit=n, ProjectionExpression=names)]: the first [n] items
    the scan meets, each cut down to the named attributes. *)
Definition scan (t : table) (limit : nat) (names : list string)
  : Py.res (list item) :=
  match outage t with
  | Some e => Py.Raise e
  | None => Py.Ok (map (project names) (firstn limit (items t)))
  end.

(** [table.update_item(Key={'id': id}, UpdateExpression='SET ...')]: sets the
    attributes on the item with that key, creating the item when absent. *)
Definition update_item (t : table) (id : string) (sets : list (string * attr))
  : Py.res table :=
  _ <- serialize_all sets ;;
  match outage t with
  | Some e => Py.Raise e
  | None =>
      let upd (it : item) :=
        fold_left (fun acc p => item_set acc (fst p) (snd p)) sets it in
      if existsb (has_id id) (items t)
      then Py.Ok (with_items t
                    (map (fun it => if has_id id it then upd it else it)
                         (items t)))
      else Py.Ok (with_items t
                    (insert_at (slot t id) (upd [("id", AText id)]) (items t)))
  end.

End Dynamo.

(* ================================================================== *)
(** ** Stage 1: [lambda/cost_analyzer/handler.py] *)

Module CostAnalyzer.

(** *** What EC2 and CloudWatch answer *)

Record ec2_instance : Type := {
  InstanceId : string;
  InstanceType : string;
  LaunchTime : string          (* already [.isoformat()]ed *)
}.

Record ec2_volume : Type := {
  VolumeId : string;
  Size : Z;
  State : string;
  Attachments : option (list string);
  CreateTime : string          (* already [.isoformat()]ed *)
}.

Record datapoint : Type := {
  Average : spec_float;
  Maximum : spec_float
}.

Record aws : Type := {
  describe_instances : Py.res (list (list ec2_instance));
  describe_volumes : Py.res (list ec2_volume);
  get_metric_statistics : string -> Py.res (list datapoint)
}.

(** *** The dictionaries the stage builds *)

Record cpu_stats : Type := {
  average : Py.num;
  max : Py.num
}.

Record instance : Type := {
  instance_id : string;
  instance_type : string;
  cpu_average : Py.num;
  cpu_max : Py.num;
  launch_time : string
}.

Record volume : Type := {
  volume_id : string;
  size_gb : Z;
  state : string;
  is_attached : bool;
  created_time : string
}.

Record metrics : Type := {
  ec2_instances : list instance;
  ebs_volumes : list volume;
  metrics_timestamp : string
}.

(** The keys a recommendation has besides the common ones. *)
Inductive details : Type :=
  | Ec2Details (current_type : string) (cpu_utilization : Py.num)
  | EbsDetails (size_gb : Z).

Record recommendation : Type := {
  type_ : string;
  severity : string;
  resource_id : string;
  detail : details;
  message : string;
  estimated_savings : Py.num
}.

Record results : Type := {
  timestamp : string;
  metrics_of : metrics;
  recommendations : list recommendation;
  total_potential_savings : Py.num
}.

Record response : Type := {
  statusCode : Z;
  body : Json.value
}.

(** The four readings of [datetime.now()] one run of the handler takes. *)
Record clock : Type := {
  at_collect : string;      (* isoformat, in [collect_aws_metrics] *)
  at_analyze : string;      (* isoformat, in [analyze_metrics] *)
  at_store : string;        (* '%Y-%m-%d_%H-%M-%S', in [store_results] *)
  at_return : string        (* isoformat, in the response *)
}.

(** *** [get_cloudwatch_metric] *)

Definition no_data : cpu_stats := {| average := Py.PInt 0; max := Py.PInt 0 |}.

Definition get_cloudwatch_metric (answer : Py.res (list datapoint))
  : cpu_stats :=
  let attempt :=
    datapoints <- answer ;;
    match datapoints with
    | [] => Py.Ok no_data
    | _ =>
        total <- Py.sum (map (fun d => Py.PFloat (Average d)) datapoints) ;;
        avg <- Py.truediv total (Py.PInt (Z.of_nat (List.length datapoints))) ;;
        max_val <- Py.max (map (fun d => Py.PFloat (Maximum d)) datapoints) ;;
        Py.Ok {| average := Py.round2 avg; max := Py.round2 max_val |}
    end in
  match attempt with
  | Py.Ok stats => stats
  | Py.Raise _ => no_data
  end.

(** *** [get_ec2_metrics] *)

Definition describe (a : aws) (i : ec2_instance) : instance :=
  let cpu_stats := get_cloudwatch_metric (get_metric_statistics a (InstanceId i)) in
  {| instance_id := InstanceId i;
     instance_type := InstanceType i;
     cpu_average := average cpu_stats;
     cpu_max := max cpu_stats;
     launch_time := LaunchTime i |}.

Definition get_ec2_metrics (a : aws) : list instance :=
  match describe_instances a with
  | Py.Ok reservations => map (describe a) (List.concat reservations)
  | Py.Raise _ => []
  end.

(** *** [get_ebs_metrics] *)

Definition measure (v : ec2_volume) : volume :=
  {| volume_id := VolumeId v;
     size_gb := Size v;
     state := State v;
     is_attached :=
       match Attachments v with
       | Some l => (0 <? Z.of_nat (List.length l))
       | None => false
       end;
     created_time := CreateTime v |}.

Definition get_ebs_metrics (a : aws) : list volume :=
  match describe_volumes a with
  | Py.Ok volumes => map measure volumes
  | Py.Raise _ => []
  end.

(** *** [collect_aws_metrics] *)

Definition collect_aws_metrics (a : aws) (now : string) : metrics :=
  {| ec2_instances := get_ec2_metrics a;
     ebs_volumes := get_ebs_metrics a;
     metrics_timestamp := now |}.

(** *** [json.dumps(results)]: the document the snapshot serializes to *)

Definition json_of_instance (i : instance) : Json.value :=
  Json.JDict [("instance_id", Json.JStr (instance_id i));
              ("instance_type", Json.JStr (instance_type i));
              ("cpu_average", Json.JNum (cpu_average i));
              ("cpu_max", Json.JNum (cpu_max i));
              ("launch_time", Json.JStr (launch_time i))].

Definition json_of_volume (v : volume) : Json.value :=
  Json.JDict [("volume_id", Json.JStr (volume_id v));
              ("size_gb", Json.JInt (size_gb v));
              ("state", Json.JStr (state v));
              ("is_attached", Json.JBool (is_attached v));
              ("created_time", Json.JStr (created_time v))].

Definition json_of_metrics (m : metrics) : Json.value :=
  Json.JDict [("ec2_instances", Json.JList (map json_of_instance (ec2_instances m)));
              ("ebs_volumes", Json.JList (map json_of_volume (ebs_volumes m)));
              ("timestamp", Json.JStr (metrics_timestamp m))].

Definition json_of_details (d : details) : list (string * Json.value) :=
  match d with
  | Ec2Details current_type cpu_utilization =>
      [("current_type", Json.JStr current_type);
       ("cpu_utilization", Json.JNum cpu_utilization)]
  | EbsDetails size_gb => [("size_gb", Json.JInt size_gb)]
  end.

Definition json_of_recommendation (r : recommendation) : Json.value :=
  Json.JDict ([("type", Json.JStr (type_ r));
               ("severity", Json.JStr (severity r));
               ("resource_id", Json.JStr (resource_id r))]
              ++ json_of_details (detail r)
              ++ [("message", Json.JStr (message r));
                  ("estimated_savings", Json.JNum (estimated_savings r))])%list.

Definition json_of_results (r : results) : Json.value :=
  Json.JDict [("timestamp", Json.JStr (timestamp r));
              ("metrics", json_of_metrics (metrics_of r));
              ("recommendations",
               Json.JList (map json_of_recommendation (recommendations r)));
              ("total_potential_savings", Json.JNum (total_potential_savings r))].

(** *** [store_results] *)

Definition store_results (t : Dynamo.table) (now : string) (r : results)
  : Py.res Dynamo.table :=
  Py.try_except
    (total <- Py.int (total_potential_savings r) ;;
     Dynamo.put_item t
       [("id", Dynamo.AText now);
        ("timestamp", Dynamo.AText (timestamp r));
        ("recommendations_count",
         Dynamo.ANumber (Z.of_nat (List.length (recommendations r))));
        ("total_potential_savings", Dynamo.ANumber total);
        ("data", Dynamo.AJson (json_of_results r))])
    (fun e => Py.Raise e).

Section Analysis.

(** [repr] of a float, as the f-strings print it. *)
Variable float_repr : spec_float -> string.

Definition str_num : Py.num -> string := Json.str_num float_repr.

(** *** [analyze_metrics] *)

Definition rightsize (i : instance) : recommendation :=
  {| type_ := "ec2_rightsize";
     severity := "medium";
     resource_id := instance_id i;
     detail := Ec2Details (instance_type i) (cpu_average i);
     message := "EC2 instance " ++ instance_id i
                ++ " has low CPU utilization (" ++ str_num (cpu_average i)
                ++ "%). Consider downsizing.";
     estimated_savings := Py.PInt 50 |}.

Definition cleanup (v : volume) : Py.res recommendation :=
  savings <- Py.mul (Py.PInt (size_gb v)) (Py.PFloat (Py.float_lit 10 2)) ;;
  Py.Ok {| type_ := "ebs_cleanup";
           severity := "low";
           resource_id := volume_id v;
           detail := EbsDetails (size_gb v);
           message := "EBS volume " ++ volume_id v ++ " ("
                      ++ Py.str_int (size_gb v)
                      ++ " GB) is unattached and costing money.";
           estimated_savings := savings |}.

Definition low_cpu (i : instance) : bool :=
  Py.lt (cpu_average i) (Py.PInt 15).

Definition analyze_metrics (now : string) (m : metrics) : Py.res results :=
  let ec2_recs := map rightsize (filter low_cpu (ec2_instances m)) in
  let unattached_volumes :=
    filter (fun v => negb (is_attached v)) (ebs_volumes m) in
  ebs_recs <- Py.mapM cleanup unattached_volumes ;;
  let recommendations := (ec2_recs ++ ebs_recs)%list in
  total <- Py.sum (map estimated_savings recommendations) ;;
  Py.Ok {| timestamp := now;
           metrics_of := m;
           recommendations := recommendations;
           total_potential_savings := total |}.

(** *** [lambda_handler] *)

Definition lambda_handler (a : aws) (t : Dynamo.table) (now : clock)
  : response * Dynamo.table :=
  let metrics_data := collect_aws_metrics a (at_collect now) in
  let attempt :=
    analysis_results <- analyze_metrics (at_analyze now) metrics_data ;;
    t' <- store_results t (at_store now) analysis_results ;;
    Py.Ok (analysis_results, t') in
  match attempt with
  | Py.Ok (analysis_results, t') =>
      ({| statusCode := 200;
          body := Json.JDict
            [("message", Json.JStr "Cost analysis completed successfully");
             ("timestamp", Json.JStr (at_return now));
             ("resources_analyzed", Json.JInt 3);
             ("recommendations",
              Json.JInt (Z.of_nat (List.length (recommendations analysis_results))))] |},
       t')
  | Py.Raise e =>
      ({| statusCode := 500;
          body := Json.JDict [("error", Json.JStr (Py.str_exn e))] |},
       t)
  end.

End Analysis.

End CostAnalyzer.

(* ================================================================== *)
(** ** Stage 2, the client: [lambda/ai_recommender/ai_client.py] *)

Module AIClient.

(** [os.environ] *)
Definition environ : Type := string -> option string.

Definition environ_get (env : environ) (name default : string) : string :=
  match env name with
  | Some v => v
  | None => default
  end.

(** *** The HTTP service behind [requests.post] *)

Record request : Type := {
  url : string;
  headers : list (string * string);
  json : Json.value;
  timeout : Z
}.

(** What one call meets: no answer at all (both are
    [RequestException]s), or an answer with its status code and its body,
    [None] when the body is not JSON. *)
Inductive reply : Type :=
  | ConnectionError (msg : string)
  | Timeout (msg : string)
  | Response (status_code : Z) (body : option Json.value).

Definition network : Type := request -> reply.

Definition post (net : network) (r : request) : Py.res reply :=
  match net r with
  | ConnectionError msg => Py.Raise (Py.RequestException msg)
  | Timeout msg => Py.Raise (Py.RequestException msg)
  | Response status_code body => Py.Ok (Response status_code body)
  end.

(** [response.raise_for_status()]: [HTTPError] for the 4xx and 5xx codes. *)
Definition raise_for_status (response : reply) : Py.res unit :=
  match response with
  | Response status_code _ =>
      if (400 <=? status_code) && (status_code <? 600)
      then Py.Raise (Py.RequestException
                       (Py.str_int status_code ++ " Error"))
      else Py.Ok tt
  | _ => Py.Ok tt
  end.

(** [response.json()]: [JSONDecodeError], a [RequestException], when the
    body is not JSON. *)
Definition response_json (response : reply) : Py.res Json.value :=
  match response with
  | Response _ (Some j) => Py.Ok j
  | _ => Py.Raise (Py.RequestException "Expecting value")
  end.

(** [try: c  except requests.exceptions.RequestException: h] *)
Definition except_request {A : Type} (c : Py.res A) (h : Py.res A)
  : Py.res A :=
  match c with
  | Py.Raise (Py.RequestException _) => h
  | other => other
  end.

(** *** The client object *)

Record client : Type := {
  provider : string;
  api_key : option string;
  model : string;
  temperature : spec_float;
  max_tokens : Z
}.

Definition _get_api_key (env : environ) (provider : string)
  : Py.res (option string) :=
  if String.eqb provider "groq" then Py.Ok (env "GROQ_API_KEY")
  else if String.eqb provider "openrouter" then Py.Ok (env "OPENROUTER_API_KEY")
  else if String.eqb provider "ollama" then Py.Ok None
  else Py.Raise (Py.ValueError ("Unsupported AI provider: " ++ provider)).

Definition _get_default_model (provider : string) : string :=
  if String.eqb provider "groq" then "llama-3.1-70b-versatile"
  else if String.eqb provider "openrouter" then "anthropic/claude-3.5-sonnet"
  else if String.eqb provider "ollama" then "llama3.1"
  else "llama-3.1-70b-versatile".

(** [_fallback_report]: the prompt is not looked at. *)
Definition _fallback_report (prompt : string) : string :=
  "
ü§ñ AWS COST OPTIMIZATION REPORT (Fallback Mode)

‚ö†Ô∏è AI service temporarily unavailable. Basic analysis provided:

üìä ANALYSIS COMPLETED
Your infrastructure has been analyzed. Check the DynamoDB table for detailed metrics.

üí° RECOMMENDATIONS
Review the recommendations stored in the database for cost savings opportunities.

üîß NEXT STEPS
1. Check CloudWatch Logs for detailed metrics
2. Review DynamoDB entries for full analysis
3. Retry AI analysis when service is available

For detailed insights, please check your DynamoDB table.
        ".

(** [f"Bearer {self.api_key}"] *)
Definition bearer (c : client) : string :=
  "Bearer " ++ match api_key c with Some k => k | None => "None" end.

Definition chat_payload (c : client) (prompt : string) : Json.value :=
  Json.JDict
    [("model", Json.JStr (model c));
     ("messages",
      Json.JList
        [Json.JDict [("role", Json.JStr "system");
                     ("content",
                      Json.JStr "You are an AWS cost optimization expert.")];
         Json.JDict [("role", Json.JStr "user");
                     ("content", Json.JStr prompt)]]);
     ("temperature", Json.JNum (Py.PFloat (temperature c)));
     ("max_tokens", Json.JInt (max_tokens c))].

(** [result['choices'][0]['message']['content']] *)
Definition chat_content (result : Json.value) : Py.res Json.value :=
  choices <- Json.subscript result (Json.KStr "choices") ;;
  first <- Json.subscript choices (Json.KInt 0) ;;
  message <- Json.subscript first (Json.KStr "message") ;;
  Json.subscript message (Json.KStr "content").

Definition _call_groq (c : client) (net : network) (prompt : string)
  : Py.res Json.value :=
  let request :=
    {| url := "https://api.groq.com/openai/v1/chat/completions";
       headers := [("Authorization", bearer c);
                   ("Content-Type", "application/json")];
       json := chat_payload c prompt;
       timeout := 30 |} in
  except_request
    (response <- post net request ;;
     _ <- raise_for_status response ;;
     result <- response_json response ;;
     chat_content result)
    (Py.Ok (Json.JStr (_fallback_report prompt))).

Definition _call_openrouter (c : client) (net : network) (prompt : string)
  : Py.res Json.value :=
  let request :=
    {| url := "https://openrouter.ai/api/v1/chat/completions";
       headers := [("Authorization", bearer c);
                   ("Content-Type", "application/json");
                   ("HTTP-Referer",
                    "https://github.com/yourusername/aws-ai-cost-optimizer");
                   ("X-Title", "AWS Cost Optimizer")];
       json := chat_payload c prompt;
       timeout := 30 |} in
  except_request
    (response <- post net request ;;
     _ <- raise_for_status response ;;
     result <- response_json response ;;
     chat_content result)
    (Py.Ok (Json.JStr (_fallback_report prompt))).

Definition _call_ollama (c : client) (env : environ) (net : network)
    (prompt : string) : Py.res Json.value :=
  let ollama_host := environ_get env "OLLAMA_HOST" "http://localhost:11434" in
  let request :=
    {| url := ollama_host ++ "/api/generate";
       headers := [];
       json := Json.JDict [("model", Json.JStr (model c));
                           ("prompt", Json.JStr prompt);
                           ("stream", Json.JBool false)];
       timeout := 60 |} in
  except_request
    (response <- post net request ;;
     _ <- raise_for_status response ;;
     result <- response_json response ;;
     Json.subscript result (Json.KStr "response"))
    (Py.Ok (Json.JStr (_fallback_report prompt))).

Section Runtime.

(** [float(s)], [int(s)] and [json.dumps(v, indent=2)], taken from the
    interpreter and its library. *)
Variable float_of_str : string -> Py.res spec_float.
Variable int_of_str : string -> Py.res Z.
Variable json_dumps : Json.value -> string.

(** [AIClient()] *)
Definition init (env : environ) : Py.res client :=
  let provider := Py.lower (environ_get env "AI_PROVIDER" "groq") in
  api_key <- _get_api_key env provider ;;
  let model := environ_get env "AI_MODEL" (_get_default_model provider) in
  temperature <- float_of_str (environ_get env "AI_TEMPERATURE" "0.7") ;;
  max_tokens <- int_of_str (environ_get env "AI_MAX_TOKENS" "2000") ;;
  Py.Ok {| provider := provider; api_key := api_key; model := model;
           temperature := temperature; max_tokens := max_tokens |}.

Definition _build_prompt (metrics_data : Json.value) : Py.res string :=
  recommendations <- Json.get metrics_data "recommendations" (Json.JList []) ;;
  total_savings <- Json.get metrics_data "total_potential_savings" (Json.JInt 0) ;;
  metrics <- Json.get metrics_data "metrics" (Json.JDict []) ;;
  ec2_instances <- Json.get metrics "ec2_instances" (Json.JList []) ;;
  ec2_count <- Json.len ec2_instances ;;
  metrics' <- Json.get metrics_data "metrics" (Json.JDict []) ;;
  ebs_volumes <- Json.get metrics' "ebs_volumes" (Json.JList []) ;;
  ebs_count <- Json.len ebs_volumes ;;
  total_text <- Json.format_2f total_savings ;;
  Py.Ok
    ("You are an AWS cost optimization expert. Analyze this infrastructure data and create a clear, actionable cost optimization report.

INFRASTRUCTURE SUMMARY:
- EC2 Instances: "
     ++ Py.str_int ec2_count
     ++ "
- EBS Volumes: "
     ++ Py.str_int ebs_count
     ++ "
- Total Potential Savings: $"
     ++ total_text
     ++ "/month

RECOMMENDATIONS FOUND:
"
     ++ json_dumps recommendations
     ++ "

Create a professional cost optimization report with:
1. Executive Summary (2-3 sentences)
2. Top 3 Priority Actions (with specific resource IDs and savings)
3. Quick Wins (easy to implement)
4. Long-term Optimizations

Use clear formatting with emojis for readability. Be specific and actionable.
Keep the tone professional but friendly.").

Definition generate_report (c : client) (env : environ) (net : network)
    (metrics_data : Json.value) : Py.res Json.value :=
  prompt <- _build_prompt metrics_data ;;
  if String.eqb (provider c) "groq" then _call_groq c net prompt
  else if String.eqb (provider c) "openrouter" then _call_openrouter c net prompt
  else if String.eqb (provider c) "ollama" then _call_ollama c env net prompt
  else Py.Raise (Py.ValueError ("Unsupported provider: " ++ provider c)).

End Runtime.

End AIClient.

(* ================================================================== *)
(** ** Stage 2, the templates: [lambda/ai_recommender/prompt_templates.py] *)

Module PromptTemplates.

Definition SYSTEM_PROMPT : string :=
  "You are an expert AWS Solutions Architect specializing in cost optimization and FinOps. 
You provide clear, actionable recommendations based on infrastructure metrics.
Your reports are professional, concise, and focused on practical cost savings.".

(** [v < n] for an integer [n]: numbers and booleans compare, anything
    else raises [TypeError]. *)
Definition less_than (v : Json.value) (n : Z) : Py.res bool :=
  match v with
  | Json.JNum x => Py.Ok (Py.lt x (Py.PInt n))
  | Json.JBool b => Py.Ok ((if b then 1 else 0) <? n)
  | _ => Py.Raise (Py.TypeError "'<' not supported between instances")
  end.

(** A list comprehension with a condition that may raise. *)
Fixpoint filterM {A : Type} (f : A -> Py.res bool) (l : list A)
  : Py.res (list A) :=
  match l with
  | [] => Py.Ok []
  | a :: l' =>
      keep <- f a ;;
      rest <- filterM f l' ;;
      Py.Ok (if keep then a :: rest else rest)
  end.

(** [for idx, x in enumerate(l, start)] *)
Fixpoint mapM_enumerate {A B : Type} (f : Z -> A -> Py.res B) (start : Z)
    (l : list A) : Py.res (list B) :=
  match l with
  | [] => Py.Ok []
  | a :: l' =>
      b <- f start a ;;
      bs <- mapM_enumerate f (start + 1) l' ;;
      Py.Ok (b :: bs)
  end.

Section Printing.

Variable float_repr : spec_float -> string.
Variable str_repr : string -> string.

Definition format_recommendation (idx : Z) (rec : Json.value)
  : Py.res string :=
  rec_type <- Json.get rec "type" (Json.JStr "unknown") ;;
  resource_id <- Json.get rec "resource_id" (Json.JStr "N/A") ;;
  message <- Json.get rec "message" (Json.JStr "No details") ;;
  savings <- Json.get rec "estimated_savings" (Json.JInt 0) ;;
  savings_text <- Json.format_2f savings ;;
  Py.Ok
    ("
**Recommendation "
     ++ Py.str_int idx
     ++ "**: "
     ++ Json.str float_repr str_repr rec_type
     ++ "
- Resource: "
     ++ Json.str float_repr str_repr resource_id
     ++ "
- Issue: "
     ++ Json.str float_repr str_repr message
     ++ "
- Potential Savings: $"
     ++ savings_text
     ++ "/month
").

Definition _format_recommendations (recommendations : Json.value)
  : Py.res string :=
  if negb (Json.truthy recommendations)
  then Py.Ok "No specific recommendations at this time."
  else
    recs <- Json.iterate recommendations ;;
    formatted <- mapM_enumerate format_recommendation 1 recs ;;
    Py.Ok (Py.join "
" formatted).

Definition is_low_cpu (i : Json.value) : Py.res bool :=
  cpu <- Json.get i "cpu_average" (Json.JInt 100) ;;
  less_than cpu 15.

Definition is_unattached (v : Json.value) : Py.res bool :=
  attached <- Json.get v "is_attached" (Json.JBool true) ;;
  Py.Ok (negb (Json.truthy attached)).

Definition get_cost_analysis_prompt (metrics_data : Json.value)
  : Py.res string :=
  recommendations <- Json.get metrics_data "recommendations" (Json.JList []) ;;
  total_savings <- Json.get metrics_data "total_potential_savings" (Json.JInt 0) ;;
  metrics <- Json.get metrics_data "metrics" (Json.JDict []) ;;
  ec2_instances <- Json.get metrics "ec2_instances" (Json.JList []) ;;
  ebs_volumes <- Json.get metrics "ebs_volumes" (Json.JList []) ;;
  instances <- Json.iterate ec2_instances ;;
  low_cpu_instances <- filterM is_low_cpu instances ;;
  volumes <- Json.iterate ebs_volumes ;;
  unattached_volumes <- filterM is_unattached volumes ;;
  n_ec2 <- Json.len ec2_instances ;;
  n_ebs <- Json.len ebs_volumes ;;
  let n_low := Z.of_nat (List.length low_cpu_instances) in
  let n_unattached := Z.of_nat (List.length unattached_volumes) in
  total_text <- Json.format_2f total_savings ;;
  details <- _format_recommendations recommendations ;;
  Py.Ok
    ("
# AWS Cost Optimization Analysis Request

## Infrastructure Overview
- **Total EC2 Instances**: "
     ++ Py.str_int n_ec2
     ++ "
- **Total EBS Volumes**: "
     ++ Py.str_int n_ebs
     ++ "
- **Underutilized Instances**: "
     ++ Py.str_int n_low
     ++ " (< 15% CPU)
- **Unattached Volumes**: "
     ++ Py.str_int n_unattached
     ++ "
- **Estimated Monthly Savings Potential**: $"
     ++ total_text
     ++ "

## Detailed Recommendations
"
     ++ details
     ++ "

## Your Task
Create a professional AWS cost optimization report with the following structure:

### 1. Executive Summary
- Brief overview of current state (2-3 sentences)
- Total potential savings highlighted
- Urgency level (low/medium/high)

### 2. Priority Actions (Top 3)
For each action include:
- 🎯 Specific resource ID
- 💰 Estimated monthly savings
- 📊 Current utilization/state
- ✅ Recommended action
- ⚠️ Any risks or considerations

### 3. Quick Wins (Easy Implementation)
List 2-3 actions that can be done immediately with minimal risk

### 4. Long-term Optimizations
Suggest architectural improvements for sustained cost reduction

## Formatting Guidelines
- Use emojis for visual clarity
- Keep explanations concise and actionable
- Include specific resource IDs
- Provide exact savings estimates
- Use professional but friendly tone
- Format for email readability

Generate the report now.
").

Definition get_summary_prompt (metrics_data : Json.value) : Py.res string :=
  total_savings <- Json.get metrics_data "total_potential_savings" (Json.JInt 0) ;;
  recommendations <- Json.get metrics_data "recommendations" (Json.JList []) ;;
  rec_count <- Json.len recommendations ;;
  total_text <- Json.format_2f total_savings ;;
  Py.Ok
    ("
Create a 3-sentence executive summary of AWS cost optimization findings:
- "
     ++ Py.str_int rec_count
     ++ " optimization opportunities identified
- $"
     ++ total_text
     ++ " in potential monthly savings
- Focus on the single most impactful action

Keep it concise and executive-friendly.
").

End Printing.

(** *** [get_comparison_prompt] *)

(** A JSON value used as a number: [bool] is a subclass of [int]. *)
Definition as_num (v : Json.value) : option Py.num :=
  match v with
  | Json.JNum x => Some x
  | Json.JBool b => Some (Py.PInt (if b then 1 else 0))
  | _ => None
  end.

(** [a - b] *)
Definition subtract (a b : Json.value) : Py.res Py.num :=
  match as_num a, as_num b with
  | Some x, Some y => Py.sub x y
  | _, _ => Py.Raise (Py.TypeError "unsupported operand type(s) for -")
  end.

(** [v > n] for an integer [n] *)
Definition greater_than (v : Json.value) (n : Z) : Py.res bool :=
  match as_num v with
  | Some x => Py.Ok (Py.gt x (Py.PInt n))
  | None => Py.Raise (Py.TypeError "'>' not supported between instances")
  end.

(** [(change / previous_savings * 100) if previous_savings > 0 else 0] *)
Definition change_percent (change : Py.num) (previous_savings : Json.value)
  : Py.res Py.num :=
  rising <- greater_than previous_savings 0 ;;
  if rising
  then
    match as_num previous_savings with
    | Some previous =>
        ratio <- Py.truediv change previous ;;
        Py.mul ratio (Py.PInt 100)
    | None => Py.Raise (Py.TypeError "unsupported operand type(s) for /")
    end
  else Py.Ok (Py.PInt 0).

Definition get_comparison_prompt (current_data previous_data : Json.value)
  : Py.res string :=
  current_savings <- Json.get current_data "total_potential_savings" (Json.JInt 0) ;;
  previous_savings <- Json.get previous_data "total_potential_savings" (Json.JInt 0) ;;
  change <- subtract current_savings previous_savings ;;
  percent <- change_percent change previous_savings ;;
  current_text <- Json.format_2f current_savings ;;
  current_recs <- Json.get current_data "recommendations" (Json.JList []) ;;
  current_count <- Json.len current_recs ;;
  previous_text <- Json.format_2f previous_savings ;;
  previous_recs <- Json.get previous_data "recommendations" (Json.JList []) ;;
  previous_count <- Json.len previous_recs ;;
  change_text <- Py.format_2f change ;;
  percent_text <- Py.format_plus_1f percent ;;
  Py.Ok
    ("
# Week-over-Week Cost Analysis

## This Week
- Potential Savings: $"
     ++ current_text
     ++ "
- Recommendations: "
     ++ Py.str_int current_count
     ++ "

## Last Week
- Potential Savings: $"
     ++ previous_text
     ++ "
- Recommendations: "
     ++ Py.str_int previous_count
     ++ "

## Change
- Savings Delta: $"
     ++ change_text
     ++ " ("
     ++ percent_text
     ++ "%)

Analyze this trend and provide:
1. What changed and why
2. Is the infrastructure becoming more or less optimized?
3. Recommended focus areas for next week

Keep it brief and actionable.
").

End PromptTemplates.

(* ================================================================== *)
(** ** Stage 2, the handler: [lambda/ai_recommender/handler.py] *)

Module Recommender.

(** The module-level settings read from the environment at import. *)
Record config : Type := {
  TABLE_NAME : string;
  SNS_TOPIC_ARN : string;
  S3_BUCKET : string;
  ENABLE_EMAIL : bool;
  ENABLE_S3 : bool
}.

Definition configure (env : AIClient.environ) : config :=
  {| TABLE_NAME := AIClient.environ_get env "DYNAMODB_TABLE" "cost-optimizer-data";
     SNS_TOPIC_ARN := AIClient.environ_get env "SNS_TOPIC_ARN" "";
     S3_BUCKET := AIClient.environ_get env "S3_BUCKET" "";
     ENABLE_EMAIL :=
       String.eqb
         (Py.lower (AIClient.environ_get env "ENABLE_EMAIL_NOTIFICATIONS" "true"))
         "true";
     ENABLE_S3 :=
       String.eqb
         (Py.lower (AIClient.environ_get env "ENABLE_S3_REPORTS" "true"))
         "true" |}.

(** The services the handler writes to. *)
Record s3_object : Type := {
  Bucket : string;
  Key : string;
  Body : string;
  ContentType : string
}.

Record sns_message : Type := {
  TopicArn : string;
  Subject : string;
  Message : string
}.

Record world : Type := {
  table : Dynamo.table;
  s3 : list s3_object;
  s3_outage : option Py.exn;
  sns : list sns_message;
  sns_outage : option Py.exn
}.

Definition with_table (w : world) (t : Dynamo.table) : world :=
  {| table := t; s3 := s3 w; s3_outage := s3_outage w;
     sns := sns w; sns_outage := sns_outage w |}.

(** The readings of [datetime.now()] one run takes. *)
Record clock : Type := {
  at_fallback : string;     (* '%B %d, %Y', in [generate_fallback_report] *)
  at_s3 : string;           (* '%Y-%m-%d_%H-%M-%S', in [save_to_s3] *)
  at_sns : string;          (* '%B %d, %Y', in [send_notification] *)
  at_update : string;       (* isoformat, in [update_analysis_with_report] *)
  at_return : string        (* isoformat, in the response *)
}.

(** What [get_latest_analysis] hands on: the scanned item, with its [data]
    attribute replaced by the parsed document. *)
Record analysis : Type := {
  attrs : Dynamo.item;
  data : Json.value
}.

(** *** [get_latest_analysis] *)

(** [a < b] between two attribute values used as sort keys. *)
Definition key_lt (a b : Dynamo.attr) : Py.res bool :=
  match a, b with
  | Dynamo.AText s, Dynamo.AText s' => Py.Ok (String.ltb s s')
  | Dynamo.ANumber z, Dynamo.ANumber z' => Py.Ok (z <? z')
  | _, _ => Py.Raise (Py.TypeError "'<' not supported between instances")
  end.

(** [sorted(items, key=..., reverse=True)]: descending, and stable. *)
Fixpoint insert_desc (x : Dynamo.attr * Dynamo.item)
    (sorted : list (Dynamo.attr * Dynamo.item))
  : Py.res (list (Dynamo.attr * Dynamo.item)) :=
  match sorted with
  | [] => Py.Ok [x]
  | y :: sorted' =>
      below <- key_lt (fst x) (fst y) ;;
      if below
      then (rest <- insert_desc x sorted' ;; Py.Ok (y :: rest))
      else Py.Ok (x :: y :: sorted')
  end.

Fixpoint sort_desc (l : list (Dynamo.attr * Dynamo.item))
  : Py.res (list (Dynamo.attr * Dynamo.item)) :=
  match l with
  | [] => Py.Ok []
  | x :: l' => sorted <- sort_desc l' ;; insert_desc x sorted
  end.

Definition sorted_by_timestamp (items : list Dynamo.item)
  : Py.res (list Dynamo.item) :=
  keyed <- Py.mapM (fun it => k <- Dynamo.item_get it "timestamp" ;;
                              Py.Ok (k, it)) items ;;
  sorted <- sort_desc keyed ;;
  Py.Ok (map snd sorted).

(** [json.loads(a)] *)
Definition json_loads (a : Dynamo.attr) : Py.res Json.value :=
  match a with
  | Dynamo.AJson j => Py.Ok j
  | Dynamo.AText _ => Py.Raise (Py.ValueError "Expecting value")
  | _ => Py.Raise (Py.TypeError "the JSON object must be str, bytes or bytearray")
  end.

Definition get_latest_analysis (t : Dynamo.table) : option analysis :=
  let attempt :=
    items <- Dynamo.scan t 10 ["id"; "timestamp"; "data"; "recommendations_count"] ;;
    match items with
    | [] => Py.Ok None
    | _ =>
        sorted_items <- sorted_by_timestamp items ;;
        match sorted_items with
        | [] => Py.Raise (Py.IndexError "list index out of range")
        | latest :: _ =>
            text <- Dynamo.item_get latest "data" ;;
            parsed <- json_loads text ;;
            Py.Ok (Some {| attrs := latest; data := parsed |})
        end
    end in
  match attempt with
  | Py.Ok r => r
  | Py.Raise _ => None
  end.

Section Runtime.

(** Taken from the interpreter and its library: [repr] of a float and of a
    string, [float(s)], [int(s)], [json.dumps(v, indent=2)]. *)
Variable float_repr : spec_float -> string.
Variable str_repr : string -> string.
Variable float_of_str : string -> Py.res spec_float.
Variable int_of_str : string -> Py.res Z.
Variable json_dumps : Json.value -> string.

Definition str_value : Json.value -> string := Json.str float_repr str_repr.

(** *** [generate_fallback_report] *)

Definition render_recommendation (idx : Z) (rec : Json.value)
  : Py.res string :=
  rec_type <- Json.get rec "type" (Json.JStr "Unknown") ;;
  shouted <- match rec_type with
             | Json.JStr s => Py.Ok (Py.upper s)
             | _ => Py.Raise (Py.AttributeError "object has no attribute 'upper'")
             end ;;
  resource_id <- Json.get rec "resource_id" (Json.JStr "N/A") ;;
  savings <- Json.get rec "estimated_savings" (Json.JInt 0) ;;
  savings_text <- Json.format_2f savings ;;
  message <- Json.get rec "message" (Json.JStr "No details") ;;
  Py.Ok (Py.str_int idx ++ ". " ++ shouted ++ "
"
         ++ "   Resource: " ++ str_value resource_id ++ "
"
         ++ "   Savings: $" ++ savings_text ++ "/month
"
         ++ "   " ++ str_value message ++ "

").

Definition report_header (today total_text : string) (count : Z) : string :=
  "
═══════════════════════════════════════════════════════════
 AWS COST OPTIMIZATION REPORT
 "
     ++ today
     ++ "
═══════════════════════════════════════════════════════════

💰 POTENTIAL MONTHLY SAVINGS: $"
     ++ total_text
     ++ "

📊 RECOMMENDATIONS FOUND: "
     ++ Py.str_int count
     ++ "

".

Definition report_footer : string :=
  "
═══════════════════════════════════════════════════════════
Next analysis: Next scheduled run
═══════════════════════════════════════════════════════════
".

Definition top_heading : string :=
  "🎯 TOP RECOMMENDATIONS:

".

Definition nothing_found : string :=
  "✅ No optimization opportunities found at this time.
"
  ++ "Your infrastructure appears well-optimized!

".

Definition generate_fallback_report (today : string) (analysis_data : analysis)
  : Py.res string :=
  let data := data analysis_data in
  recommendations <- Json.get data "recommendations" (Json.JList []) ;;
  total_savings <- Json.get data "total_potential_savings" (Json.JInt 0) ;;
  total_text <- Json.format_2f total_savings ;;
  count <- Json.len recommendations ;;
  let report := report_header today total_text count in
  report <-
    (if Json.truthy recommendations
     then
       top <- Json.slice_to 5 recommendations ;;
       recs <- Json.iterate top ;;
       blocks <- PromptTemplates.mapM_enumerate render_recommendation 1 recs ;;
       Py.Ok (report ++ top_heading ++ String.concat "" blocks)
     else
       Py.Ok (report ++ nothing_found)) ;;
  Py.Ok (report ++ report_footer).

(** *** [generate_ai_report] *)

Definition generate_ai_report (env : AIClient.environ) (net : AIClient.network)
    (today : string) (analysis_data : analysis) : Py.res Json.value :=
  Py.try_except
    (let data := data analysis_data in
     ai_client <- AIClient.init float_of_str int_of_str env ;;
     report <- AIClient.generate_report json_dumps ai_client env net data ;;
     _ <- Json.len report ;;
     Py.Ok report)
    (fun _ =>
       report <- generate_fallback_report today analysis_data ;;
       Py.Ok (Json.JStr report)).

(** *** [save_to_s3], [send_notification], [update_analysis_with_report] *)

(** [report.encode('utf-8')], and a string where boto3 wants one. *)
Definition as_text (report : Json.value) : Py.res string :=
  match report with
  | Json.JStr s => Py.Ok s
  | _ => Py.Raise (Py.AttributeError "object has no attribute 'encode'")
  end.

Definition save_to_s3 (cfg : config) (w : world) (now : string)
    (report : Json.value) : world :=
  if String.eqb (S3_BUCKET cfg) "" then w
  else
    let attempt :=
      let key := "reports/cost-report_" ++ now ++ ".txt" in
      body <- as_text report ;;
      match s3_outage w with
      | Some e => Py.Raise e
      | None =>
          Py.Ok {| table := table w;
                   s3 := ({| Bucket := S3_BUCKET cfg; Key := key; Body := body;
                             ContentType := "text/plain" |} :: s3 w)%list;
                   s3_outage := s3_outage w;
                   sns := sns w; sns_outage := sns_outage w |}
      end in
    match attempt with
    | Py.Ok w' => w'
    | Py.Raise _ => w
    end.

Definition send_notification (cfg : config) (w : world) (today : string)
    (report : Json.value) : world :=
  if String.eqb (SNS_TOPIC_ARN cfg) "" then w
  else
    let attempt :=
      let subject := "AWS Cost Optimization Report - " ++ today in
      message <- as_text report ;;
      match sns_outage w with
      | Some e => Py.Raise e
      | None =>
          Py.Ok {| table := table w; s3 := s3 w; s3_outage := s3_outage w;
                   sns := ({| TopicArn := SNS_TOPIC_ARN cfg; Subject := subject;
                              Message := message |} :: sns w)%list;
                   sns_outage := sns_outage w |}
      end in
    match attempt with
    | Py.Ok w' => w'
    | Py.Raise _ => w
    end.

(** The report as an attribute value; whether boto3 sends it is decided
    by [Dynamo.serialize] inside [Dynamo.update_item]. *)
Definition report_attr (report : Json.value) : Dynamo.attr :=
  match report with
  | Json.JStr s => Dynamo.AText s
  | Json.JNum (Py.PInt z) => Dynamo.ANumber z
  | other => Dynamo.AObj other
  end.

Definition update_analysis_with_report (w : world) (analysis_id : Dynamo.attr)
    (now : string) (report : Json.value) : world :=
  let attempt :=
    match analysis_id with
    | Dynamo.AText id =>
        Dynamo.update_item (table w) id
          [("ai_report", report_attr report);
           ("report_generated_at", Dynamo.AText now)]
    | _ => Py.Raise (Py.ServiceError "ValidationException")
    end in
  match attempt with
  | Py.Ok t' => with_table w t'
  | Py.Raise _ => w
  end.

(** *** [lambda_handler] *)

Definition lambda_handler (cfg : config) (env : AIClient.environ)
    (net : AIClient.network) (w : world) (now : clock)
  : CostAnalyzer.response * world :=
  match get_latest_analysis (table w) with
  | None =>
      ({| CostAnalyzer.statusCode := 404;
          CostAnalyzer.body :=
            Json.JDict [("error", Json.JStr "No analysis data found")] |},
       w)
  | Some latest_analysis =>
      let failed (e : Py.exn) (w' : world) :=
        ({| CostAnalyzer.statusCode := 500;
            CostAnalyzer.body :=
              Json.JDict [("error", Json.JStr (Py.str_exn e))] |},
         w') in
      match generate_ai_report env net (at_fallback now) latest_analysis with
      | Py.Raise e => failed e w
      | Py.Ok ai_report =>
          let w1 :=
            if ENABLE_S3 cfg && negb (String.eqb (S3_BUCKET cfg) "")
            then save_to_s3 cfg w (at_s3 now) ai_report else w in
          let w2 :=
            if ENABLE_EMAIL cfg && negb (String.eqb (SNS_TOPIC_ARN cfg) "")
            then send_notification cfg w1 (at_sns now) ai_report else w1 in
          match Dynamo.item_get (attrs latest_analysis) "id" with
          | Py.Raise e => failed e w2
          | Py.Ok analysis_id =>
              let w3 :=
                update_analysis_with_report w2 analysis_id (at_update now)
                  ai_report in
              match Json.len ai_report with
              | Py.Raise e => failed e w3
              | Py.Ok report_length =>
                  ({| CostAnalyzer.statusCode := 200;
                      CostAnalyzer.body :=
                        Json.JDict
                          [("message", Json.JStr "AI report generated successfully");
                           ("timestamp", Json.JStr (at_return now));
                           ("report_length", Json.JInt report_length)] |},
                   w3)
              end
          end
      end
  end.

End Runtime.

End Recommender.

(* ================================================================== *)
(** ** Properties *)

(** *** The numeric model on the literals and formats the program uses *)

Example float_lit_tenth :
  Py.float_lit 1 1 = S754_finite false 7205759403792794 (-56).
Proof. vm_compute. reflexivity. Qed.

Example format_examples :
  Py.format_2f (Py.PFloat (Py.float_lit 125 3)) = Py.Ok "0.12"
  /\ Py.format_2f (Py.PFloat (Py.float_lit 375 3)) = Py.Ok "0.38"
  /\ Py.format_2f (Py.PInt (2 ^ 53 + 1)) = Py.Ok "9007199254740992.00"
  /\ Py.format_2f (Py.PInt 50) = Py.Ok "50.00".
Proof. vm_compute. repeat split. Qed.

Example round2_examples :
  Py.round2_float (Py.float_lit 2675 3) = Py.float_lit 267 2
  /\ Py.round2_float (Py.float_lit 125 3) = Py.float_lit 12 2
  /\ Py.round2_float (Py.float_lit 149349 4) = Py.float_lit 1493 2
  /\ Py.truediv (Py.PInt 1) (Py.PInt 3)
     = Py.Ok (Py.PFloat (S754_finite false 6004799503160661 (-54))).
Proof. vm_compute. repeat split. Qed.

(** *** Signs of sums and products of doubles *)

Module FloatFacts.

(** A double that is not NaN and not below zero. *)
Definition fnonneg (f : spec_float) : bool :=
  match f with
  | S754_nan => false
  | S754_infinity s => negb s
  | S754_zero _ => true
  | S754_finite s _ _ => negb s
  end.

(** Neither NaN nor an infinity. *)
Definition ffinite (f : spec_float) : bool :=
  match f with
  | S754_zero _ | S754_finite _ _ _ => true
  | _ => false
  end.

Definition nonneg (x : Py.num) : bool := Py.le (Py.PInt 0) x.

Lemma nonneg_int (z : Z) : nonneg (Py.PInt z) = true <-> 0 <= z.
Proof.
  unfold nonneg, Py.le, Py.compare.
  destruct (Z.compare_spec 0 z) as [E|E|E]; split; intros H;
    try reflexivity; try discriminate; lia.
Qed.

Lemma nonneg_float (f : spec_float) : nonneg (Py.PFloat f) = fnonneg f.
Proof.
  unfold nonneg, Py.le, Py.compare, Py.compare_float_int.
  destruct f as [s|s| |s m e]; try reflexivity.
  - now destruct s.
  - unfold cond_Zopp, fnonneg.
    destruct (0 <=? e) eqn:He.
    + apply Z.leb_le in He.
      assert (Hp : 0 < 2 ^ e) by now apply Z.pow_pos_nonneg.
      destruct s; cbn [option_map negb].
      * assert (Hlt : Z.neg m * 2 ^ e < 0) by (apply Z.mul_neg_pos; lia).
        apply Z.compare_lt_iff in Hlt.
        change (- Z.pos m) with (Z.neg m). now rewrite Hlt.
      * assert (Hgt : 0 < Z.pos m * 2 ^ e) by (apply Z.mul_pos_pos; lia).
        apply Z.compare_gt_iff in Hgt. now rewrite Hgt.
    + rewrite Z.mul_0_l. now destruct s.
Qed.

Lemma shr_1_nonneg (mrs : shr_record) :
  0 <= shr_m mrs -> 0 <= shr_m (shr_1 mrs).
Proof.
  destruct mrs as [m r s]. simpl.
  destruct m as [|p|p]; simpl; intros H; try lia.
  - destruct p; simpl; lia.
Qed.

Lemma iter_shr_1_nonneg (p : positive) (mrs : shr_record) :
  0 <= shr_m mrs -> 0 <= shr_m (iter_pos shr_1 p mrs).
Proof.
  revert mrs. induction p as [p IH|p IH|]; intros mrs H; simpl.
  - apply IH, IH. now apply shr_1_nonneg.
  - now apply IH, IH.
  - now apply shr_1_nonneg.
Qed.

Lemma shr_fexp_nonneg (m e : Z) (l : location) :
  0 <= m -> 0 <= shr_m (fst (shr_fexp Py.prec Py.emax m e l)).
Proof.
  intros H. unfold shr_fexp, shr.
  assert (H0 : 0 <= shr_m (shr_record_of_loc m l)).
  { destruct l as [|[ | | ]]; simpl; exact H. }
  destruct (fexp Py.prec Py.emax (Zdigits2 m + e) - e) as [|p|p]; simpl;
    try exact H0.
  now apply iter_shr_1_nonneg.
Qed.

Lemma round_nearest_even_nonneg (m : Z) (l : location) :
  0 <= m -> 0 <= round_nearest_even m l.
Proof.
  intros H. destruct l as [|[ | | ]]; simpl; try lia.
  destruct (Z.even m); lia.
Qed.

Lemma binary_round_aux_nonneg (m e : Z) (l : location) :
  0 <= m -> fnonneg (binary_round_aux Py.prec Py.emax false m e l) = true.
Proof.
  intros H. unfold binary_round_aux.
  pose proof (shr_fexp_nonneg m e l H) as H1.
  destruct (shr_fexp Py.prec Py.emax m e l) as [mrs' e']. simpl in H1.
  pose proof (shr_fexp_nonneg _ e' loc_Exact
                (round_nearest_even_nonneg _ (loc_of_shr_record mrs') H1)) as H2.
  destruct (shr_fexp Py.prec Py.emax _ e' loc_Exact) as [mrs'' e''].
  simpl in H2.
  destruct (shr_m mrs'') as [|p|p]; try reflexivity.
  - now destruct (e'' <=? Py.emax - Py.prec).
  - exfalso. lia.
Qed.

Lemma binary_round_nonneg (m : positive) (e : Z) :
  fnonneg (binary_round Py.prec Py.emax false m e) = true.
Proof.
  unfold binary_round.
  destruct (shl_align m e _) as [mz ez].
  apply binary_round_aux_nonneg. lia.
Qed.

Lemma binary_normalize_nonneg (m e : Z) :
  0 <= m -> fnonneg (binary_normalize Py.prec Py.emax m e false) = true.
Proof.
  intros H. destruct m as [|p|p]; simpl; try reflexivity.
  - apply binary_round_nonneg.
  - lia.
Qed.

Lemma fadd_nonneg (f g : spec_float) :
  fnonneg f = true -> fnonneg g = true -> fnonneg (Py.fadd f g) = true.
Proof.
  destruct f as [sf|sf| |sf mf ef]; destruct g as [sg|sg| |sg mg eg];
    simpl; intros Hf Hg; try discriminate; try assumption;
    try (destruct sf; destruct sg; simpl in *; try discriminate; reflexivity).
  destruct sf; [discriminate|]. destruct sg; [discriminate|].
  unfold Py.fadd, SFadd. apply binary_normalize_nonneg. simpl. lia.
Qed.

Lemma fmul_nonneg (f g : spec_float) :
  fnonneg f = true -> ffinite f = true ->
  fnonneg g = true -> ffinite g = true ->
  fnonneg (Py.fmul f g) = true.
Proof.
  destruct f as [sf|sf| |sf mf ef]; destruct g as [sg|sg| |sg mg eg];
    simpl; intros Hf Ff Hg Fg; try discriminate; try reflexivity.
  destruct sf; [discriminate|]. destruct sg; [discriminate|].
  unfold Py.fmul, SFmul. simpl. apply binary_round_aux_nonneg. lia.
Qed.

Lemma float_of_int_nonneg (z : Z) (f : spec_float) :
  0 <= z -> Py.float_of_int z = Py.Ok f ->
  fnonneg f = true /\ ffinite f = true.
Proof.
  intros Hz. unfold Py.float_of_int.
  pose proof (binary_normalize_nonneg z 0 Hz) as Hn.
  destruct (binary_normalize Py.prec Py.emax z 0 false) as [s|s| |s m e];
    intros H; try discriminate; injection H as <-; simpl in *; auto.
Qed.

Lemma add_nonneg (x y z : Py.num) :
  nonneg x = true -> nonneg y = true -> Py.add x y = Py.Ok z ->
  nonneg z = true.
Proof.
  destruct x as [a|f]; destruct y as [b|g]; simpl; intros Hx Hy H.
  - injection H as <-. apply nonneg_int in Hx, Hy. apply nonneg_int. lia.
  - apply nonneg_int in Hx. rewrite nonneg_float in Hy.
    destruct (Py.float_of_int a) as [f|e] eqn:E; simpl in H; [|discriminate].
    injection H as <-. rewrite nonneg_float.
    apply fadd_nonneg; [|assumption].
    now destruct (float_of_int_nonneg a f Hx E).
  - apply nonneg_int in Hy. rewrite nonneg_float in Hx.
    destruct (Py.float_of_int b) as [g|e] eqn:E; simpl in H; [|discriminate].
    injection H as <-. rewrite nonneg_float.
    apply fadd_nonneg; [assumption|].
    now destruct (float_of_int_nonneg b g Hy E).
  - injection H as <-. rewrite nonneg_float in *. now apply fadd_nonneg.
Qed.

Lemma sum_from_nonneg (xs : list Py.num) (acc total : Py.num) :
  nonneg acc = true -> Forall (fun x => nonneg x = true) xs ->
  Py.sum_from acc xs = Py.Ok total -> nonneg total = true.
Proof.
  revert acc. induction xs as [|x xs IH]; intros acc Hacc Hxs H; simpl in H.
  - now injection H as <-.
  - inversion Hxs as [|? ? Hx Hxs']; subst.
    destruct (Py.add acc x) as [acc'|e] eqn:E; simpl in H; [|discriminate].
    apply (IH acc'); try assumption.
    now apply (add_nonneg acc x).
Qed.

(** Integers below [2^53] convert to a double without error. *)

Lemma digits2_shift (m d : positive) :
  digits2_pos (Pos.iter xO m d) = (digits2_pos m + d)%positive.
Proof.
  induction d as [|d IH] using Pos.peano_ind.
  - simpl. now rewrite Pos.add_1_r.
  - rewrite Pos.iter_succ. simpl. rewrite IH. lia.
Qed.

Lemma digits2_lower (m : positive) : 2 ^ (Zpos (digits2_pos m) - 1) <= Zpos m.
Proof.
  induction m as [m IH|m IH|]; simpl digits2_pos.
  - rewrite Pos2Z.inj_succ. replace (Z.succ (Zpos (digits2_pos m)) - 1)
      with (Z.succ (Zpos (digits2_pos m) - 1)) by lia.
    rewrite Z.pow_succ_r by lia. lia.
  - rewrite Pos2Z.inj_succ. replace (Z.succ (Zpos (digits2_pos m)) - 1)
      with (Z.succ (Zpos (digits2_pos m) - 1)) by lia.
    rewrite Z.pow_succ_r by lia. lia.
  - simpl. lia.
Qed.

Lemma digits2_small (m : positive) :
  Zpos m < 2 ^ 53 -> Zpos (digits2_pos m) <= 53.
Proof.
  intros H. destruct (Z.le_gt_cases (Zpos (digits2_pos m)) 53) as [|Hgt]; [assumption|].
  exfalso. pose proof (digits2_lower m) as Hl.
  assert (2 ^ 53 <= 2 ^ (Zpos (digits2_pos m) - 1)).
  { apply Z.pow_le_mono_r; lia. }
  lia.
Qed.

Lemma shr_fexp_exact (mz : positive) (ez : Z) :
  Zpos (digits2_pos mz) = 53 -> -52 <= ez <= 0 ->
  shr_fexp Py.prec Py.emax (Zpos mz) ez loc_Exact
  = ({| shr_m := Zpos mz; shr_r := false; shr_s := false |}, ez).
Proof.
  intros Hmz Hez. unfold shr_fexp, shr. cbn [Zdigits2]. rewrite Hmz.
  change IntDef.Z.sub with Z.sub; change IntDef.Z.add with Z.add.
  replace (fexp Py.prec Py.emax (53 + ez) - ez) with 0; [reflexivity|].
  unfold fexp, emin, Py.prec, Py.emax. lia.
Qed.

Lemma binary_round_aux_exact (s : bool) (mz : positive) (ez : Z) :
  Zpos (digits2_pos mz) = 53 -> -52 <= ez <= 0 ->
  binary_round_aux Py.prec Py.emax s (Zpos mz) ez loc_Exact
  = S754_finite s mz ez.
Proof.
  intros Hmz Hez. unfold binary_round_aux.
  rewrite (shr_fexp_exact mz ez Hmz Hez).
  cbn [shr_m shr_r shr_s loc_of_shr_record round_nearest_even].
  rewrite (shr_fexp_exact mz ez Hmz Hez). cbn [shr_m].
  replace (ez <=? Py.emax - Py.prec) with true; [reflexivity|].
  symmetry. apply Z.leb_le. unfold Py.emax, Py.prec. lia.
Qed.

Lemma binary_round_small (s : bool) (m : positive) :
  Zpos m < 2 ^ 53 ->
  exists m' e', binary_round Py.prec Py.emax s m 0 = S754_finite s m' e'.
Proof.
  intros H. pose proof (digits2_small m H) as Hd.
  unfold binary_round, shl_align.
  change IntDef.Z.sub with Z.sub; change IntDef.Z.add with Z.add.
  replace (fexp Py.prec Py.emax (Zpos (digits2_pos m) + 0))
    with (Zpos (digits2_pos m) - 53)
    by (unfold fexp, emin, Py.prec, Py.emax; lia).
  destruct (Zpos (digits2_pos m) - 53 - 0) as [|p|p] eqn:E.
  - exists m, 0. apply binary_round_aux_exact; lia.
  - lia.
  - exists (Pos.iter xO m p), (Zpos (digits2_pos m) - 53).
    apply binary_round_aux_exact.
    + rewrite digits2_shift. lia.
    + lia.
Qed.

Lemma float_of_int_small (z : Z) :
  - 2 ^ 53 < z < 2 ^ 53 -> exists f, Py.float_of_int z = Py.Ok f.
Proof.
  intros H. unfold Py.float_of_int, binary_normalize.
  destruct z as [|m|m].
  - eexists. reflexivity.
  - destruct (binary_round_small false m) as (m' & e' & ->); [lia|].
    eexists. reflexivity.
  - destruct (binary_round_small true m) as (m' & e' & ->); [lia|].
    eexists. reflexivity.
Qed.

End FloatFacts.

(** *** Stage 1: the threshold rules *)

Module AnalyzerFacts.
Import CostAnalyzer.

Lemma mapM_cleanup_types (l : list volume) (recs : list recommendation) :
  Py.mapM cleanup l = Py.Ok recs ->
  Forall (fun r => type_ r = "ebs_cleanup") recs.
Proof.
  revert recs; induction l as [|v l IH]; intros recs H; simpl in H.
  - injection H as <-. constructor.
  - unfold cleanup in H at 1.
    destruct (Py.mul _ _) as [s|e]; simpl in H; [|discriminate].
    destruct (Py.mapM cleanup l) as [bs|e]; simpl in H; [|discriminate].
    injection H as <-. constructor; [reflexivity | now apply IH].
Qed.

Lemma analyze_metrics_inv (float_repr : spec_float -> string)
    (now : string) (m : metrics) (r : results) :
  analyze_metrics float_repr now m = Py.Ok r ->
  exists ebs_recs,
    Py.mapM cleanup (filter (fun v => negb (is_attached v)) (ebs_volumes m))
      = Py.Ok ebs_recs
    /\ recommendations r
       = (map (rightsize float_repr) (filter low_cpu (ec2_instances m))
          ++ ebs_recs)%list
    /\ Py.sum (map estimated_savings (recommendations r))
       = Py.Ok (total_potential_savings r)
    /\ timestamp r = now /\ metrics_of r = m.
Proof.
  unfold analyze_metrics. intros H.
  destruct (Py.mapM cleanup _) as [ebs_recs|e]; simpl in H; [|discriminate].
  destruct (Py.sum _) as [total|e] eqn:Hs; simpl in H; [|discriminate].
  injection H as <-. exists ebs_recs. simpl. auto.
Qed.

Lemma rightsize_iff_low_cpu (float_repr : spec_float -> string)
    (now : string) (m : metrics) (r : results) (i : instance) :
  analyze_metrics float_repr now m = Py.Ok r ->
  In i (ec2_instances m) ->
  In (rightsize float_repr i) (recommendations r)
  <-> Py.lt (cpu_average i) (Py.PInt 15) = true.
Proof.
  intros H Hi.
  destruct (analyze_metrics_inv _ _ _ _ H) as (ebs & Hebs & Hrecs & _).
  rewrite Hrecs. split.
  - intros Hin. apply in_app_or in Hin. destruct Hin as [Hin|Hin].
    + apply in_map_iff in Hin. destruct Hin as (i' & Heq & Hin').
      apply filter_In in Hin'. destruct Hin' as [_ Hlow].
      unfold low_cpu in Hlow.
      assert (Hcpu : cpu_average i' = cpu_average i).
      { apply (f_equal detail) in Heq. simpl in Heq. now injection Heq. }
      now rewrite <- Hcpu.
    + apply mapM_cleanup_types in Hebs.
      rewrite Forall_forall in Hebs. apply Hebs in Hin.
      simpl in Hin. discriminate.
  - intros Hlow. apply in_or_app. left. apply in_map.
    apply filter_In. split; [assumption | exact Hlow].
Qed.

(** [analyze_metrics] returns for every account of ordinary size: no
    conversion overflows. *)
Definition is_float (x : Py.num) : Prop := exists f, x = Py.PFloat f.

Lemma mapM_cleanup_returns (l : list volume) :
  Forall (fun v => - 2 ^ 53 < size_gb v < 2 ^ 53) l ->
  exists recs, Py.mapM cleanup l = Py.Ok recs
               /\ Forall (fun r => is_float (estimated_savings r)) recs.
Proof.
  induction l as [|v l IH]; intros Hl; simpl.
  - exists []. split; [reflexivity | constructor].
  - inversion Hl as [|? ? Hv Hl']; subst.
    destruct (IH Hl') as (recs & Hrecs & Hfl).
    unfold cleanup at 1. unfold Py.mul.
    destruct (FloatFacts.float_of_int_small _ Hv) as (f & ->). simpl.
    rewrite Hrecs. simpl. eexists. split; [reflexivity|].
    constructor; [|exact Hfl]. simpl. eexists. reflexivity.
Qed.

Lemma sum_from_floats (l : list Py.num) (f : spec_float) :
  Forall is_float l -> exists t, Py.sum_from (Py.PFloat f) l = Py.Ok t.
Proof.
  revert f. induction l as [|x l IH]; intros f Hl; simpl.
  - eexists. reflexivity.
  - inversion Hl as [|? ? [g ->] Hl']; subst. simpl. apply IH, Hl'.
Qed.

Lemma sum_from_int_floats (l : list Py.num) (a : Z) :
  - 2 ^ 53 < a < 2 ^ 53 -> Forall is_float l ->
  exists t, Py.sum_from (Py.PInt a) l = Py.Ok t.
Proof.
  intros Ha Hl. destruct l as [|x l]; simpl.
  - eexists. reflexivity.
  - inversion Hl as [|? ? [g ->] Hl']; subst. simpl.
    destruct (FloatFacts.float_of_int_small _ Ha) as (f & ->). simpl.
    apply sum_from_floats, Hl'.
Qed.

Lemma sum_from_fifties {A : Type} (l : list A) (rest : list Py.num) (a : Z) :
  Py.sum_from (Py.PInt a) (map (fun _ => Py.PInt 50) l ++ rest)
  = Py.sum_from (Py.PInt (a + 50 * Z.of_nat (List.length l))) rest.
Proof.
  revert a. induction l as [|x l IH]; intros a.
  - simpl. f_equal. f_equal. lia.
  - cbn [map app Py.sum_from Py.add Py.bind]. rewrite IH.
    f_equal. f_equal. cbn [List.length]. lia.
Qed.

Lemma analyze_metrics_returns (float_repr : spec_float -> string)
    (now : string) (m : metrics) :
  Forall (fun v => - 2 ^ 53 < size_gb v < 2 ^ 53) (ebs_volumes m) ->
  50 * Z.of_nat (List.length (ec2_instances m)) < 2 ^ 53 ->
  exists r, analyze_metrics float_repr now m = Py.Ok r.
Proof.
  intros Hv Hn. unfold analyze_metrics.
  destruct (mapM_cleanup_returns
              (filter (fun v => negb (is_attached v)) (ebs_volumes m)))
    as (recs & -> & Hfl).
  { apply Forall_forall. intros v Hin. apply filter_In in Hin.
    rewrite Forall_forall in Hv. apply Hv. tauto. }
  cbn [Py.bind]. unfold Py.sum.
  rewrite map_app, map_map. cbn [estimated_savings rightsize].
  rewrite sum_from_fifties.
  destruct (sum_from_int_floats (map estimated_savings recs)
              (0 + 50 * Z.of_nat (List.length (filter low_cpu (ec2_instances m)))))
    as (t & ->).
  - pose proof (filter_length_le low_cpu (ec2_instances m)). lia.
  - apply Forall_forall. intros x Hx. apply in_map_iff in Hx.
    destruct Hx as (r & <- & Hr). rewrite Forall_forall in Hfl. now apply Hfl.
  - eexists. reflexivity.
Qed.

(** The inputs of the worked examples: a compute sample with a given
    [cpu_average], an unattached volume of a given size. *)
Definition sample (id : string) (cpu : Py.num) : instance :=
  {| instance_id := id; instance_type := "t3.large"; cpu_average := cpu;
     cpu_max := cpu; launch_time := "2024-01-01T00:00:00" |}.

Definition loose_volume (id : string) (size : Z) : volume :=
  {| volume_id := id; size_gb := size; state := "available";
     is_attached := false; created_time := "2024-01-01T00:00:00" |}.

Definition only (insts : list instance) (vols : list volume) : metrics :=
  {| ec2_instances := insts; ebs_volumes := vols;
     metrics_timestamp := "2024-06-01T00:00:00" |}.

(** C1. A compute sample gets an [ec2_rightsize] recommendation, with
    [estimated_savings = 50], exactly when its [cpu_average] is below 15:
    14.9 gets one, 15.0 gets none.  Two compute samples at 5 and 40 with one
    unattached 100 GB volume give one rightsize and one cleanup
    recommendation and a total of 60.0. *)
Theorem rightsize_rule (float_repr : spec_float -> string) :
  (forall now m r i,
      analyze_metrics float_repr now m = Py.Ok r ->
      In i (ec2_instances m) ->
      (In (rightsize float_repr i) (recommendations r)
       <-> Py.lt (cpu_average i) (Py.PInt 15) = true)
      /\ type_ (rightsize float_repr i) = "ec2_rightsize"
      /\ resource_id (rightsize float_repr i) = instance_id i
      /\ estimated_savings (rightsize float_repr i) = Py.PInt 50)
  /\ (forall now id,
        let i := sample id (Py.PFloat (Py.float_lit 149 1)) in
        exists r, analyze_metrics float_repr now (only [i] []) = Py.Ok r
                  /\ recommendations r = [rightsize float_repr i]
                  /\ total_potential_savings r = Py.PInt 50)
  /\ (forall now id,
        let i := sample id (Py.PFloat (Py.float_lit 15 0)) in
        exists r, analyze_metrics float_repr now (only [i] []) = Py.Ok r
                  /\ recommendations r = [])
  /\ (forall now a b c,
        let i5 := sample a (Py.PInt 5) in
        let i40 := sample b (Py.PInt 40) in
        let v := loose_volume c 100 in
        exists r cl,
          analyze_metrics float_repr now (only [i5; i40] [v]) = Py.Ok r
          /\ recommendations r = [rightsize float_repr i5; cl]
          /\ type_ cl = "ebs_cleanup" /\ resource_id cl = c
          /\ estimated_savings cl = Py.PFloat (Py.float_lit 10 0)
          /\ Py.format_2f (estimated_savings cl) = Py.Ok "10.00"
          /\ total_potential_savings r = Py.PFloat (Py.float_lit 60 0)
          /\ Py.eqb (total_potential_savings r) (Py.PInt 60) = true).
Proof.
  split; [|split; [|split]].
  - intros now m r i H Hi. split; [now apply (rightsize_iff_low_cpu _ now m)|].
    repeat split.
  - intros now id i. eexists. split; [reflexivity|]. split; reflexivity.
  - intros now id i. eexists. split; [reflexivity|]. reflexivity.
  - intros now a b c i5 i40 v. do 2 eexists.
    split; [vm_compute; reflexivity|].
    repeat split.
Qed.

Lemma cleanup_nonneg (v : volume) (r : recommendation) :
  0 <= size_gb v -> cleanup v = Py.Ok r ->
  FloatFacts.nonneg (estimated_savings r) = true.
Proof.
  intros Hv. unfold cleanup, Py.mul.
  destruct (Py.float_of_int (size_gb v)) as [f|e] eqn:E; simpl;
    [|discriminate].
  intros H. injection H as <-. simpl.
  destruct (FloatFacts.float_of_int_nonneg _ _ Hv E) as [Hn Hf].
  rewrite FloatFacts.nonneg_float.
  apply FloatFacts.fmul_nonneg; try assumption; reflexivity.
Qed.

Lemma mapM_cleanup_nonneg (l : list volume) (recs : list recommendation) :
  Forall (fun v => 0 <= size_gb v) l ->
  Py.mapM cleanup l = Py.Ok recs ->
  Forall (fun r => FloatFacts.nonneg (estimated_savings r) = true) recs.
Proof.
  revert recs; induction l as [|v l IH]; intros recs Hl H; simpl in H.
  - injection H as <-. constructor.
  - inversion Hl as [|? ? Hv Hl']; subst.
    destruct (cleanup v) as [r|e] eqn:E; simpl in H; [|discriminate].
    destruct (Py.mapM cleanup l) as [bs|e]; simpl in H; [|discriminate].
    injection H as <-. constructor.
    + now apply (cleanup_nonneg v).
    + now apply IH.
Qed.

(** C2. Whatever the metrics (none at all included), the snapshot's
    [total_potential_savings] is Python's [sum] of the [estimated_savings]
    of its recommendations, [0] when there are none, and it is not below
    zero (volume sizes being sizes: not negative). *)
Theorem total_is_sum_of_savings (float_repr : spec_float -> string)
    (now : string) (m : metrics) (r : results) :
  analyze_metrics float_repr now m = Py.Ok r ->
  (forall v, In v (ebs_volumes m) -> 0 <= size_gb v) ->
  Py.sum (map estimated_savings (recommendations r))
    = Py.Ok (total_potential_savings r)
  /\ (recommendations r = [] -> total_potential_savings r = Py.PInt 0)
  /\ Py.le (Py.PInt 0) (total_potential_savings r) = true
  /\ (exists r0,
        analyze_metrics float_repr now (only [] []) = Py.Ok r0
        /\ recommendations r0 = []
        /\ total_potential_savings r0 = Py.PInt 0).
Proof.
  intros H Hsz.
  destruct (analyze_metrics_inv _ _ _ _ H) as (ebs & Hebs & Hrecs & Hsum & _).
  split; [exact Hsum|]. split; [|split].
  - intros Hnil. rewrite Hnil in Hsum. simpl in Hsum.
    unfold Py.sum in Hsum. simpl in Hsum. now injection Hsum as <-.
  - change (FloatFacts.nonneg (total_potential_savings r) = true).
    apply (FloatFacts.sum_from_nonneg
             (map estimated_savings (recommendations r)) (Py.PInt 0));
      [reflexivity | | exact Hsum].
    rewrite Hrecs, map_app. apply Forall_app. split.
    + rewrite map_map. simpl. apply Forall_forall.
      intros x Hx. apply in_map_iff in Hx. destruct Hx as (i & <- & _).
      reflexivity.
    + apply mapM_cleanup_nonneg in Hebs.
      * apply Forall_forall. intros x Hx.
        apply in_map_iff in Hx. destruct Hx as (c & <- & Hc).
        rewrite Forall_forall in Hebs. now apply Hebs.
      * apply Forall_forall. intros v Hv.
        apply filter_In in Hv. apply Hsz. tauto.
  - eexists. split; [reflexivity|]. split; reflexivity.
Qed.

Lemma total_is_sum_of_savings_witness :
  exists r,
    analyze_metrics (fun _ => "") "2024-06-01T00:00:05"
      (only [sample "i-1" (Py.PInt 5); sample "i-2" (Py.PInt 40)]
            [loose_volume "vol-1" 100]) = Py.Ok r
    /\ Py.sum (map estimated_savings (recommendations r))
       = Py.Ok (total_potential_savings r)
    /\ Py.le (Py.PInt 0) (total_potential_savings r) = true.
Proof.
  eexists. split; [vm_compute; reflexivity|].
  pose proof (total_is_sum_of_savings (fun _ => "") "2024-06-01T00:00:05"
    (only [sample "i-1" (Py.PInt 5); sample "i-2" (Py.PInt 40)]
          [loose_volume "vol-1" 100]) _ eq_refl) as H.
  destruct H as (H1 & _ & H3 & _).
  - simpl. intros v [<-|[]]. simpl. lia.
  - split; assumption.
Defined.

Lemma rightsize_rule_witness :
  let i := sample "i-1" (Py.PFloat (Py.float_lit 149 1)) in
  exists r,
    analyze_metrics (fun _ => "14.9") "2024-06-01T00:00:05" (only [i] [])
      = Py.Ok r
    /\ In (rightsize (fun _ => "14.9") i) (recommendations r)
    /\ estimated_savings (rightsize (fun _ => "14.9") i) = Py.PInt 50.
Proof.
  intros i. eexists. split; [reflexivity|].
  destruct (rightsize_rule (fun _ => "14.9")) as [H _].
  destruct (H "2024-06-01T00:00:05" (only [i] []) _ i eq_refl
              (or_introl eq_refl)) as (Hiff & _ & _ & Hsav).
  split; [apply Hiff; reflexivity | exact Hsav].
Defined.

End AnalyzerFacts.

(** *** Stage 1: collection *)

Module CollectorFacts.
Import CostAnalyzer.

(** C9. Collection fails soft.  When the instance query raises, the compute
    samples are the empty list and the volumes are those the volume query
    gives; when the volume query raises, the volumes are the empty list and
    the compute samples are still described; neither error leaves
    [collect_aws_metrics].  A compute sample whose seven-day window has no
    data points has [cpu_average = 0] and [cpu_max = 0]. *)
Theorem collection_fails_soft (a : aws) (now : string) :
  (forall e, describe_instances a = Py.Raise e ->
     ec2_instances (collect_aws_metrics a now) = []
     /\ ebs_volumes (collect_aws_metrics a now)
        = match describe_volumes a with
          | Py.Ok volumes => map measure volumes
          | Py.Raise _ => []
          end)
  /\ (forall e, describe_volumes a = Py.Raise e ->
       ebs_volumes (collect_aws_metrics a now) = []
       /\ ec2_instances (collect_aws_metrics a now)
          = match describe_instances a with
            | Py.Ok reservations => map (describe a) (List.concat reservations)
            | Py.Raise _ => []
            end)
  /\ (forall i, get_metric_statistics a (InstanceId i) = Py.Ok [] ->
       cpu_average (describe a i) = Py.PInt 0
       /\ cpu_max (describe a i) = Py.PInt 0)
  /\ (forall i, In i (get_ec2_metrics a) ->
       exists raw, instance_id i = InstanceId raw /\ i = describe a raw).
Proof.
  split; [|split; [|split]].
  - intros e He. unfold collect_aws_metrics, get_ec2_metrics, get_ebs_metrics.
    simpl. rewrite He. split; reflexivity.
  - intros e He. unfold collect_aws_metrics, get_ec2_metrics, get_ebs_metrics.
    simpl. rewrite He. split; reflexivity.
  - intros i Hi. unfold describe. rewrite Hi. split; reflexivity.
  - intros i Hi. unfold get_ec2_metrics in Hi.
    destruct (describe_instances a) as [rs|e]; [|destruct Hi].
    apply in_map_iff in Hi. destruct Hi as (raw & <- & _).
    exists raw. split; reflexivity.
Qed.

(** A region where the instance query is refused, one volume exists and
    CloudWatch has nothing. *)
Definition refused : aws :=
  {| describe_instances := Py.Raise (Py.ServiceError "UnauthorizedOperation");
     describe_volumes :=
       Py.Ok [{| VolumeId := "vol-1"; Size := 30; State := "available";
                 Attachments := Some []; CreateTime := "2024-01-01T00:00:00" |}];
     get_metric_statistics := fun _ => Py.Ok [] |}.

Lemma collection_fails_soft_witness :
  ec2_instances (collect_aws_metrics refused "2024-06-01T00:00:00") = []
  /\ List.length (ebs_volumes (collect_aws_metrics refused "2024-06-01T00:00:00"))
     = 1%nat
  /\ cpu_average (describe refused
                    {| InstanceId := "i-1"; InstanceType := "t3.large";
                       LaunchTime := "2024-01-01T00:00:00" |}) = Py.PInt 0.
Proof.
  destruct (collection_fails_soft refused "2024-06-01T00:00:00")
    as (H1 & _ & H3 & _).
  destruct (H1 _ eq_refl) as [He Hv].
  split; [exact He|]. split; [rewrite Hv; reflexivity|].
  exact (proj1 (H3 _ eq_refl)).
Defined.

End CollectorFacts.

(** *** Persistence: [store_results] then [get_latest_analysis] *)

Module PersistenceFacts.
Import CostAnalyzer Recommender.

Definition names : list string :=
  ["id"; "timestamp"; "data"; "recommendations_count"].

(** An item written before the moment [ts]. *)
Definition older_than (ts : string) (it : Dynamo.item) : Prop :=
  exists ts', Dynamo.attr_of "timestamp" it = Some (Dynamo.AText ts')
              /\ String.ltb ts' ts = true.

(** A keyed item whose key sorts below [ts]. *)
Definition below (ts : string) (y : Dynamo.attr * Dynamo.item) : Prop :=
  exists ts', fst y = Dynamo.AText ts' /\ String.ltb ts' ts = true.

Lemma ltb_asym (a b : string) : String.ltb a b = true -> String.ltb b a = false.
Proof.
  unfold String.ltb. rewrite (String.compare_antisym a b).
  destruct (String.compare b a); simpl; congruence.
Qed.

Lemma attr_of_project (k : string) (ns : list string) (it : Dynamo.item) :
  existsb (String.eqb k) ns = true ->
  Dynamo.attr_of k (Dynamo.project ns it) = Dynamo.attr_of k it.
Proof.
  intros Hk. induction it as [|[k' a] it IH]; [reflexivity|].
  simpl. destruct (String.eqb k k') eqn:E.
  - apply String.eqb_eq in E. subst k'.
    assert (Hk' : existsb (String.eqb k) ns = true) by exact Hk.
    replace (existsb (String.eqb k) ns) with true.
    simpl. now rewrite String.eqb_refl.
  - destruct (existsb (String.eqb k') ns); simpl; [rewrite E|]; exact IH.
Qed.

Lemma attr_of_project_out (k : string) (ns : list string) (it : Dynamo.item) :
  existsb (String.eqb k) ns = false ->
  Dynamo.attr_of k (Dynamo.project ns it) = None.
Proof.
  intros Hk. induction it as [|[k' a] it IH]; [reflexivity|].
  simpl. destruct (existsb (String.eqb k') ns) eqn:E'; [|exact IH].
  simpl. destruct (String.eqb k k') eqn:E; [|exact IH].
  apply String.eqb_eq in E. subst k'. congruence.
Qed.

Lemma insert_at_split (n : nat) (it : Dynamo.item) (l : list Dynamo.item) :
  exists l1 l2, l = (l1 ++ l2)%list
                /\ Dynamo.insert_at n it l = (l1 ++ it :: l2)%list.
Proof.
  revert l. induction n as [|n IH]; intros l.
  - exists [], l. split; reflexivity.
  - destruct l as [|x l].
    + exists [], []. split; reflexivity.
    + destruct (IH l) as (l1 & l2 & -> & Heq).
      exists (x :: l1), l2. simpl. rewrite Heq. split; reflexivity.
Qed.

Lemma replace_id_split (id : string) (it : Dynamo.item)
    (l l' : list Dynamo.item) :
  Dynamo.replace_id id it l = Some l' ->
  exists l1 x l2, l = (l1 ++ x :: l2)%list /\ l' = (l1 ++ it :: l2)%list.
Proof.
  revert l'. induction l as [|y l IH]; intros l' H; simpl in H; [discriminate|].
  destruct (Dynamo.has_id id y).
  - injection H as <-. exists [], y, l. split; reflexivity.
  - destruct (Dynamo.replace_id id it l) as [r|]; simpl in H; [|discriminate].
    injection H as <-. destruct (IH r eq_refl) as (l1 & x & l2 & -> & ->).
    exists (y :: l1), x, l2. split; reflexivity.
Qed.

(** Where a written item ends up: somewhere among the items that were
    there, none of which is lost except the one it replaces. *)
Lemma put_item_split (t t' : Dynamo.table) (it : Dynamo.item) :
  Dynamo.put_item t it = Py.Ok t' ->
  exists l1 l2,
    Dynamo.items t' = (l1 ++ it :: l2)%list
    /\ Dynamo.outage t' = None
    /\ (forall x, In x (l1 ++ l2)%list -> In x (Dynamo.items t))
    /\ (List.length (l1 ++ l2) <= List.length (Dynamo.items t))%nat.
Proof.
  unfold Dynamo.put_item.
  destruct (Dynamo.serialize_all it) as [[]|e0]; cbn [Py.bind]; [|discriminate].
  destruct (Dynamo.outage t) eqn:Ho; [discriminate|].
  destruct (Dynamo.attr_of "id" it) as [[id|z|j|j]|]; try discriminate.
  destruct (Dynamo.replace_id id it (Dynamo.items t)) as [l|] eqn:Hr;
    intros H; injection H as <-; simpl.
  - destruct (replace_id_split _ _ _ _ Hr) as (l1 & x & l2 & Hl & ->).
    exists l1, l2. split; [reflexivity|]. split; [exact Ho|]. split.
    + intros y Hy. rewrite Hl. apply in_app_or in Hy. apply in_or_app.
      destruct Hy; [now left | right; now right].
    + rewrite Hl. rewrite !length_app. simpl. lia.
  - destruct (insert_at_split (Dynamo.slot t id) it (Dynamo.items t))
      as (l1 & l2 & Hl & ->).
    exists l1, l2. split; [reflexivity|]. split; [exact Ho|]. split.
    + intros y Hy. now rewrite Hl.
    + rewrite Hl. lia.
Qed.

Lemma insert_desc_below (ts : string) (y : Dynamo.attr * Dynamo.item)
    (s : list (Dynamo.attr * Dynamo.item)) :
  below ts y -> Forall (below ts) s ->
  exists s', insert_desc y s = Py.Ok s' /\ Forall (below ts) s'.
Proof.
  intros Hy. induction s as [|z s IH]; intros Hs; simpl.
  - exists [y]. split; [reflexivity | now constructor].
  - inversion Hs as [|? ? Hz Hs']; subst.
    destruct Hy as (ty & Hy1 & Hy2). destruct Hz as (tz & Hz1 & Hz2).
    rewrite Hy1, Hz1. simpl.
    destruct (String.ltb ty tz).
    + destruct (IH Hs') as (s' & -> & Hf). simpl.
      exists (z :: s'). split; [reflexivity|]. constructor; [|exact Hf].
      now exists tz.
    + eexists. split; [reflexivity|].
      constructor; [now exists ty|]. constructor; [now exists tz | exact Hs'].
Qed.

Lemma sort_desc_below (ts : string) (l : list (Dynamo.attr * Dynamo.item)) :
  Forall (below ts) l ->
  exists s, sort_desc l = Py.Ok s /\ Forall (below ts) s.
Proof.
  induction l as [|y l IH]; intros Hl; simpl.
  - exists []. split; [reflexivity | constructor].
  - inversion Hl as [|? ? Hy Hl']; subst.
    destruct (IH Hl') as (s & -> & Hs). simpl.
    now apply insert_desc_below.
Qed.

(** The newest item comes first, wherever it stood. *)
Lemma sort_desc_newest (ts : string) (x : Dynamo.attr * Dynamo.item)
    (l1 l2 : list (Dynamo.attr * Dynamo.item)) :
  fst x = Dynamo.AText ts ->
  Forall (below ts) l1 -> Forall (below ts) l2 ->
  exists rest, sort_desc (l1 ++ x :: l2) = Py.Ok (x :: rest)
               /\ Forall (below ts) rest.
Proof.
  intros Hx H1 H2. induction l1 as [|y l1 IH]; simpl.
  - destruct (sort_desc_below ts l2 H2) as (s & -> & Hs). simpl.
    destruct s as [|z s]; simpl.
    + exists []. split; [reflexivity | constructor].
    + inversion Hs as [|? ? Hz Hs']; subst.
      destruct Hz as (tz & Hz1 & Hz2). rewrite Hx, Hz1. simpl.
      rewrite (ltb_asym _ _ Hz2). exists (z :: s). split; [reflexivity|].
      constructor; [now exists tz | exact Hs'].
  - inversion H1 as [|? ? Hy H1']; subst.
    destruct (IH H1') as (rest & -> & Hrest). simpl.
    pose proof Hy as (ty & Hy1 & Hy2). rewrite Hy1, Hx. simpl. rewrite Hy2.
    destruct (insert_desc_below ts y rest Hy Hrest) as (s' & -> & Hs').
    simpl. exists s'. split; [reflexivity | exact Hs'].
Qed.

Lemma keyed_older (ts : string) (l : list Dynamo.item) :
  Forall (older_than ts) l ->
  exists keyed,
    Py.mapM (fun it => k <- Dynamo.item_get it "timestamp" ;; Py.Ok (k, it))
            (map (Dynamo.project names) l) = Py.Ok keyed
    /\ map snd keyed = map (Dynamo.project names) l
    /\ Forall (below ts) keyed.
Proof.
  induction l as [|y l IH]; intros Hl; simpl.
  - exists []. repeat split; constructor.
  - inversion Hl as [|? ? Hy Hl']; subst.
    destruct (IH Hl') as (keyed & Hk & Hs & Hb). rewrite Hk.
    destruct Hy as (ty & Hy1 & Hy2).
    unfold Dynamo.item_get at 1.
    rewrite (attr_of_project "timestamp" names y eq_refl), Hy1. simpl.
    eexists. split; [reflexivity|]. simpl. split; [now rewrite Hs|].
    constructor; [now exists ty | exact Hb].
Qed.

Lemma mapM_app {A B : Type} (f : A -> Py.res B) (l1 l2 : list A)
    (r1 r2 : list B) :
  Py.mapM f l1 = Py.Ok r1 -> Py.mapM f l2 = Py.Ok r2 ->
  Py.mapM f (l1 ++ l2) = Py.Ok (r1 ++ r2)%list.
Proof.
  revert r1. induction l1 as [|a l1 IH]; intros r1 H1 H2; simpl in *.
  - injection H1 as <-. exact H2.
  - destruct (f a) as [b|e]; simpl in *; [|discriminate].
    destruct (Py.mapM f l1) as [bs|e]; simpl in *; [|discriminate].
    injection H1 as <-. now rewrite (IH bs eq_refl H2).
Qed.

Lemma fetch_newest (t : Dynamo.table) (l1 l2 : list Dynamo.item)
    (it : Dynamo.item) (ts : string) (j : Json.value) :
  Dynamo.items t = (l1 ++ it :: l2)%list ->
  Dynamo.outage t = None ->
  (List.length (l1 ++ it :: l2) <= 10)%nat ->
  Forall (older_than ts) l1 -> Forall (older_than ts) l2 ->
  Dynamo.attr_of "timestamp" it = Some (Dynamo.AText ts) ->
  Dynamo.attr_of "data" it = Some (Dynamo.AJson j) ->
  get_latest_analysis t
  = Some {| attrs := Dynamo.project names it; data := j |}.
Proof.
  intros Hitems Hout Hlen H1 H2 Hts Hdata.
  unfold get_latest_analysis, Dynamo.scan. rewrite Hout, Hitems.
  rewrite (firstn_all2 _ Hlen). fold names. rewrite map_app. simpl map.
  cbn [Py.bind].
  destruct (keyed_older ts l1 H1) as (k1 & Hk1 & Hs1 & Hb1).
  destruct (keyed_older ts l2 H2) as (k2 & Hk2 & Hs2 & Hb2).
  set (x := (Dynamo.AText ts, Dynamo.project names it)).
  assert (Hkeyed :
    Py.mapM (fun it0 => k <- Dynamo.item_get it0 "timestamp" ;; Py.Ok (k, it0))
      (map (Dynamo.project names) l1
         ++ Dynamo.project names it :: map (Dynamo.project names) l2)
    = Py.Ok (k1 ++ x :: k2)%list).
  { apply mapM_app; [exact Hk1|]. simpl. rewrite Hk2.
    unfold Dynamo.item_get.
    rewrite (attr_of_project "timestamp" names it eq_refl), Hts.
    reflexivity. }
  destruct (sort_desc_newest ts x k1 k2 eq_refl Hb1 Hb2) as (rest & Hsort & _).
  destruct (map (Dynamo.project names) l1
              ++ Dynamo.project names it :: map (Dynamo.project names) l2)%list
    as [|p ps] eqn:Hl.
  { destruct (map (Dynamo.project names) l1); discriminate. }
  unfold sorted_by_timestamp. rewrite Hkeyed. cbn [Py.bind].
  rewrite Hsort. cbn [Py.bind map snd x].
  unfold Dynamo.item_get.
  rewrite (attr_of_project "data" names it eq_refl), Hdata. reflexivity.
Qed.

(** The item [store_results] writes. *)
Definition record_of (now : string) (r : results) (total : Z) : Dynamo.item :=
  [("id", Dynamo.AText now);
   ("timestamp", Dynamo.AText (timestamp r));
   ("recommendations_count",
    Dynamo.ANumber (Z.of_nat (List.length (recommendations r))));
   ("total_potential_savings", Dynamo.ANumber total);
   ("data", Dynamo.AJson (json_of_results r))].

Lemma store_results_inv (t t' : Dynamo.table) (now : string) (r : results) :
  store_results t now r = Py.Ok t' ->
  exists total, Py.int (total_potential_savings r) = Py.Ok total
                /\ Dynamo.put_item t (record_of now r total) = Py.Ok t'.
Proof.
  unfold store_results, Py.try_except.
  destruct (Py.int (total_potential_savings r)) as [total|e]; simpl.
  - intros H. exists total. split; [reflexivity|].
    unfold record_of.
    destruct (Dynamo.put_item t _) as [t1|e]; [exact H | discriminate].
  - discriminate.
Qed.

(** C7, as the code has it.  [store_results] writes one record holding the
    number of recommendations and the total truncated toward zero by
    [int()]; when that record is the newest of at most ten in the table,
    [get_latest_analysis] returns it with its [recommendations_count] and
    the whole snapshot parsed back (so the unrounded total), but without the
    stored [total_potential_savings], which the scan does not project. *)
Theorem store_then_fetch (t t' : Dynamo.table) (now : string) (r : results) :
  store_results t now r = Py.Ok t' ->
  (List.length (Dynamo.items t) < 10)%nat ->
  Forall (older_than (timestamp r)) (Dynamo.items t) ->
  exists total,
    Py.int (total_potential_savings r) = Py.Ok total
    /\ In (record_of now r total) (Dynamo.items t')
    /\ exists a,
         get_latest_analysis t' = Some a
         /\ Dynamo.attr_of "id" (attrs a) = Some (Dynamo.AText now)
         /\ Dynamo.attr_of "recommendations_count" (attrs a)
            = Some (Dynamo.ANumber (Z.of_nat (List.length (recommendations r))))
         /\ Dynamo.attr_of "total_potential_savings" (attrs a) = None
         /\ data a = json_of_results r
         /\ Json.subscript (data a) (Json.KStr "total_potential_savings")
            = Py.Ok (Json.JNum (total_potential_savings r)).
Proof.
  intros Hstore Hlen Hold.
  destruct (store_results_inv _ _ _ _ Hstore) as (total & Hint & Hput).
  exists total. split; [exact Hint|].
  destruct (put_item_split _ _ _ Hput) as (l1 & l2 & Hitems & Hout & Hin & Hle).
  split.
  - rewrite Hitems. apply in_or_app. right. now left.
  - assert (Hold12 : Forall (older_than (timestamp r)) (l1 ++ l2)).
    { apply Forall_forall. intros x Hx.
      rewrite Forall_forall in Hold. apply Hold, Hin, Hx. }
    apply Forall_app in Hold12. destruct Hold12 as [Ho1 Ho2].
    eexists. split.
    + apply (fetch_newest t' l1 l2 (record_of now r total) (timestamp r)
               (json_of_results r)); try assumption; try reflexivity.
      rewrite length_app in *. simpl. lia.
    + repeat split.
Qed.

Definition empty_table : Dynamo.table :=
  {| Dynamo.items := []; Dynamo.slot := fun _ => 0%nat; Dynamo.outage := None |}.

(** The snapshot of an account with one unattached 7 GB volume: its total
    is [7 * 0.10], the double printed 0.7000000000000001. *)
Definition seven_gb : results :=
  {| timestamp := "2024-06-01T00:00:05";
     metrics_of := AnalyzerFacts.only [] [AnalyzerFacts.loose_volume "vol-7" 7];
     recommendations :=
       [{| type_ := "ebs_cleanup"; severity := "low"; resource_id := "vol-7";
           detail := EbsDetails 7;
           message := "EBS volume vol-7 (7 GB) is unattached and costing money.";
           estimated_savings :=
             Py.PFloat (Py.fmul (S754_finite false 7 0) (Py.float_lit 10 2)) |}];
     total_potential_savings :=
       Py.PFloat (Py.fmul (S754_finite false 7 0) (Py.float_lit 10 2)) |}.

Lemma seven_gb_analyzed :
  analyze_metrics (fun _ => "") "2024-06-01T00:00:05"
    (AnalyzerFacts.only [] [AnalyzerFacts.loose_volume "vol-7" 7])
  = Py.Ok seven_gb.
Proof. vm_compute. reflexivity. Qed.

(** The claim's reading of "rounded to an integer": the integer nearest the
    total, ties to even (Python's [round]). *)
Definition nearest_integer (x : Py.num) : option Z :=
  match x with
  | Py.PInt z => Some z
  | Py.PFloat (S754_zero _) => Some 0
  | Py.PFloat (S754_finite s m e) =>
      Some (cond_Zopp s (if 0 <=? e then Zpos m * 2 ^ e
                         else Py.round_half_even (Zpos m) (2 ^ (- e))))
  | Py.PFloat _ => None
  end.

(** C7 as stated fails on the 7 GB snapshot written to an empty table: the
    fetched record has no [total_potential_savings] at all, and the stored
    one is 0 where the nearest integer to the total is 1. *)
Lemma store_then_fetch_counterexample :
  exists t' a,
    store_results empty_table "2024-06-01_00-00-05" seven_gb = Py.Ok t'
    /\ get_latest_analysis t' = Some a
    /\ nearest_integer (total_potential_savings seven_gb) = Some 1
    /\ Dynamo.attr_of "total_potential_savings" (attrs a)
       <> Some (Dynamo.ANumber 1)
    /\ Dynamo.attr_of "total_potential_savings" (attrs a) = None
    /\ map (Dynamo.attr_of "total_potential_savings") (Dynamo.items t')
       = [Some (Dynamo.ANumber 0)].
Proof.
  do 2 eexists. split; [vm_compute; reflexivity|].
  split; [vm_compute; reflexivity|].
  split; [vm_compute; reflexivity|].
  split; [vm_compute; discriminate|].
  split; vm_compute; reflexivity.
Qed.

Lemma store_then_fetch_witness :
  exists t' a,
    store_results empty_table "2024-06-01_00-00-05" seven_gb = Py.Ok t'
    /\ get_latest_analysis t' = Some a
    /\ Dynamo.attr_of "recommendations_count" (attrs a)
       = Some (Dynamo.ANumber 1)
    /\ data a = json_of_results seven_gb.
Proof.
  eexists. 
  destruct (store_then_fetch empty_table _ "2024-06-01_00-00-05" seven_gb
              eq_refl) as (total & _ & _ & a & Hget & _ & Hcount & _ & Hdata & _).
  - simpl. lia.
  - constructor.
  - exists a. split; [reflexivity|]. split; [exact Hget|].
    split; [exact Hcount | exact Hdata].
Defined.

(** C8. [get_latest_analysis] answers [None], and raises nothing, when the
    table is empty and when the scan itself fails; and on [None] the
    stage-2 handler answers 404, touching nothing. *)
Theorem fetch_latest_none
    (float_repr : spec_float -> string) (str_repr : string -> string)
    (float_of_str : string -> Py.res spec_float)
    (int_of_str : string -> Py.res Z) (json_dumps : Json.value -> string) :
  (forall t, Dynamo.items t = [] -> get_latest_analysis t = None)
  /\ (forall t e, Dynamo.outage t = Some e -> get_latest_analysis t = None)
  /\ (forall cfg env net w now,
        get_latest_analysis (table w) = None ->
        lambda_handler float_repr str_repr float_of_str int_of_str json_dumps
          cfg env net w now
        = ({| statusCode := 404;
              body := Json.JDict
                        [("error", Json.JStr "No analysis data found")] |},
           w)).
Proof.
  split; [|split].
  - intros t Ht. unfold get_latest_analysis, Dynamo.scan. rewrite Ht.
    destruct (Dynamo.outage t); reflexivity.
  - intros t e He. unfold get_latest_analysis, Dynamo.scan. now rewrite He.
  - intros cfg env net w now H. unfold lambda_handler. now rewrite H.
Qed.

Lemma fetch_latest_none_witness :
  get_latest_analysis empty_table = None
  /\ get_latest_analysis
       {| Dynamo.items := [record_of "a" seven_gb 0];
          Dynamo.slot := fun _ => 0%nat;
          Dynamo.outage := Some (Py.ServiceError "ProvisionedThroughputExceeded") |}
     = None.
Proof.
  destruct (fetch_latest_none (fun _ => "") (fun s => s)
              (fun _ => Py.Ok (Py.float_lit 7 1)) (fun _ => Py.Ok 2000)
              (fun _ => "")) as (H1 & H2 & _).
  split; [apply H1; reflexivity | eapply H2; reflexivity].
Defined.

End PersistenceFacts.

(** *** Stage 2: the client *)

Module ClientFacts.
Import CostAnalyzer AIClient.

Definition supported (provider : string) : Prop :=
  provider = "groq" \/ provider = "openrouter" \/ provider = "ollama".

(** The failures the client's [except] clause meets: no answer, or an
    answer that [raise_for_status] rejects. *)
Definition http_failure (r : reply) : Prop :=
  match r with
  | ConnectionError _ | Timeout _ => True
  | Response status_code _ => 400 <= status_code < 600
  end.

(** The claim's failures: no answer, or any answer outside 200..299. *)
Definition not_2xx (r : reply) : Prop :=
  match r with
  | ConnectionError _ | Timeout _ => True
  | Response status_code _ => ~ (200 <= status_code < 300)
  end.

(** The text a backend's answer carries, where its API puts it. *)
Definition generated_text (provider : string) (result : Json.value)
  : Py.res Json.value :=
  if String.eqb provider "ollama"
  then Json.subscript result (Json.KStr "response")
  else chat_content result.

Lemma fallback_is_fixed (prompt prompt' : string) :
  _fallback_report prompt = _fallback_report prompt'.
Proof. reflexivity. Qed.

Lemma fallback_not_empty (prompt : string) : _fallback_report prompt <> "".
Proof. unfold _fallback_report. discriminate. Qed.

Lemma call_on_failure (r : reply) (k : Py.res Json.value)
    (extract : Json.value -> Py.res Json.value) :
  http_failure r ->
  except_request
    (response <- match r with
                 | ConnectionError msg => Py.Raise (Py.RequestException msg)
                 | Timeout msg => Py.Raise (Py.RequestException msg)
                 | Response status_code body => Py.Ok (Response status_code body)
                 end ;;
     _ <- raise_for_status response ;;
     result <- response_json response ;;
     extract result) k = k.
Proof.
  destruct r as [msg|msg|status_code body]; simpl; intros H;
    try reflexivity.
  assert (E : (400 <=? status_code) && (status_code <? 600) = true).
  { apply andb_true_intro. split; [apply Z.leb_le | apply Z.ltb_lt]; lia. }
  rewrite E. reflexivity.
Qed.

Lemma call_groq_on_failure (c : client) (net : network) (prompt : string) :
  (forall req, http_failure (net req)) ->
  _call_groq c net prompt = Py.Ok (Json.JStr (_fallback_report prompt)).
Proof. intros H. unfold _call_groq, post. apply call_on_failure, H. Qed.

Lemma call_openrouter_on_failure (c : client) (net : network)
    (prompt : string) :
  (forall req, http_failure (net req)) ->
  _call_openrouter c net prompt = Py.Ok (Json.JStr (_fallback_report prompt)).
Proof. intros H. unfold _call_openrouter, post. apply call_on_failure, H. Qed.

Lemma call_ollama_on_failure (c : client) (env : environ) (net : network)
    (prompt : string) :
  (forall req, http_failure (net req)) ->
  _call_ollama c env net prompt = Py.Ok (Json.JStr (_fallback_report prompt)).
Proof. intros H. unfold _call_ollama, post. apply call_on_failure, H. Qed.

(** C4, as the code has it.  Once the prompt is built and the request goes
    out, a connection error, a timeout or a 4xx/5xx answer is caught inside
    the client, whichever of the three backends is configured, and the
    fixed fallback text is returned; nothing is raised. *)
Theorem backend_failure_gives_fallback (json_dumps : Json.value -> string)
    (c : client) (env : environ) (net : network) (metrics_data : Json.value)
    (prompt : string) :
  supported (provider c) ->
  _build_prompt json_dumps metrics_data = Py.Ok prompt ->
  (forall req, http_failure (net req)) ->
  generate_report json_dumps c env net metrics_data
  = Py.Ok (Json.JStr (_fallback_report ""))
  /\ _fallback_report "" <> "".
Proof.
  intros Hsup Hprompt Hnet. split; [|apply fallback_not_empty].
  unfold generate_report. rewrite Hprompt. cbn [Py.bind].
  rewrite (fallback_is_fixed "" prompt).
  destruct Hsup as [-> | [-> | ->]]; simpl.
  - now apply call_groq_on_failure.
  - now apply call_openrouter_on_failure.
  - now apply call_ollama_on_failure.
Qed.

Lemma call_on_answer (status_code : Z) (j v : Json.value)
    (k : Py.res Json.value) (extract : Json.value -> Py.res Json.value) :
  ~ (400 <= status_code < 600) ->
  extract j = Py.Ok v ->
  except_request
    (response <- Py.Ok (Response status_code (Some j)) ;;
     _ <- raise_for_status response ;;
     result <- response_json response ;;
     extract result) k = Py.Ok v.
Proof.
  intros Hst Hv. simpl.
  assert (E : (400 <=? status_code) && (status_code <? 600) = false).
  { apply andb_false_iff.
    destruct (Z.leb_spec 400 status_code); [right | now left].
    apply Z.ltb_ge. lia. }
  rewrite E. simpl. rewrite Hv. reflexivity.
Qed.

(** Every snapshot stage 1 writes gives a prompt, once its total prints. *)
Lemma build_prompt_of_results (json_dumps : Json.value -> string)
    (r : results) (total_text : string) :
  Py.format_2f (total_potential_savings r) = Py.Ok total_text ->
  exists prompt,
    _build_prompt json_dumps (json_of_results r) = Py.Ok prompt.
Proof.
  intros H. unfold _build_prompt, json_of_results, json_of_metrics.
  cbn [Json.get Json.lookup String.eqb Ascii.eqb Bool.eqb Py.bind Json.len
       Json.format_2f].
  rewrite H. cbn [Py.bind]. eexists. reflexivity.
Qed.

(** What [_build_prompt] needs of a snapshot, and all it needs: a dict
    whose [metrics], when present, is a dict, whose [ec2_instances] and
    [ebs_volumes], when present, have a length, and whose
    [total_potential_savings], when present, prints with two decimals.
    Nothing is asked of the recommendations. *)
Definition or_default (k : string) (kv : list (string * Json.value))
    (default : Json.value) : Json.value :=
  match Json.lookup k kv with
  | Some v => v
  | None => default
  end.

Lemma build_prompt_iff (json_dumps : Json.value -> string)
    (metrics_data : Json.value) :
  (exists prompt, _build_prompt json_dumps metrics_data = Py.Ok prompt)
  <-> exists kv mkv n_ec2 n_ebs total_text,
        metrics_data = Json.JDict kv
        /\ or_default "metrics" kv (Json.JDict []) = Json.JDict mkv
        /\ Json.len (or_default "ec2_instances" mkv (Json.JList []))
           = Py.Ok n_ec2
        /\ Json.len (or_default "ebs_volumes" mkv (Json.JList []))
           = Py.Ok n_ebs
        /\ Json.format_2f (or_default "total_potential_savings" kv
                             (Json.JInt 0)) = Py.Ok total_text.
Proof.
  unfold _build_prompt. split.
  - intros (prompt & H).
    destruct metrics_data as [ |b|x|s|l|kv]; try discriminate.
    cbn [Json.get Py.bind] in H. fold (or_default "metrics" kv (Json.JDict [])) in H.
    fold (or_default "total_potential_savings" kv (Json.JInt 0)) in H.
    destruct (or_default "metrics" kv (Json.JDict [])) as [ |b|x|s|l|mkv]
      eqn:Hm; try discriminate.
    cbn [Json.get Py.bind] in H.
    fold (or_default "ec2_instances" mkv (Json.JList [])) in H.
    fold (or_default "ebs_volumes" mkv (Json.JList [])) in H.
    destruct (Json.len (or_default "ec2_instances" mkv (Json.JList [])))
      as [n_ec2|e] eqn:He; cbn [Py.bind] in H; [|discriminate].
    destruct (Json.len (or_default "ebs_volumes" mkv (Json.JList [])))
      as [n_ebs|e] eqn:Hv; cbn [Py.bind] in H; [|discriminate].
    destruct (Json.format_2f _) as [total_text|e] eqn:Ht; [|discriminate].
    exists kv, mkv, n_ec2, n_ebs, total_text.
    split; [reflexivity|]. split; [exact Hm|]. split; [exact He|].
    split; [exact Hv | exact Ht].
  - intros (kv & mkv & n_ec2 & n_ebs & total_text & -> & Hm & He & Hv & Ht).
    cbn [Json.get Py.bind]. fold (or_default "metrics" kv (Json.JDict [])).
    fold (or_default "total_potential_savings" kv (Json.JInt 0)).
    rewrite Hm. cbn [Json.get Py.bind].
    fold (or_default "ec2_instances" mkv (Json.JList [])).
    fold (or_default "ebs_volumes" mkv (Json.JList [])).
    rewrite He, Hv, Ht. cbn [Py.bind]. eexists. reflexivity.
Qed.

(** The empty dictionary builds a prompt: every field has a default. *)
Lemma build_prompt_of_nothing (json_dumps : Json.value -> string) :
  exists prompt, _build_prompt json_dumps (Json.JDict []) = Py.Ok prompt.
Proof. eexists. vm_compute. reflexivity. Qed.

(** C3, as the code has it.  For every snapshot for which the prompt can
    be built (the empty dictionary is one, and so is every snapshot stage 1
    writes whose total prints) and each of the three backends,
    [generate_report] raises nothing and returns a non-empty string
    whenever the call fails in a way the client catches, or the answer
    carries a non-empty text where the backend's API puts it. *)
Theorem generate_report_returns (json_dumps : Json.value -> string)
    (c : client) (env : environ) (net : network) (metrics_data : Json.value)
    (prompt : string) :
  supported (provider c) ->
  _build_prompt json_dumps metrics_data = Py.Ok prompt ->
  (forall req,
      http_failure (net req)
      \/ exists status_code j s,
           net req = Response status_code (Some j)
           /\ ~ (400 <= status_code < 600)
           /\ generated_text (provider c) j = Py.Ok (Json.JStr s)
           /\ s <> "") ->
  exists s,
    generate_report json_dumps c env net metrics_data
    = Py.Ok (Json.JStr s)
    /\ s <> "".
Proof.
  intros Hsup Hprompt Hnet.
  unfold generate_report. rewrite Hprompt. cbn [Py.bind].
  destruct Hsup as [E | [E | E]]; rewrite E in *; simpl;
    [unfold _call_groq | unfold _call_openrouter | unfold _call_ollama];
    unfold post;
    match goal with
    | |- context [net ?req] =>
        destruct (Hnet req) as [Hf | (st & j & s & Hreq & Hst & Htext & Hs)]
    end;
    try (exists (_fallback_report prompt);
         split; [now apply call_on_failure | apply fallback_not_empty]);
    exists s; (split; [|exact Hs]); rewrite Hreq;
    apply call_on_answer; assumption.
Qed.

(** *** Fixtures *)

Definition groq : client :=
  {| provider := "groq"; api_key := Some "gsk-test";
     model := "llama-3.1-70b-versatile";
     temperature := Py.float_lit 7 1; max_tokens := 2000 |}.

Definition no_environ : environ := fun _ => None.

Definition dumps_stub : Json.value -> string := fun _ => "[...]".

Definition down : network := fun _ => ConnectionError "Connection refused".

(** A backend answering 300 Multiple Choices with a JSON body that lists
    no completion. *)
Definition multiple_choices : network :=
  fun _ =>
    Response 300
      (Some (Json.JDict [("error", Json.JStr "multiple choices")])).

(** A backend whose generated text is the empty string. *)
Definition silent : network :=
  fun _ =>
    Response 200
      (Some (Json.JDict
               [("choices",
                 Json.JList
                   [Json.JDict
                      [("message",
                        Json.JDict [("content", Json.JStr "")])]])])).

(** A snapshot whose total was stored as text. *)
Definition text_total : Json.value :=
  Json.JDict [("recommendations", Json.JList []);
              ("total_potential_savings", Json.JStr "n/a")].

(** C3 as stated fails twice: a snapshot whose total is a string makes
    [generate_report] raise [ValueError] before any request is sent, and a
    backend that generates the empty text makes it return the empty
    string. *)
Lemma generate_report_counterexample :
  generate_report dumps_stub groq no_environ down text_total
  = Py.Raise (Py.ValueError "Unknown format code 'f' for object of type 'str'")
  /\ generate_report dumps_stub groq no_environ silent
       (json_of_results PersistenceFacts.seven_gb)
     = Py.Ok (Json.JStr "")
  /\ ~ (exists s,
          generate_report dumps_stub groq no_environ down text_total
          = Py.Ok (Json.JStr s) /\ s <> "").
Proof.
  split; [vm_compute; reflexivity|]. split; [vm_compute; reflexivity|].
  intros (s & H & _). vm_compute in H. discriminate.
Qed.

(** A backend that answers with a text. *)
Definition helpful : network :=
  fun _ =>
    Response 200
      (Some (Json.JDict
               [("choices",
                 Json.JList
                   [Json.JDict
                      [("message",
                        Json.JDict [("content", Json.JStr "Resize i-1.")])]])])).

Lemma generate_report_returns_witness :
  (exists s,
     generate_report dumps_stub groq no_environ down (Json.JDict [])
     = Py.Ok (Json.JStr s)
     /\ s <> "")
  /\ (exists s,
        generate_report dumps_stub groq no_environ helpful
          (json_of_results PersistenceFacts.seven_gb) = Py.Ok (Json.JStr s)
        /\ s <> "").
Proof.
  destruct (build_prompt_of_nothing dumps_stub) as (nothing & Hnothing).
  destruct (build_prompt_of_results dumps_stub PersistenceFacts.seven_gb
              "0.70") as (prompt & Hprompt); [vm_compute; reflexivity|].
  split.
  - apply (generate_report_returns dumps_stub groq no_environ down
             (Json.JDict []) nothing).
    + left. reflexivity.
    + exact Hnothing.
    + intros req. left. exact I.
  - apply (generate_report_returns dumps_stub groq no_environ helpful
             (json_of_results PersistenceFacts.seven_gb) prompt).
    + left. reflexivity.
    + exact Hprompt.
    + intros req. right. exists 200. do 2 eexists.
      split; [reflexivity|]. split; [lia|].
      split; [reflexivity | discriminate].
Defined.

(** C4 as stated fails on a 3xx answer: [raise_for_status] lets a 300
    through, and the missing [choices] key raises [KeyError] out of
    [generate_report]. *)
Lemma backend_failure_counterexample :
  (forall req, not_2xx (multiple_choices req))
  /\ (exists prompt,
        _build_prompt dumps_stub (json_of_results PersistenceFacts.seven_gb)
        = Py.Ok prompt)
  /\ generate_report dumps_stub groq no_environ multiple_choices
       (json_of_results PersistenceFacts.seven_gb)
     = Py.Raise (Py.KeyError "choices").
Proof.
  split; [intros req; simpl; lia|].
  split; [eexists; vm_compute; reflexivity | vm_compute; reflexivity].
Qed.

Lemma backend_failure_gives_fallback_witness :
  generate_report dumps_stub groq no_environ down
    (json_of_results PersistenceFacts.seven_gb)
  = Py.Ok (Json.JStr (_fallback_report "")).
Proof.
  destruct (build_prompt_of_results dumps_stub PersistenceFacts.seven_gb
              "0.70") as (prompt & Hprompt); [vm_compute; reflexivity|].
  apply (backend_failure_gives_fallback dumps_stub groq no_environ down
           (json_of_results PersistenceFacts.seven_gb) prompt).
  - left. reflexivity.
  - exact Hprompt.
  - intros req. exact I.
Defined.

End ClientFacts.

(** *** Stage 2: the handler *)

Module HandlerFacts.
Import CostAnalyzer AIClient Recommender.

Section Runtime.

Variable float_repr : spec_float -> string.
Variable str_repr : string -> string.
Variable float_of_str : string -> Py.res spec_float.
Variable int_of_str : string -> Py.res Z.
Variable json_dumps : Json.value -> string.

Lemma init_unsupported (env : environ) :
  ~ ClientFacts.supported (Py.lower (environ_get env "AI_PROVIDER" "groq")) ->
  AIClient.init float_of_str int_of_str env
  = Py.Raise (Py.ValueError
                ("Unsupported AI provider: "
                 ++ Py.lower (environ_get env "AI_PROVIDER" "groq"))).
Proof.
  intros H. unfold AIClient.init, _get_api_key.
  set (p := Py.lower (environ_get env "AI_PROVIDER" "groq")) in *.
  destruct (String.eqb_spec p "groq") as [E|_];
    [exfalso; apply H; now left|].
  destruct (String.eqb_spec p "openrouter") as [E|_];
    [exfalso; apply H; right; now left|].
  destruct (String.eqb_spec p "ollama") as [E|_];
    [exfalso; apply H; right; now right|].
  reflexivity.
Qed.

(** C5, as the code has it.  An unsupported provider name makes the
    constructor raise [ValueError] at once, before the other settings are
    read; [generate_ai_report] catches it and hands back the pipeline-level
    fallback report, so the stage-2 invocation answers 200 whenever that
    report renders. *)
Theorem unsupported_provider_falls_back (env : environ) :
  ~ ClientFacts.supported (Py.lower (environ_get env "AI_PROVIDER" "groq")) ->
  AIClient.init float_of_str int_of_str env
  = Py.Raise (Py.ValueError
                ("Unsupported AI provider: "
                 ++ Py.lower (environ_get env "AI_PROVIDER" "groq")))
  /\ (forall net today a,
        generate_ai_report float_repr str_repr float_of_str int_of_str
          json_dumps env net today a
        = (report <- generate_fallback_report float_repr str_repr today a ;;
           Py.Ok (Json.JStr report)))
  /\ (forall cfg net w now latest report id,
        get_latest_analysis (table w) = Some latest ->
        generate_fallback_report float_repr str_repr (at_fallback now) latest
        = Py.Ok report ->
        Dynamo.attr_of "id" (attrs latest) = Some id ->
        exists w',
          lambda_handler float_repr str_repr float_of_str int_of_str
            json_dumps cfg env net w now
          = ({| statusCode := 200;
                body := Json.JDict
                  [("message", Json.JStr "AI report generated successfully");
                   ("timestamp", Json.JStr (at_return now));
                   ("report_length", Json.JInt (Py.len_str report))] |},
             w')).
Proof.
  intros H. pose proof (init_unsupported env H) as Hinit.
  split; [exact Hinit|].
  assert (Hgen : forall net today a,
    generate_ai_report float_repr str_repr float_of_str int_of_str
      json_dumps env net today a
    = (report <- generate_fallback_report float_repr str_repr today a ;;
       Py.Ok (Json.JStr report))).
  { intros net today a. unfold generate_ai_report. rewrite Hinit.
    reflexivity. }
  split; [exact Hgen|].
  intros cfg net w now latest report id Hlatest Hreport Hid.
  unfold lambda_handler. rewrite Hlatest, Hgen, Hreport. cbn [Py.bind].
  unfold Dynamo.item_get. rewrite Hid. cbn [Json.len].
  eexists. reflexivity.
Qed.

(** C10. The pipeline-level fallback report of a snapshot with five
    recommendations or more renders the first five only: whatever follows
    them enters the text through the stated count alone, which is the
    length of the whole sequence. *)
Theorem fallback_report_first_five (today : string) (a : analysis)
    (kv : list (string * Json.value)) (first extra : list Json.value) :
  data a = Json.JDict kv ->
  Json.lookup "recommendations" kv = Some (Json.JList (first ++ extra)) ->
  List.length first = 5%nat ->
  generate_fallback_report float_repr str_repr today a
  = (total_text <-
       Json.format_2f
         match Json.lookup "total_potential_savings" kv with
         | Some v => v
         | None => Json.JInt 0
         end ;;
     blocks <-
       PromptTemplates.mapM_enumerate
         (render_recommendation float_repr str_repr) 1 first ;;
     Py.Ok ((report_header today total_text
               (Z.of_nat (List.length first + List.length extra))
             ++ top_heading ++ String.concat "" blocks)
            ++ report_footer)).
Proof.
  intros Hdata Hrecs Hlen.
  unfold generate_fallback_report. rewrite Hdata.
  cbn [Json.get Py.bind]. rewrite Hrecs.
  destruct (Json.format_2f _) as [total_text|e]; [|reflexivity].
  cbn [Py.bind Json.len]. rewrite length_app.
  assert (Htruthy : Json.truthy (Json.JList (first ++ extra)) = true).
  { destruct first; [discriminate | reflexivity]. }
  rewrite Htruthy. cbn [Json.slice_to Py.bind Json.iterate].
  replace (firstn 5 (first ++ extra)) with first.
  2:{ rewrite <- Hlen, firstn_app, Nat.sub_diag, firstn_all. simpl.
      now rewrite app_nil_r. }
  destruct (PromptTemplates.mapM_enumerate _ 1 first) as [blocks|e];
    reflexivity.
Qed.

End Runtime.

(** *** Fixtures *)

Definition repr_stub : spec_float -> string := fun _ => "0.7000000000000001".
Definition quote_stub : string -> string := fun s => "'" ++ s ++ "'".
Definition float_stub : string -> Py.res spec_float :=
  fun _ => Py.Ok (Py.float_lit 7 1).
Definition int_stub : string -> Py.res Z := fun _ => Py.Ok 2000.

(** An environment naming a backend the client does not know. *)
Definition bedrock : environ :=
  fun name => if String.eqb name "AI_PROVIDER" then Some "Bedrock" else None.

(** A world whose table holds the 7 GB snapshot. *)
Definition stored : world :=
  {| table :=
       {| Dynamo.items :=
            [PersistenceFacts.record_of "2024-06-01_00-00-05"
               PersistenceFacts.seven_gb 0];
          Dynamo.slot := fun _ => 0%nat;
          Dynamo.outage := None |};
     s3 := []; s3_outage := None; sns := []; sns_outage := None |}.

Definition june : clock :=
  {| at_fallback := "June 01, 2024"; at_s3 := "2024-06-01_00-10-00";
     at_sns := "June 01, 2024"; at_update := "2024-06-01T00:10:01";
     at_return := "2024-06-01T00:10:02" |}.

(** C5 as stated fails: with the provider set to Bedrock the constructor
    raises, yet the stage-2 invocation answers 200. *)
Lemma unsupported_provider_counterexample :
  ~ ClientFacts.supported (Py.lower (environ_get bedrock "AI_PROVIDER" "groq"))
  /\ AIClient.init float_stub int_stub bedrock
     = Py.Raise (Py.ValueError "Unsupported AI provider: bedrock")
  /\ statusCode
       (fst (lambda_handler repr_stub quote_stub float_stub int_stub
               ClientFacts.dumps_stub (configure bedrock) bedrock
               ClientFacts.down stored june)) = 200.
Proof.
  split.
  - vm_compute. intros [H | [H | H]]; discriminate.
  - split; vm_compute; reflexivity.
Qed.

Lemma unsupported_provider_falls_back_witness :
  AIClient.init float_stub int_stub bedrock
  = Py.Raise (Py.ValueError "Unsupported AI provider: bedrock").
Proof.
  refine (proj1 (unsupported_provider_falls_back repr_stub quote_stub
                   float_stub int_stub ClientFacts.dumps_stub bedrock _)).
  vm_compute. intros [H | [H | H]]; discriminate.
Defined.

(** Six recommendations of fifty dollars each. *)
Definition rec_n (id : string) : Json.value :=
  Json.JDict [("type", Json.JStr "ec2_rightsize");
              ("resource_id", Json.JStr id);
              ("message", Json.JStr "low CPU");
              ("estimated_savings", Json.JInt 50)].

Definition six : analysis :=
  {| attrs := [("id", Dynamo.AText "2024-06-01_00-00-05")];
     data :=
       Json.JDict
         [("recommendations",
           Json.JList ([rec_n "i-1"; rec_n "i-2"; rec_n "i-3"; rec_n "i-4";
                        rec_n "i-5"] ++ [rec_n "i-6"]));
          ("total_potential_savings", Json.JInt 300)] |}.

Lemma fallback_report_first_five_witness :
  exists report,
    generate_fallback_report repr_stub quote_stub "June 01, 2024" six
    = Py.Ok report
    /\ String.index 0 "RECOMMENDATIONS FOUND: 6" report <> None
    /\ String.index 0 "i-5" report <> None
    /\ String.index 0 "i-6" report = None.
Proof.
  eexists. split.
  - rewrite (fallback_report_first_five repr_stub quote_stub "June 01, 2024"
               six _ [rec_n "i-1"; rec_n "i-2"; rec_n "i-3"; rec_n "i-4";
                      rec_n "i-5"] [rec_n "i-6"] eq_refl eq_refl eq_refl).
    vm_compute. reflexivity.
  - split; [vm_compute; discriminate|].
    split; [vm_compute; discriminate | vm_compute; reflexivity].
Defined.

End HandlerFacts.

(** *** Stage 2: what the prompt carries *)

Module PromptFacts.
Import CostAnalyzer AIClient.

(** C6.  The prompt [generate_report] sends is a function of the
    recommendations, the total and the two resource counts only: two
    snapshots that agree on those get the same prompt, however many of
    their instances are under-utilized and however many of their volumes
    are unattached. *)
Theorem build_prompt_ignores_utilization (json_dumps : Json.value -> string)
    (r r' : results) :
  recommendations r = recommendations r' ->
  total_potential_savings r = total_potential_savings r' ->
  List.length (ec2_instances (metrics_of r))
  = List.length (ec2_instances (metrics_of r')) ->
  List.length (ebs_volumes (metrics_of r))
  = List.length (ebs_volumes (metrics_of r')) ->
  _build_prompt json_dumps (json_of_results r)
  = _build_prompt json_dumps (json_of_results r').
Proof.
  intros Hrecs Htotal Hec2 Hebs.
  unfold _build_prompt, json_of_results, json_of_metrics.
  cbn [Json.get Json.lookup String.eqb Ascii.eqb Bool.eqb Py.bind Json.len
       Json.format_2f].
  rewrite !length_map, Hrecs, Htotal, Hec2, Hebs. reflexivity.
Qed.

(** One idle instance and one loose volume, against one busy instance and
    one attached volume; the same single recommendation in both. *)
Definition idle : results :=
  {| timestamp := "2024-06-01T00:00:05";
     metrics_of :=
       AnalyzerFacts.only [AnalyzerFacts.sample "i-1" (Py.PInt 5)]
                          [AnalyzerFacts.loose_volume "vol-1" 100];
     recommendations :=
       [rightsize (fun _ => "") (AnalyzerFacts.sample "i-1" (Py.PInt 5))];
     total_potential_savings := Py.PInt 50 |}.

Definition busy : results :=
  {| timestamp := "2024-06-01T00:00:05";
     metrics_of :=
       AnalyzerFacts.only
         [AnalyzerFacts.sample "i-1" (Py.PInt 40)]
         [{| volume_id := "vol-1"; size_gb := 100; state := "in-use";
             is_attached := true; created_time := "2024-01-01T00:00:00" |}];
     recommendations :=
       [rightsize (fun _ => "") (AnalyzerFacts.sample "i-1" (Py.PInt 5))];
     total_potential_savings := Py.PInt 50 |}.

Lemma build_prompt_ignores_utilization_witness :
  _build_prompt ClientFacts.dumps_stub (json_of_results idle)
  = _build_prompt ClientFacts.dumps_stub (json_of_results busy).
Proof.
  apply (build_prompt_ignores_utilization ClientFacts.dumps_stub idle busy);
    reflexivity.
Defined.

(** The template of [prompt_templates.py] does carry the two counts, and a
    bulleted rendering of every recommendation; it tells the two snapshots
    apart. *)
Lemma cost_analysis_prompt_counts :
  exists p p',
    PromptTemplates.get_cost_analysis_prompt (fun _ => "") (fun s => s)
      (json_of_results idle) = Py.Ok p
    /\ PromptTemplates.get_cost_analysis_prompt (fun _ => "") (fun s => s)
         (json_of_results busy) = Py.Ok p'
    /\ String.index 0 "**Underutilized Instances**: 1 (< 15% CPU)" p <> None
    /\ String.index 0 "**Unattached Volumes**: 1" p <> None
    /\ String.index 0 "**Underutilized Instances**: 0 (< 15% CPU)" p' <> None
    /\ String.index 0 "**Unattached Volumes**: 0" p' <> None
    /\ String.index 0 "- Resource: i-1" p <> None
    /\ String.index 0 "- Potential Savings: $50.00/month" p <> None.
Proof.
  do 2 eexists. split; [vm_compute; reflexivity|].
  split; [vm_compute; reflexivity|].
  repeat split; vm_compute; discriminate.
Qed.

Lemma build_prompt_lacks_counts :
  exists p,
    _build_prompt ClientFacts.dumps_stub (json_of_results idle) = Py.Ok p
    /\ String.index 0 "- EC2 Instances: 1" p <> None
    /\ String.index 0 "- EBS Volumes: 1" p <> None
    /\ String.index 0 "- Total Potential Savings: $50.00/month" p <> None
    /\ String.index 0 "nderutilized" p = None
    /\ String.index 0 "nattached" p = None.
Proof.
  eexists. split; [vm_compute; reflexivity|].
  repeat split; vm_compute; try discriminate; reflexivity.
Qed.

End PromptFacts.

(* ================================================================== *)
(** ** Further properties of the code *)

(** *** Stage 1: what the analysis lists, and when it returns *)

Module RuleFacts.
Import CostAnalyzer.

Lemma mapM_cleanup_shape (l : list volume) (recs : list recommendation) :
  Py.mapM cleanup l = Py.Ok recs ->
  map resource_id recs = map volume_id l
  /\ forall rec, In rec recs ->
       exists v, In v l /\ cleanup v = Py.Ok rec.
Proof.
  revert recs; induction l as [|v l IH]; intros recs H; simpl in H.
  - injection H as <-. split; [reflexivity | intros rec []].
  - destruct (cleanup v) as [r|e] eqn:E; simpl in H; [|discriminate].
    destruct (Py.mapM cleanup l) as [bs|e]; simpl in H; [|discriminate].
    injection H as <-. destruct (IH bs eq_refl) as [Hids Hin]. split.
    + simpl. rewrite Hids. f_equal.
      unfold cleanup in E. destruct (Py.mul _ _); simpl in E; [|discriminate].
      now injection E as <-.
    + intros rec [<-|Hrec].
      * exists v. split; [now left | exact E].
      * destruct (Hin rec Hrec) as (v' & Hv' & Hc).
        exists v'. split; [now right | exact Hc].
Qed.

(** What [estimated_savings] holds: the integer 50, or the float product
    of a volume size and 0.10. *)
Lemma savings_shape (float_repr : spec_float -> string) (now : string)
    (m : metrics) (r : results) :
  analyze_metrics float_repr now m = Py.Ok r ->
  forall rec, In rec (recommendations r) ->
    estimated_savings rec = Py.PInt 50
    \/ exists f, estimated_savings rec = Py.PFloat f.
Proof.
  intros H rec Hrec.
  destruct (AnalyzerFacts.analyze_metrics_inv _ _ _ _ H)
    as (ebs & Hebs & Hrecs & _).
  destruct (mapM_cleanup_shape _ _ Hebs) as [_ Hin].
  rewrite Hrecs in Hrec. apply in_app_or in Hrec. destruct Hrec as [Hrec|Hrec].
  - left. apply in_map_iff in Hrec. destruct Hrec as (i & <- & _). reflexivity.
  - right. destruct (Hin rec Hrec) as (v & _ & Hc). unfold cleanup in Hc.
    destruct (Py.mul _ _) as [s|e] eqn:E; simpl in Hc; [|discriminate].
    injection Hc as <-. simpl. unfold Py.mul in E.
    destruct (Py.float_of_int (size_gb v)); simpl in E; [|discriminate].
    injection E as <-. eexists. reflexivity.
Qed.

(** X1. The recommendations come in resource order, compute before
    storage: one [ec2_rightsize] (medium, 50) for each instance below 15%
    CPU and then one [ebs_cleanup] (low, [size_gb * 0.10]) for each
    unattached volume, so never more recommendations than resources. *)
Theorem recommendations_follow_resources (float_repr : spec_float -> string)
    (now : string) (m : metrics) (r : results) :
  analyze_metrics float_repr now m = Py.Ok r ->
  map resource_id (recommendations r)
  = (map instance_id (filter low_cpu (ec2_instances m))
     ++ map volume_id (filter (fun v => negb (is_attached v)) (ebs_volumes m)))%list
  /\ (forall rec, In rec (recommendations r) ->
        (type_ rec = "ec2_rightsize" /\ severity rec = "medium"
         /\ estimated_savings rec = Py.PInt 50
         /\ exists i, In i (ec2_instances m) /\ low_cpu i = true
                      /\ resource_id rec = instance_id i)
        \/ (type_ rec = "ebs_cleanup" /\ severity rec = "low"
            /\ exists v, In v (ebs_volumes m) /\ is_attached v = false
                         /\ resource_id rec = volume_id v
                         /\ Py.mul (Py.PInt (size_gb v))
                                   (Py.PFloat (Py.float_lit 10 2))
                            = Py.Ok (estimated_savings rec)))
  /\ (List.length (recommendations r)
      <= List.length (ec2_instances m) + List.length (ebs_volumes m))%nat.
Proof.
  intros H.
  destruct (AnalyzerFacts.analyze_metrics_inv _ _ _ _ H)
    as (ebs & Hebs & Hrecs & _).
  destruct (mapM_cleanup_shape _ _ Hebs) as [Hids Hin].
  rewrite Hrecs. split; [|split].
  - rewrite map_app, map_map, Hids. reflexivity.
  - intros rec Hrec. apply in_app_or in Hrec. destruct Hrec as [Hrec|Hrec].
    + left. apply in_map_iff in Hrec. destruct Hrec as (i & <- & Hi).
      apply filter_In in Hi. destruct Hi as [Hi Hlow].
      repeat split. exists i. repeat split; assumption.
    + right. destruct (Hin rec Hrec) as (v & Hv & Hc).
      apply filter_In in Hv. destruct Hv as [Hv Hatt].
      unfold cleanup in Hc.
      destruct (Py.mul _ _) as [s|e] eqn:E; simpl in Hc; [|discriminate].
      injection Hc as <-. simpl. repeat split.
      exists v. repeat split; try assumption.
      now destruct (is_attached v).
  - rewrite length_app, length_map.
    assert (Hl : List.length ebs
                 = List.length (filter (fun v => negb (is_attached v))
                                       (ebs_volumes m))).
    { rewrite <- (length_map resource_id ebs), Hids. apply length_map. }
    rewrite Hl.
    pose proof (filter_length_le low_cpu (ec2_instances m)).
    pose proof (filter_length_le (fun v => negb (is_attached v))
                                 (ebs_volumes m)).
    lia.
Qed.

Lemma recommendations_follow_resources_witness :
  exists r,
    analyze_metrics (fun _ => "") "2024-06-01T00:00:05"
      (AnalyzerFacts.only
         [AnalyzerFacts.sample "i-1" (Py.PInt 5);
          AnalyzerFacts.sample "i-2" (Py.PInt 40)]
         [AnalyzerFacts.loose_volume "vol-1" 100]) = Py.Ok r
    /\ map resource_id (recommendations r) = ["i-1"; "vol-1"].
Proof.
  eexists. split; [vm_compute; reflexivity|].
  refine (proj1 (recommendations_follow_resources (fun _ => "")
                   "2024-06-01T00:00:05"
                   (AnalyzerFacts.only
                      [AnalyzerFacts.sample "i-1" (Py.PInt 5);
                       AnalyzerFacts.sample "i-2" (Py.PInt 40)]
                      [AnalyzerFacts.loose_volume "vol-1" 100]) _ _)).
  vm_compute. reflexivity.
Defined.

(** X2. For an account of ordinary size (volume sizes below [2^53] GB in
    magnitude, [50 * instances] below [2^53]) the analysis raises nothing:
    it returns a snapshot that carries the metrics and the clock reading it
    was given. *)
Theorem analysis_returns (float_repr : spec_float -> string)
    (now : string) (m : metrics) :
  Forall (fun v => - 2 ^ 53 < size_gb v < 2 ^ 53) (ebs_volumes m) ->
  50 * Z.of_nat (List.length (ec2_instances m)) < 2 ^ 53 ->
  exists r, analyze_metrics float_repr now m = Py.Ok r
            /\ timestamp r = now /\ metrics_of r = m.
Proof.
  intros Hv Hn.
  destruct (AnalyzerFacts.analyze_metrics_returns float_repr now m Hv Hn)
    as (r & Hr).
  exists r. split; [exact Hr|].
  destruct (AnalyzerFacts.analyze_metrics_inv _ _ _ _ Hr)
    as (_ & _ & _ & _ & Ht & Hm).
  split; assumption.
Qed.

Lemma analysis_returns_witness :
  exists r,
    analyze_metrics (fun _ => "") "2024-06-01T00:00:05"
      (AnalyzerFacts.only [AnalyzerFacts.sample "i-1" (Py.PInt 5)]
                          [AnalyzerFacts.loose_volume "vol-1" 100]) = Py.Ok r
    /\ timestamp r = "2024-06-01T00:00:05".
Proof.
  destruct (analysis_returns (fun _ => "") "2024-06-01T00:00:05"
              (AnalyzerFacts.only [AnalyzerFacts.sample "i-1" (Py.PInt 5)]
                                  [AnalyzerFacts.loose_volume "vol-1" 100]))
    as (r & Hr & Ht & _).
  - repeat constructor; simpl; lia.
  - simpl. lia.
  - exists r. split; assumption.
Defined.

End RuleFacts.

(** *** Stage 1: the handler *)

Module Stage1Facts.
Import CostAnalyzer.

Lemma store_results_outage (t : Dynamo.table) (now : string) (r : results)
    (e : Py.exn) :
  Dynamo.outage t = Some e ->
  exists e', store_results t now r = Py.Raise e'.
Proof.
  intros Ho. unfold store_results, Py.try_except.
  destruct (Py.int (total_potential_savings r)) as [total|e1]; simpl.
  - unfold Dynamo.put_item.
    destruct (Dynamo.serialize_all _) as [[]|e0]; cbn [Py.bind];
      [|now exists e0].
    rewrite Ho. now exists e.
  - now exists e1.
Qed.

Lemma put_record_healthy (t : Dynamo.table) (now : string) (r : results)
    (total : Z) :
  Dynamo.serialize_all (PersistenceFacts.record_of now r total) = Py.Ok tt ->
  Dynamo.outage t = None ->
  exists t', Dynamo.put_item t (PersistenceFacts.record_of now r total)
             = Py.Ok t'.
Proof.
  intros Hs Ho. unfold Dynamo.put_item. rewrite Hs, Ho. simpl.
  destruct (Dynamo.replace_id now _ (Dynamo.items t)); eexists; reflexivity.
Qed.

(** X3. A DynamoDB failure is fatal to stage 1: whatever was collected,
    the handler answers 500 with an error message and the table is left as
    it was. *)
Theorem store_failure_is_fatal (float_repr : spec_float -> string)
    (a : aws) (t : Dynamo.table) (now : clock) (e : Py.exn) :
  Dynamo.outage t = Some e ->
  exists msg,
    lambda_handler float_repr a t now
    = ({| statusCode := 500;
          body := Json.JDict [("error", Json.JStr msg)] |}, t).
Proof.
  intros Ho. unfold lambda_handler.
  destruct (analyze_metrics float_repr (at_analyze now)
              (collect_aws_metrics a (at_collect now))) as [r|e1]; simpl.
  - destruct (store_results_outage t (at_store now) r e Ho) as (e' & ->).
    simpl. eexists. reflexivity.
  - eexists. reflexivity.
Qed.

Definition broken_table : Dynamo.table :=
  {| Dynamo.items := []; Dynamo.slot := fun _ => 0%nat;
     Dynamo.outage := Some (Py.ServiceError "ResourceNotFoundException") |}.

Definition morning : clock :=
  {| at_collect := "2024-06-01T00:00:00"; at_analyze := "2024-06-01T00:00:05";
     at_store := "2024-06-01_00-00-06"; at_return := "2024-06-01T00:00:07" |}.

Lemma store_failure_is_fatal_witness :
  exists msg,
    lambda_handler (fun _ => "") CollectorFacts.refused broken_table morning
    = ({| statusCode := 500;
          body := Json.JDict [("error", Json.JStr msg)] |}, broken_table).
Proof.
  apply (store_failure_is_fatal (fun _ => "") CollectorFacts.refused
           broken_table morning (Py.ServiceError "ResourceNotFoundException")).
  reflexivity.
Defined.

(** X4. Stage 1 answers 200 or 500, nothing else.  A 200 means the
    analysis returned and its record is in the table, under the id read
    from the clock; the body then reports the number of recommendations of
    that record, and [resources_analyzed] is 3 whatever was collected (the
    number of keys of the metrics dictionary). *)
Theorem success_means_stored (float_repr : spec_float -> string)
    (a : aws) (t : Dynamo.table) (now : clock) :
  let out := lambda_handler float_repr a t now in
  (statusCode (fst out) = 200 \/ statusCode (fst out) = 500)
  /\ (statusCode (fst out) = 200 ->
      exists r total,
        analyze_metrics float_repr (at_analyze now)
          (collect_aws_metrics a (at_collect now)) = Py.Ok r
        /\ Py.int (total_potential_savings r) = Py.Ok total
        /\ In (PersistenceFacts.record_of (at_store now) r total)
              (Dynamo.items (snd out))
        /\ body (fst out)
           = Json.JDict
               [("message", Json.JStr "Cost analysis completed successfully");
                ("timestamp", Json.JStr (at_return now));
                ("resources_analyzed", Json.JInt 3);
                ("recommendations",
                 Json.JInt (Z.of_nat (List.length (recommendations r))))])
  /\ (statusCode (fst out) = 500 -> snd out = t).
Proof.
  unfold lambda_handler.
  destruct (analyze_metrics float_repr (at_analyze now)
              (collect_aws_metrics a (at_collect now))) as [r|e1]; simpl.
  - destruct (store_results t (at_store now) r) as [t'|e2] eqn:Hs; simpl.
    + split; [now left|]. split; [|discriminate].
      intros _.
      destruct (PersistenceFacts.store_results_inv _ _ _ _ Hs)
        as (total & Hint & Hput).
      destruct (PersistenceFacts.put_item_split _ _ _ Hput)
        as (l1 & l2 & Hitems & _).
      exists r, total. repeat split; try assumption.
      rewrite Hitems. apply in_or_app. right. now left.
    + split; [now right|]. split; [discriminate | reflexivity].
  - split; [now right|]. split; [discriminate | reflexivity].
Qed.

(** X5. Collection errors never reach the caller: with both AWS queries
    failing and the table healthy, stage 1 still answers 200, reports no
    recommendation, and stores a snapshot with empty metrics and a total
    of 0. *)
Theorem unreachable_account_is_recorded (float_repr : spec_float -> string)
    (a : aws) (t : Dynamo.table) (now : clock) (e1 e2 : Py.exn) :
  describe_instances a = Py.Raise e1 ->
  describe_volumes a = Py.Raise e2 ->
  Dynamo.outage t = None ->
  let empty :=
    {| timestamp := at_analyze now;
       metrics_of := {| ec2_instances := []; ebs_volumes := [];
                        metrics_timestamp := at_collect now |};
       recommendations := [];
       total_potential_savings := Py.PInt 0 |} in
  exists t',
    lambda_handler float_repr a t now
    = ({| statusCode := 200;
          body := Json.JDict
            [("message", Json.JStr "Cost analysis completed successfully");
             ("timestamp", Json.JStr (at_return now));
             ("resources_analyzed", Json.JInt 3);
             ("recommendations", Json.JInt 0)] |}, t')
    /\ In (PersistenceFacts.record_of (at_store now) empty 0) (Dynamo.items t').
Proof.
  intros H1 H2 Ho empty.
  unfold lambda_handler, collect_aws_metrics, get_ec2_metrics, get_ebs_metrics.
  rewrite H1, H2.
  change (analyze_metrics float_repr (at_analyze now)
            {| ec2_instances := []; ebs_volumes := [];
               metrics_timestamp := at_collect now |}) with (Py.Ok empty).
  cbn [Py.bind].
  destruct (put_record_healthy t (at_store now) empty 0 eq_refl Ho)
    as (t' & Hput).
  assert (Hs : store_results t (at_store now) empty = Py.Ok t').
  { unfold store_results, Py.try_except. cbn [Py.int total_potential_savings
      empty Py.bind]. unfold PersistenceFacts.record_of in Hput.
    now rewrite Hput. }
  rewrite Hs. cbn [Py.bind]. exists t'. split; [reflexivity|].
  destruct (PersistenceFacts.put_item_split _ _ _ Hput)
    as (l1 & l2 & Hitems & _).
  rewrite Hitems. apply in_or_app. right. now left.
Qed.

Definition unreachable : aws :=
  {| describe_instances := Py.Raise (Py.ServiceError "EndpointConnectionError");
     describe_volumes := Py.Raise (Py.ServiceError "EndpointConnectionError");
     get_metric_statistics := fun _ => Py.Raise (Py.ServiceError "Throttling") |}.

Lemma unreachable_account_is_recorded_witness :
  exists t',
    statusCode (fst (lambda_handler (fun _ => "") unreachable
                       PersistenceFacts.empty_table morning)) = 200
    /\ snd (lambda_handler (fun _ => "") unreachable
              PersistenceFacts.empty_table morning) = t'
    /\ List.length (Dynamo.items t') = 1%nat.
Proof.
  destruct (unreachable_account_is_recorded (fun _ => "") unreachable
              PersistenceFacts.empty_table morning _ _ eq_refl eq_refl eq_refl)
    as (t' & Hrun & _).
  exists t'. rewrite Hrun. split; [reflexivity|]. split; [reflexivity|].
  vm_compute in Hrun. injection Hrun as <-. reflexivity.
Defined.

Lemma success_means_stored_witness :
  statusCode (fst (lambda_handler (fun _ => "") unreachable
                     PersistenceFacts.empty_table morning)) = 200
  /\ exists r total,
       In (PersistenceFacts.record_of "2024-06-01_00-00-06" r total)
          (Dynamo.items
             (snd (lambda_handler (fun _ => "") unreachable
                     PersistenceFacts.empty_table morning))).
Proof.
  destruct (success_means_stored (fun _ => "") unreachable
              PersistenceFacts.empty_table morning) as (_ & H & _).
  split; [reflexivity|].
  destruct (H eq_refl) as (r & total & _ & _ & Hin & _).
  exists r, total. exact Hin.
Defined.

End Stage1Facts.

(** *** Stage 2: the report stage on the snapshots stage 1 writes *)

Module Stage2Facts.
Import CostAnalyzer AIClient Recommender.

(** A number that [{x:.2f}] can print. *)
Definition printable (x : Py.num) : Prop :=
  exists text, Py.format_2f x = Py.Ok text.

Lemma printable_float (f : spec_float) : printable (Py.PFloat f).
Proof. eexists. reflexivity. Qed.

Lemma printable_small (z : Z) : - 2 ^ 53 < z < 2 ^ 53 -> printable (Py.PInt z).
Proof.
  intros H. unfold printable, Py.format_2f.
  destruct (FloatFacts.float_of_int_small z H) as (f & ->).
  eexists. reflexivity.
Qed.

Lemma mapM_enumerate_returns {A B : Type} (f : Z -> A -> Py.res B)
    (l : list A) (start : Z) :
  Forall (fun a => forall idx, exists b, f idx a = Py.Ok b) l ->
  exists bs, PromptTemplates.mapM_enumerate f start l = Py.Ok bs
             /\ List.length bs = List.length l.
Proof.
  revert start. induction l as [|a l IH]; intros start Hl; simpl.
  - exists []. split; reflexivity.
  - inversion Hl as [|? ? Ha Hl']; subst.
    destruct (Ha start) as (b & ->).
    destruct (IH (start + 1) Hl') as (bs & -> & Hlen).
    simpl. exists (b :: bs). split; [reflexivity | simpl; now rewrite Hlen].
Qed.

(** What the analysis puts in [estimated_savings]: the integer 50 or a
    float. *)
Lemma savings_printable (float_repr : spec_float -> string) (now : string)
    (m : metrics) (r : results) :
  analyze_metrics float_repr now m = Py.Ok r ->
  Forall (fun rec => printable (estimated_savings rec)) (recommendations r).
Proof.
  intros H. apply Forall_forall. intros rec Hrec.
  destruct (RuleFacts.savings_shape _ _ _ _ H rec Hrec) as [-> | (f & ->)].
  - apply printable_small. lia.
  - apply printable_float.
Qed.

(** The three helpers after the report touch one service each. *)
Lemma save_to_s3_frame (cfg : config) (w : world) (now : string)
    (report : Json.value) :
  let w' := save_to_s3 cfg w now report in
  table w' = table w /\ sns w' = sns w
  /\ (s3 w' = s3 w
      \/ exists body,
           S3_BUCKET cfg <> ""
           /\ s3_outage w = None
           /\ report = Json.JStr body
           /\ s3 w' = ({| Bucket := S3_BUCKET cfg;
                          Key := "reports/cost-report_" ++ now ++ ".txt";
                          Body := body;
                          ContentType := "text/plain" |} :: s3 w)%list).
Proof.
  unfold save_to_s3.
  destruct (String.eqb_spec (S3_BUCKET cfg) "") as [E|E]; [tauto|].
  destruct report as [ |b|n|body|l|kv]; try (simpl; tauto).
  cbn [as_text Py.bind].
  destruct (s3_outage w) eqn:Ho; [simpl; tauto|].
  simpl. repeat split. right. exists body. repeat split; assumption.
Qed.

Lemma send_notification_frame (cfg : config) (w : world) (today : string)
    (report : Json.value) :
  let w' := send_notification cfg w today report in
  table w' = table w /\ s3 w' = s3 w
  /\ (sns w' = sns w
      \/ exists message,
           SNS_TOPIC_ARN cfg <> ""
           /\ sns_outage w = None
           /\ report = Json.JStr message
           /\ sns w' = ({| TopicArn := SNS_TOPIC_ARN cfg;
                           Subject := "AWS Cost Optimization Report - " ++ today;
                           Message := message |} :: sns w)%list).
Proof.
  unfold send_notification.
  destruct (String.eqb_spec (SNS_TOPIC_ARN cfg) "") as [E|E]; [tauto|].
  destruct report as [ |b|n|message|l|kv]; try (simpl; tauto).
  cbn [as_text Py.bind].
  destruct (sns_outage w) eqn:Ho; [simpl; tauto|].
  simpl. repeat split. right. exists message. repeat split; assumption.
Qed.

Lemma update_frame (w : world) (id : Dynamo.attr) (now : string)
    (report : Json.value) :
  let w' := update_analysis_with_report w id now report in
  s3 w' = s3 w /\ sns w' = sns w.
Proof.
  unfold update_analysis_with_report.
  destruct id as [id|z|j|j]; try tauto.
  destruct (Dynamo.update_item (table w) id _); simpl; tauto.
Qed.

Section Runtime.

Variable float_repr : spec_float -> string.
Variable str_repr : string -> string.
Variable float_of_str : string -> Py.res spec_float.
Variable int_of_str : string -> Py.res Z.
Variable json_dumps : Json.value -> string.

Lemma render_recommendation_returns (idx : Z) (rec : recommendation) :
  printable (estimated_savings rec) ->
  exists block,
    render_recommendation float_repr str_repr idx (json_of_recommendation rec)
    = Py.Ok block.
Proof.
  intros (text & Htext). unfold render_recommendation, json_of_recommendation.
  destruct (detail rec) as [ct cu|sz];
    cbn [json_of_details app Json.get Json.lookup String.eqb Ascii.eqb
         Bool.eqb Py.bind Json.format_2f];
    rewrite Htext; cbn [Py.bind]; eexists; reflexivity.
Qed.

Lemma fallback_report_returns (today : string) (attrs : Dynamo.item)
    (r : results) :
  printable (total_potential_savings r) ->
  Forall (fun rec => printable (estimated_savings rec))
         (firstn 5 (recommendations r)) ->
  exists report,
    generate_fallback_report float_repr str_repr today
      {| Recommender.attrs := attrs; data := json_of_results r |}
    = Py.Ok report.
Proof.
  intros (total_text & Htotal) Hrecs.
  unfold generate_fallback_report, json_of_results.
  cbn [data Json.get Json.lookup String.eqb Ascii.eqb Bool.eqb Py.bind
       Json.format_2f Json.len].
  rewrite Htotal. cbn [Py.bind].
  destruct (recommendations r) as [|rec recs] eqn:Hr.
  - cbn [map Json.truthy Py.bind List.length]. eexists. reflexivity.
  - assert (Htruthy : Json.truthy
                        (Json.JList (map json_of_recommendation (rec :: recs)))
                      = true) by reflexivity.
    rewrite Htruthy. cbn [Json.slice_to Py.bind Json.iterate].
    rewrite firstn_map.
    destruct (mapM_enumerate_returns
                (render_recommendation float_repr str_repr)
                (map json_of_recommendation (firstn 5 (rec :: recs))) 1)
      as (blocks & Hblocks & _).
    { apply Forall_forall. intros j Hj idx. apply in_map_iff in Hj.
      destruct Hj as (x & <- & Hx). apply render_recommendation_returns.
      rewrite Forall_forall in Hrecs. now apply Hrecs. }
    rewrite Hblocks. cbn [Py.bind]. eexists. reflexivity.
Qed.

(** The report handed on always has a length. *)
Lemma ai_report_has_length (env : environ) (net : network) (today : string)
    (attrs : Dynamo.item) (r : results) :
  printable (total_potential_savings r) ->
  Forall (fun rec => printable (estimated_savings rec))
         (firstn 5 (recommendations r)) ->
  exists report n,
    generate_ai_report float_repr str_repr float_of_str int_of_str json_dumps
      env net today
      {| Recommender.attrs := attrs; data := json_of_results r |}
    = Py.Ok report
    /\ Json.len report = Py.Ok n.
Proof.
  intros Htotal Hrecs.
  destruct (fallback_report_returns today attrs r Htotal Hrecs)
    as (text & Htext).
  unfold generate_ai_report, Py.try_except.
  destruct (AIClient.init float_of_str int_of_str env) as [c|e];
    cbn [Py.bind data].
  2:{ rewrite Htext. now exists (Json.JStr text), (Py.len_str text). }
  destruct (generate_report json_dumps c env net (json_of_results r))
    as [report|e]; cbn [Py.bind].
  2:{ rewrite Htext. now exists (Json.JStr text), (Py.len_str text). }
  destruct (Json.len report) as [n|e] eqn:Hn; cbn [Py.bind].
  - now exists report, n.
  - rewrite Htext. now exists (Json.JStr text), (Py.len_str text).
Qed.

(** X6. The pipeline-level fallback renders every snapshot stage 1 writes
    whose total and first five savings can be printed; with no
    recommendation it is the header with count 0, the "nothing found"
    lines and the footer. *)
Theorem fallback_report_renders (today : string) (attrs : Dynamo.item)
    (r : results) :
  printable (total_potential_savings r) ->
  Forall (fun rec => printable (estimated_savings rec))
         (firstn 5 (recommendations r)) ->
  exists report,
    generate_fallback_report float_repr str_repr today
      {| Recommender.attrs := attrs; data := json_of_results r |}
    = Py.Ok report
    /\ report <> ""
    /\ (recommendations r = [] ->
        forall total_text,
          Py.format_2f (total_potential_savings r) = Py.Ok total_text ->
          report = ((report_header today total_text 0 ++ nothing_found)
                    ++ report_footer)).
Proof.
  intros (total_text & Htotal) Hrecs.
  unfold generate_fallback_report, json_of_results.
  cbn [data Json.get Json.lookup String.eqb Ascii.eqb Bool.eqb Py.bind
       Json.format_2f Json.len].
  rewrite Htotal. cbn [Py.bind].
  destruct (recommendations r) as [|rec recs] eqn:Hr.
  - cbn [map Json.truthy Py.bind List.length]. eexists.
    split; [reflexivity|]. split.
    + unfold report_header. discriminate.
    + intros _ text Htext. injection Htext as <-. reflexivity.
  - assert (Htruthy : Json.truthy
                        (Json.JList (map json_of_recommendation (rec :: recs)))
                      = true) by reflexivity.
    rewrite Htruthy. cbn [Json.slice_to Py.bind Json.iterate].
    rewrite firstn_map.
    destruct (mapM_enumerate_returns
                (render_recommendation float_repr str_repr)
                (map json_of_recommendation (firstn 5 (rec :: recs))) 1)
      as (blocks & Hblocks & _).
    { apply Forall_forall. intros j Hj idx. apply in_map_iff in Hj.
      destruct Hj as (x & <- & Hx). apply render_recommendation_returns.
      rewrite Forall_forall in Hrecs. now apply Hrecs. }
    rewrite Hblocks. cbn [Py.bind].
    eexists. split; [reflexivity|]. split; [|discriminate].
    unfold report_header. discriminate.
Qed.

(** X7. [generate_ai_report] raises nothing on such a snapshot, whatever
    the environment holds and the network does, and which report it hands
    on is settled: the client's report whenever the client was constructed,
    returned a report and that report has a length; the pipeline-level
    fallback report in every other case (the constructor raised, the
    client raised, or its report has no length). *)
Theorem report_always_generated (env : environ) (net : network)
    (today : string) (attrs : Dynamo.item) (r : results) :
  printable (total_potential_savings r) ->
  Forall (fun rec => printable (estimated_savings rec))
         (firstn 5 (recommendations r)) ->
  let a := {| Recommender.attrs := attrs; data := json_of_results r |} in
  let run := generate_ai_report float_repr str_repr float_of_str int_of_str
               json_dumps env net today a in
  (exists report n, run = Py.Ok report /\ Json.len report = Py.Ok n)
  /\ (forall c report n,
        AIClient.init float_of_str int_of_str env = Py.Ok c ->
        generate_report json_dumps c env net (json_of_results r)
        = Py.Ok report ->
        Json.len report = Py.Ok n ->
        run = Py.Ok report)
  /\ (forall e,
        (AIClient.init float_of_str int_of_str env = Py.Raise e
         \/ exists c,
              AIClient.init float_of_str int_of_str env = Py.Ok c
              /\ (generate_report json_dumps c env net (json_of_results r)
                  = Py.Raise e
                  \/ exists report,
                       generate_report json_dumps c env net
                         (json_of_results r) = Py.Ok report
                       /\ Json.len report = Py.Raise e)) ->
        exists text,
          generate_fallback_report float_repr str_repr today a = Py.Ok text
          /\ run = Py.Ok (Json.JStr text)).
Proof.
  intros Htotal Hrecs a run.
  destruct (fallback_report_returns today attrs r Htotal Hrecs)
    as (text & Htext).
  fold a in Htext. unfold run, generate_ai_report, Py.try_except.
  cbn [data a]. fold a.
  destruct (AIClient.init float_of_str int_of_str env) as [c|e] eqn:Hc;
    cbn [Py.bind].
  2:{ rewrite Htext. cbn [Py.bind]. split; [|split].
      - now exists (Json.JStr text), (Py.len_str text).
      - intros c report n Hc'. discriminate.
      - intros e' _. now exists text. }
  destruct (generate_report json_dumps c env net (json_of_results r))
    as [report|e] eqn:Hg; cbn [Py.bind].
  2:{ rewrite Htext. cbn [Py.bind]. split; [|split].
      - now exists (Json.JStr text), (Py.len_str text).
      - intros c' report n Hc' Hg'. injection Hc' as <-.
        rewrite Hg in Hg'. discriminate.
      - intros e' _. now exists text. }
  destruct (Json.len report) as [n|e] eqn:Hn; cbn [Py.bind].
  - split; [|split].
    + now exists report, n.
    + intros c' report' n' Hc' Hg' _. injection Hc' as <-.
      rewrite Hg in Hg'. now injection Hg' as <-.
    + intros e [He | (c' & Hc' & [He | (report' & Hg' & He)])].
      * discriminate.
      * injection Hc' as <-. rewrite Hg in He. discriminate.
      * injection Hc' as <-. rewrite Hg in Hg'. injection Hg' as <-.
        rewrite Hn in He. discriminate.
  - rewrite Htext. cbn [Py.bind]. split; [|split].
    + now exists (Json.JStr text), (Py.len_str text).
    + intros c' report' n' Hc' Hg' Hn'. injection Hc' as <-.
      rewrite Hg in Hg'. injection Hg' as <-. rewrite Hn in Hn'.
      discriminate.
    + intros e' _. now exists text.
Qed.

(** X8. Reports go out only where they are asked for, and at most once:
    a run of the stage-2 handler leaves the bucket untouched when S3 reports
    are disabled or no bucket is configured, and otherwise adds at most one
    object, under [reports/cost-report_<time>.txt] in the configured
    bucket; notifications likewise, with one message to the configured
    topic. *)
Theorem distribution_is_gated (cfg : config) (env : environ) (net : network)
    (w : world) (now : clock) :
  let out := lambda_handler float_repr str_repr float_of_str int_of_str
               json_dumps cfg env net w now in
  (ENABLE_S3 cfg = false \/ S3_BUCKET cfg = "" -> s3 (snd out) = s3 w)
  /\ (ENABLE_EMAIL cfg = false \/ SNS_TOPIC_ARN cfg = "" ->
      sns (snd out) = sns w)
  /\ (s3 (snd out) = s3 w
      \/ exists body,
           s3 (snd out)
           = ({| Bucket := S3_BUCKET cfg;
                 Key := "reports/cost-report_" ++ at_s3 now ++ ".txt";
                 Body := body; ContentType := "text/plain" |} :: s3 w)%list)
  /\ (sns (snd out) = sns w
      \/ exists message,
           sns (snd out)
           = ({| TopicArn := SNS_TOPIC_ARN cfg;
                 Subject := "AWS Cost Optimization Report - " ++ at_sns now;
                 Message := message |} :: sns w)%list).
Proof.
  unfold lambda_handler.
  destruct (get_latest_analysis (table w)) as [latest|]; [|simpl; tauto].
  destruct (generate_ai_report _ _ _ _ _ env net (at_fallback now) latest)
    as [report|e]; [|simpl; tauto].
  set (w1 := if ENABLE_S3 cfg && negb (String.eqb (S3_BUCKET cfg) "")
             then save_to_s3 cfg w (at_s3 now) report else w).
  set (w2 := if ENABLE_EMAIL cfg && negb (String.eqb (SNS_TOPIC_ARN cfg) "")
             then send_notification cfg w1 (at_sns now) report else w1).
  assert (H1 : sns w1 = sns w
               /\ (ENABLE_S3 cfg = false \/ S3_BUCKET cfg = "" -> s3 w1 = s3 w)
               /\ (s3 w1 = s3 w
                   \/ exists body,
                        s3 w1
                        = ({| Bucket := S3_BUCKET cfg;
                              Key := "reports/cost-report_" ++ at_s3 now ++ ".txt";
                              Body := body; ContentType := "text/plain" |}
                           :: s3 w)%list)).
  { unfold w1.
    destruct (ENABLE_S3 cfg); cbn [andb];
      [|split; [reflexivity|]; split; [reflexivity | now left]].
    destruct (String.eqb_spec (S3_BUCKET cfg) "") as [E|E]; cbn [negb];
      [split; [reflexivity|]; split; [reflexivity | now left]|].
    destruct (save_to_s3_frame cfg w (at_s3 now) report) as (_ & Hs & Hb).
    split; [exact Hs|]. split.
    - intros [F|F]; [discriminate | contradiction].
    - destruct Hb as [Hb | (body & _ & _ & _ & Hb)];
        [now left | right; now exists body]. }
  assert (H2 : s3 w2 = s3 w1
               /\ (ENABLE_EMAIL cfg = false \/ SNS_TOPIC_ARN cfg = "" ->
                   sns w2 = sns w1)
               /\ (sns w2 = sns w1
                   \/ exists message,
                        sns w2
                        = ({| TopicArn := SNS_TOPIC_ARN cfg;
                              Subject := "AWS Cost Optimization Report - "
                                         ++ at_sns now;
                              Message := message |} :: sns w1)%list)).
  { unfold w2.
    destruct (ENABLE_EMAIL cfg); cbn [andb];
      [|split; [reflexivity|]; split; [reflexivity | now left]].
    destruct (String.eqb_spec (SNS_TOPIC_ARN cfg) "") as [E|E]; cbn [negb];
      [split; [reflexivity|]; split; [reflexivity | now left]|].
    destruct (send_notification_frame cfg w1 (at_sns now) report)
      as (_ & Hs & Hb).
    split; [exact Hs|]. split.
    - intros [F|F]; [discriminate | contradiction].
    - destruct Hb as [Hb | (message & _ & _ & _ & Hb)];
        [now left | right; now exists message]. }
  destruct H1 as (H1n & H1g & H1s). destruct H2 as (H2s & H2g & H2n).
  assert (Hfinal : forall w3, s3 w3 = s3 w2 -> sns w3 = sns w2 ->
    (ENABLE_S3 cfg = false \/ S3_BUCKET cfg = "" -> s3 w3 = s3 w)
    /\ (ENABLE_EMAIL cfg = false \/ SNS_TOPIC_ARN cfg = "" -> sns w3 = sns w)
    /\ (s3 w3 = s3 w
        \/ exists body,
             s3 w3
             = ({| Bucket := S3_BUCKET cfg;
                   Key := "reports/cost-report_" ++ at_s3 now ++ ".txt";
                   Body := body; ContentType := "text/plain" |} :: s3 w)%list)
    /\ (sns w3 = sns w
        \/ exists message,
             sns w3
             = ({| TopicArn := SNS_TOPIC_ARN cfg;
                   Subject := "AWS Cost Optimization Report - " ++ at_sns now;
                   Message := message |} :: sns w)%list)).
  { intros w3 Hs3 Hsns. rewrite Hs3, Hsns, H2s.
    split; [exact H1g|]. split.
    - intros Hoff. rewrite (H2g Hoff). exact H1n.
    - split; [exact H1s|]. rewrite <- H1n. exact H2n. }
  destruct (Dynamo.item_get (attrs latest) "id") as [id|e];
    [|cbn [snd]; now apply Hfinal].
  destruct (update_frame w2 id (at_update now) report) as [Hu1 Hu2].
  destruct (Json.len report); cbn [snd]; now apply Hfinal.
Qed.

End Runtime.

Lemma fallback_report_renders_witness :
  exists report,
    generate_fallback_report HandlerFacts.repr_stub HandlerFacts.quote_stub
      "June 01, 2024"
      {| attrs := []; data := json_of_results PersistenceFacts.seven_gb |}
    = Py.Ok report
    /\ report <> "".
Proof.
  destruct (fallback_report_renders HandlerFacts.repr_stub
              HandlerFacts.quote_stub "June 01, 2024" []
              PersistenceFacts.seven_gb) as (report & H & Hne & _).
  - apply printable_float.
  - repeat constructor. apply printable_float.
  - exists report. split; assumption.
Defined.

Lemma report_always_generated_witness :
  generate_ai_report HandlerFacts.repr_stub HandlerFacts.quote_stub
    HandlerFacts.float_stub HandlerFacts.int_stub ClientFacts.dumps_stub
    ClientFacts.no_environ ClientFacts.helpful "June 01, 2024"
    {| attrs := []; data := json_of_results PersistenceFacts.seven_gb |}
  = Py.Ok (Json.JStr "Resize i-1.")
  /\ exists text,
       generate_fallback_report HandlerFacts.repr_stub HandlerFacts.quote_stub
         "June 01, 2024"
         {| attrs := []; data := json_of_results PersistenceFacts.seven_gb |}
       = Py.Ok text
       /\ generate_ai_report HandlerFacts.repr_stub HandlerFacts.quote_stub
            HandlerFacts.float_stub HandlerFacts.int_stub
            ClientFacts.dumps_stub HandlerFacts.bedrock ClientFacts.down
            "June 01, 2024"
            {| attrs := [];
               data := json_of_results PersistenceFacts.seven_gb |}
          = Py.Ok (Json.JStr text).
Proof.
  assert (Htotal : printable (total_potential_savings PersistenceFacts.seven_gb))
    by apply printable_float.
  assert (Hrecs : Forall (fun rec => printable (estimated_savings rec))
                    (firstn 5 (recommendations PersistenceFacts.seven_gb)))
    by (repeat constructor; apply printable_float).
  split.
  - refine (proj1 (proj2 (report_always_generated HandlerFacts.repr_stub
                            HandlerFacts.quote_stub HandlerFacts.float_stub
                            HandlerFacts.int_stub ClientFacts.dumps_stub
                            ClientFacts.no_environ ClientFacts.helpful
                            "June 01, 2024" [] PersistenceFacts.seven_gb
                            Htotal Hrecs))
              {| provider := "groq"; api_key := None;
                 model := "llama-3.1-70b-versatile";
                 temperature := Py.float_lit 7 1; max_tokens := 2000 |}
              (Json.JStr "Resize i-1.") 11 _ _ _).
    + vm_compute. reflexivity.
    + vm_compute. reflexivity.
    + reflexivity.
  - refine (proj2 (proj2 (report_always_generated HandlerFacts.repr_stub
                            HandlerFacts.quote_stub HandlerFacts.float_stub
                            HandlerFacts.int_stub ClientFacts.dumps_stub
                            HandlerFacts.bedrock ClientFacts.down
                            "June 01, 2024" [] PersistenceFacts.seven_gb
                            Htotal Hrecs))
              (Py.ValueError "Unsupported AI provider: bedrock") _).
    left. vm_compute. reflexivity.
Defined.

End Stage2Facts.

(** *** Stage 2: which record is fetched *)

Module FetchFacts.
Import CostAnalyzer Recommender.

(** String order: [a < b] by code points. *)
Lemma ltb_lts (a b : string) :
  String.ltb a b = true <-> OrderedTypeEx.String_as_OT.lt a b.
Proof.
  unfold String.ltb. rewrite <- OrderedTypeEx.String_as_OT.cmp_lt.
  unfold OrderedTypeEx.String_as_OT.cmp.
  destruct (String.compare a b); split; congruence.
Qed.

Lemma ltb_trans (a b c : string) :
  String.ltb a b = true -> String.ltb b c = true -> String.ltb a c = true.
Proof.
  rewrite !ltb_lts. apply OrderedTypeEx.String_as_OT.lt_trans.
Qed.

Lemma ltb_total (a b : string) :
  String.ltb a b = false -> a = b \/ String.ltb b a = true.
Proof.
  unfold String.ltb. rewrite (String.compare_antisym b a).
  destruct (String.compare a b) eqn:E; simpl; intros H.
  - left. now apply String.compare_eq_iff.
  - discriminate.
  - now right.
Qed.

(** Two facts of the order that the sort relies on. *)
Lemma key_lt_above (x y h : Dynamo.attr) :
  key_lt x h = Py.Ok false -> key_lt y h = Py.Ok true ->
  key_lt x y = Py.Ok false.
Proof.
  destruct x as [x|x|x|x], h as [h|h|h|h]; try discriminate;
    destruct y as [y|y|y|y]; try discriminate; simpl; intros Hx Hy;
    injection Hx as Hx; injection Hy as Hy; f_equal.
  - destruct (String.ltb x y) eqn:E; [|reflexivity].
    rewrite (ltb_trans x y h E Hy) in Hx. discriminate.
  - lia.
Qed.

Lemma key_lt_beside (x y h : Dynamo.attr) :
  key_lt x h = Py.Ok false -> key_lt h y = Py.Ok false ->
  key_lt x y = Py.Ok false.
Proof.
  destruct x as [x|x|x|x], h as [h|h|h|h]; try discriminate;
    destruct y as [y|y|y|y]; try discriminate; simpl; intros Hx Hy;
    injection Hx as Hx; injection Hy as Hy; f_equal.
  - destruct (String.ltb x y) eqn:E; [|reflexivity].
    destruct (ltb_total x h Hx) as [->|Hhx]; [congruence|].
    rewrite (ltb_trans h x y Hhx E) in Hy. discriminate.
  - lia.
Qed.

Lemma insert_desc_nonempty (x : Dynamo.attr * Dynamo.item)
    (s : list (Dynamo.attr * Dynamo.item)) :
  insert_desc x s <> Py.Ok [].
Proof.
  destruct s as [|y s]; simpl; [discriminate|].
  destruct (key_lt (fst x) (fst y)) as [[|]|e]; simpl; try discriminate.
  destruct (insert_desc x s); simpl; discriminate.
Qed.

(** The head of the sorted list, in terms of the list that was sorted: the
    first of its elements that no other exceeds. *)
Lemma sort_desc_head (l : list (Dynamo.attr * Dynamo.item))
    (h : Dynamo.attr * Dynamo.item) (rest : list (Dynamo.attr * Dynamo.item)) :
  sort_desc l = Py.Ok (h :: rest) ->
  exists l1 l2,
    l = (l1 ++ h :: l2)%list
    /\ Forall (fun y => key_lt (fst y) (fst h) = Py.Ok true) l1
    /\ Forall (fun y => key_lt (fst h) (fst y) = Py.Ok false) l2.
Proof.
  revert h rest. induction l as [|x l IH]; intros h rest H; simpl in H.
  - discriminate.
  - destruct (sort_desc l) as [s|e] eqn:Hs; simpl in H; [|discriminate].
    destruct s as [|h' s'].
    + simpl in H. injection H as <- <-.
      destruct l as [|y l].
      * exists [], []. repeat split; constructor.
      * simpl in Hs. destruct (sort_desc l) as [s0|e0]; simpl in Hs;
          [|discriminate]. now apply insert_desc_nonempty in Hs.
    + destruct (IH h' s' eq_refl) as (l1 & l2 & -> & H1 & H2).
      simpl in H.
      destruct (key_lt (fst x) (fst h')) as [[|]|e] eqn:Hx; simpl in H;
        [| |discriminate].
      * destruct (insert_desc x s') as [r|e]; simpl in H; [|discriminate].
        injection H as <- <-.
        exists (x :: l1), l2. split; [reflexivity|]. split; [|exact H2].
        constructor; assumption.
      * injection H as <- <-.
        exists [], (l1 ++ h' :: l2)%list. split; [reflexivity|].
        split; [constructor|].
        apply Forall_app. split.
        -- rewrite Forall_forall in *. intros y Hy.
           exact (key_lt_above _ _ _ Hx (H1 y Hy)).
        -- constructor; [exact Hx|].
           rewrite Forall_forall in *. intros y Hy.
           exact (key_lt_beside _ _ _ Hx (H2 y Hy)).
Qed.

Lemma keyed_inv (l : list Dynamo.item)
    (keyed : list (Dynamo.attr * Dynamo.item)) :
  Py.mapM (fun it => k <- Dynamo.item_get it "timestamp" ;; Py.Ok (k, it)) l
  = Py.Ok keyed ->
  map snd keyed = l
  /\ Forall (fun p => Dynamo.attr_of "timestamp" (snd p) = Some (fst p)) keyed.
Proof.
  revert keyed. induction l as [|it l IH]; intros keyed H; simpl in H.
  - injection H as <-. split; [reflexivity | constructor].
  - unfold Dynamo.item_get in H at 1.
    destruct (Dynamo.attr_of "timestamp" it) as [k|] eqn:Hk; simpl in H;
      [|discriminate].
    destruct (Py.mapM _ l) as [ks|e]; simpl in H; [|discriminate].
    injection H as <-. destruct (IH ks eq_refl) as [Hs Hf].
    split; [simpl; now rewrite Hs|]. constructor; [exact Hk | exact Hf].
Qed.

Lemma mapM_raises {A B : Type} (f : A -> Py.res B) (l : list A) (x : A)
    (e : Py.exn) :
  In x l -> f x = Py.Raise e -> exists e', Py.mapM f l = Py.Raise e'.
Proof.
  intros Hin Hx. induction l as [|a l IH]; [destruct Hin|].
  simpl. destruct (f a) as [b|e1] eqn:Ha; simpl; [|now exists e1].
  destruct Hin as [->|Hin]; [congruence|].
  destruct (IH Hin) as (e' & ->). simpl. now exists e'.
Qed.

(** What a successful fetch went through. *)
Lemma fetch_inv (t : Dynamo.table) (a : analysis) :
  get_latest_analysis t = Some a ->
  exists keyed h rest,
    Dynamo.outage t = None
    /\ Py.mapM (fun it => k <- Dynamo.item_get it "timestamp" ;; Py.Ok (k, it))
         (map (Dynamo.project PersistenceFacts.names)
              (firstn 10 (Dynamo.items t))) = Py.Ok keyed
    /\ sort_desc keyed = Py.Ok (h :: rest)
    /\ attrs a = snd h
    /\ Dynamo.attr_of "data" (snd h) = Some (Dynamo.AJson (data a)).
Proof.
  unfold get_latest_analysis, Dynamo.scan. fold PersistenceFacts.names.
  destruct (Dynamo.outage t); [discriminate|]. cbn [Py.bind].
  destruct (map (Dynamo.project PersistenceFacts.names)
                (firstn 10 (Dynamo.items t))) as [|p ps] eqn:Hscan;
    [discriminate|].
  rewrite <- Hscan. unfold sorted_by_timestamp.
  destruct (Py.mapM _ _) as [keyed|e] eqn:Hkeyed; cbn [Py.bind];
    [|discriminate].
  destruct (sort_desc keyed) as [sorted|e] eqn:Hsort; cbn [Py.bind];
    [|discriminate].
  destruct sorted as [|h rest]; cbn [map]; [discriminate|].
  unfold Dynamo.item_get.
  destruct (Dynamo.attr_of "data" (snd h)) as [text|] eqn:Hdata;
    cbn [Py.bind]; [|discriminate].
  destruct text as [s|z|j|j]; cbn [json_loads Py.bind]; try discriminate.
  intros H. injection H as <-. cbn [attrs data].
  exists keyed, h, rest. repeat split; assumption.
Qed.

(** The fetched record is one of the table's. *)
Lemma latest_in_table (t : Dynamo.table) (a : analysis) :
  get_latest_analysis t = Some a ->
  exists it, In it (Dynamo.items t)
             /\ attrs a = Dynamo.project PersistenceFacts.names it.
Proof.
  intros H.
  destruct (fetch_inv t a H) as (keyed & h & rest & _ & Hkeyed & Hsort & Ha & _).
  destruct (keyed_inv _ _ Hkeyed) as [Hsnd _].
  destruct (sort_desc_head _ _ _ Hsort) as (k1 & k2 & -> & _).
  assert (Hin : In (snd h)
                   (map (Dynamo.project PersistenceFacts.names)
                        (firstn 10 (Dynamo.items t)))).
  { rewrite <- Hsnd, map_app. apply in_or_app. right. now left. }
  apply in_map_iff in Hin. destruct Hin as (it & Hit & Hin).
  exists it. split; [|now rewrite Ha].
  rewrite <- (firstn_skipn 10 (Dynamo.items t)). apply in_or_app. now left.
Qed.

(** X9. Which record stage 2 works on.  When [get_latest_analysis] returns
    a record, it is one of the first ten the scan meets, cut down to the
    four projected attributes and with its [data] parsed; every record
    scanned before it has a strictly older timestamp and none scanned after
    it (within the ten) has a newer one.  Records beyond the tenth are
    never considered. *)
Theorem latest_is_newest_scanned (t : Dynamo.table) (a : analysis) :
  get_latest_analysis t = Some a ->
  exists l1 it l2 ts,
    firstn 10 (Dynamo.items t) = (l1 ++ it :: l2)%list
    /\ attrs a = Dynamo.project PersistenceFacts.names it
    /\ Dynamo.attr_of "timestamp" it = Some ts
    /\ Dynamo.attr_of "data" it = Some (Dynamo.AJson (data a))
    /\ Forall (fun y => exists k, Dynamo.attr_of "timestamp" y = Some k
                                  /\ key_lt k ts = Py.Ok true) l1
    /\ Forall (fun y => exists k, Dynamo.attr_of "timestamp" y = Some k
                                  /\ key_lt ts k = Py.Ok false) l2.
Proof.
  intros H.
  destruct (fetch_inv t a H)
    as (keyed & h & rest & _ & Hkeyed & Hsort & Ha & Hdata).
  destruct (keyed_inv _ _ Hkeyed) as [Hsnd Hts].
  destruct (sort_desc_head _ _ _ Hsort) as (k1 & k2 & -> & H1 & H2).
  rewrite map_app in Hsnd. cbn [map] in Hsnd. symmetry in Hsnd.
  apply map_eq_app in Hsnd. destruct Hsnd as (l1 & l2' & Hl & Hl1 & Hl2).
  destruct l2' as [|it l2]; [discriminate|]. cbn [map] in Hl2.
  injection Hl2 as Hit Hl2.
  apply Forall_app in Hts. destruct Hts as [Hts1 Hts2].
  inversion Hts2 as [|? ? Hh Hts2']; subst.
  assert (Hproj : forall y, Dynamo.attr_of "timestamp"
                              (Dynamo.project PersistenceFacts.names y)
                            = Dynamo.attr_of "timestamp" y).
  { intros y. now apply PersistenceFacts.attr_of_project. }
  exists l1, it, l2, (fst h). split; [exact Hl|].
  split; [now rewrite Ha, <- Hit|].
  split; [rewrite <- Hproj, Hit; exact Hh|].
  split.
  { rewrite <- (PersistenceFacts.attr_of_project "data"
                  PersistenceFacts.names it eq_refl), Hit. exact Hdata. }
  split.
  - apply Forall_forall. intros y Hy.
    assert (Hin : In (Dynamo.project PersistenceFacts.names y) (map snd k1)).
    { rewrite <- Hl1. now apply in_map. }
    apply in_map_iff in Hin. destruct Hin as (q & Hq & Hqin).
    rewrite Forall_forall in Hts1, H1.
    exists (fst q). split.
    + rewrite <- Hproj, <- Hq. now apply Hts1.
    + now apply H1.
  - apply Forall_forall. intros y Hy.
    assert (Hin : In (Dynamo.project PersistenceFacts.names y) (map snd k2)).
    { rewrite <- Hl2. now apply in_map. }
    apply in_map_iff in Hin. destruct Hin as (q & Hq & Hqin).
    rewrite Forall_forall in Hts2', H2.
    exists (fst q). split.
    + rewrite <- Hproj, <- Hq. now apply Hts2'.
    + now apply H2.
Qed.

(** A table with two runs, the newer one scanned last. *)
Definition earlier : results :=
  {| timestamp := "2024-05-31T00:00:05";
     metrics_of := AnalyzerFacts.only [] [];
     recommendations := [];
     total_potential_savings := Py.PInt 0 |}.

Definition two_runs : Dynamo.table :=
  {| Dynamo.items :=
       [PersistenceFacts.record_of "2024-05-31_00-00-06" earlier 0;
        PersistenceFacts.record_of "2024-06-01_00-00-05"
          PersistenceFacts.seven_gb 0];
     Dynamo.slot := fun _ => 0%nat;
     Dynamo.outage := None |}.

Lemma latest_is_newest_scanned_witness :
  exists a l1 it l2,
    get_latest_analysis two_runs = Some a
    /\ data a = json_of_results PersistenceFacts.seven_gb
    /\ firstn 10 (Dynamo.items two_runs) = (l1 ++ it :: l2)%list
    /\ attrs a = Dynamo.project PersistenceFacts.names it.
Proof.
  set (a := {| attrs :=
                 Dynamo.project PersistenceFacts.names
                   (PersistenceFacts.record_of "2024-06-01_00-00-05"
                      PersistenceFacts.seven_gb 0);
               data := json_of_results PersistenceFacts.seven_gb |}).
  assert (H : get_latest_analysis two_runs = Some a)
    by (vm_compute; reflexivity).
  destruct (latest_is_newest_scanned two_runs a H)
    as (l1 & it & l2 & ts & H1 & H2 & _).
  exists a, l1, it, l2. repeat split; assumption.
Defined.

(** *** The table after stage 2 *)

Lemma item_set_other (k k' : string) (v : Dynamo.attr) (it : Dynamo.item) :
  k <> k' ->
  Dynamo.attr_of k (Dynamo.item_set it k' v) = Dynamo.attr_of k it.
Proof.
  intros Hk. apply String.eqb_neq in Hk.
  induction it as [|[k0 v0] it IH]; simpl.
  - now rewrite Hk.
  - destruct (String.eqb k' k0) eqn:E; simpl.
    + apply String.eqb_eq in E. subst k0. now rewrite Hk.
    + now rewrite IH.
Qed.

Lemma item_set_same (k : string) (v : Dynamo.attr) (it : Dynamo.item) :
  Dynamo.attr_of k (Dynamo.item_set it k v) = Some v.
Proof.
  induction it as [|[k0 v0] it IH]; simpl.
  - now rewrite String.eqb_refl.
  - destruct (String.eqb k k0) eqn:E; simpl.
    + now rewrite String.eqb_refl.
    + now rewrite E.
Qed.

(** The write stage 2 makes: the two report attributes, on the record with
    the given id. *)
Definition report_sets (value : Dynamo.attr) (now : string)
  : list (string * Dynamo.attr) :=
  [("ai_report", value); ("report_generated_at", Dynamo.AText now)].

Definition with_report (value : Dynamo.attr) (now : string) (it : Dynamo.item)
  : Dynamo.item :=
  Dynamo.item_set (Dynamo.item_set it "ai_report" value)
    "report_generated_at" (Dynamo.AText now).

Lemma with_report_other (value : Dynamo.attr) (now k : string)
    (it : Dynamo.item) :
  k <> "ai_report" -> k <> "report_generated_at" ->
  Dynamo.attr_of k (with_report value now it) = Dynamo.attr_of k it.
Proof.
  intros H1 H2. unfold with_report.
  now rewrite (item_set_other _ _ _ _ H2), (item_set_other _ _ _ _ H1).
Qed.

Lemma with_report_has_id (value : Dynamo.attr) (now id : string)
    (it : Dynamo.item) :
  Dynamo.has_id id (with_report value now it) = Dynamo.has_id id it.
Proof.
  unfold Dynamo.has_id. rewrite with_report_other; [reflexivity| |];
    discriminate.
Qed.

Lemma update_item_known (t : Dynamo.table) (id now : string)
    (value : Dynamo.attr) :
  Dynamo.serialize value = Py.Ok tt ->
  Dynamo.outage t = None ->
  existsb (Dynamo.has_id id) (Dynamo.items t) = true ->
  Dynamo.update_item t id (report_sets value now)
  = Py.Ok (Dynamo.with_items t
             (map (fun it => if Dynamo.has_id id it
                             then with_report value now it else it)
                  (Dynamo.items t))).
Proof.
  intros Hs Ho He. unfold Dynamo.update_item, report_sets.
  cbn [Dynamo.serialize_all Dynamo.serialize]. rewrite Hs. cbn [Py.bind].
  rewrite Ho, He. reflexivity.
Qed.

Lemma id_in_table (t : Dynamo.table) (a : analysis) (id : string) :
  get_latest_analysis t = Some a ->
  Dynamo.item_get (attrs a) "id" = Py.Ok (Dynamo.AText id) ->
  Dynamo.outage t = None
  /\ exists it, In it (Dynamo.items t) /\ Dynamo.has_id id it = true
                /\ attrs a = Dynamo.project PersistenceFacts.names it.
Proof.
  intros H Hid.
  destruct (fetch_inv t a H) as (_ & _ & _ & Ho & _).
  split; [exact Ho|].
  destruct (latest_in_table t a H) as (it & Hin & Ha).
  exists it. split; [exact Hin|]. split; [|exact Ha].
  unfold Dynamo.item_get in Hid. rewrite Ha in Hid.
  rewrite (PersistenceFacts.attr_of_project "id" PersistenceFacts.names it
             eq_refl) in Hid.
  unfold Dynamo.has_id.
  destruct (Dynamo.attr_of "id" it) as [v|]; [|discriminate].
  injection Hid as ->. apply String.eqb_refl.
Qed.

End FetchFacts.

(** *** Stage 2: the handler and the table *)

Module ReportStageFacts.
Import CostAnalyzer AIClient Recommender.

Lemma mapM_cleanup_floats (l : list volume) (recs : list recommendation) :
  Py.mapM cleanup l = Py.Ok recs ->
  Forall AnalyzerFacts.is_float (map estimated_savings recs).
Proof.
  intros H. destruct (RuleFacts.mapM_cleanup_shape _ _ H) as [_ Hin].
  apply Forall_forall. intros x Hx. apply in_map_iff in Hx.
  destruct Hx as (rec & <- & Hrec). destruct (Hin rec Hrec) as (v & _ & Hc).
  unfold cleanup in Hc.
  destruct (Py.mul _ _) as [s|e] eqn:E; simpl in Hc; [|discriminate].
  injection Hc as <-. simpl. unfold Py.mul in E.
  destruct (Py.float_of_int (size_gb v)); simpl in E; [|discriminate].
  injection E as <-. eexists. reflexivity.
Qed.

Lemma sum_from_float_closed (l : list Py.num) (f : spec_float) (t : Py.num) :
  Forall AnalyzerFacts.is_float l ->
  Py.sum_from (Py.PFloat f) l = Py.Ok t -> AnalyzerFacts.is_float t.
Proof.
  revert f. induction l as [|x l IH]; intros f Hl H; simpl in H.
  - injection H as <-. eexists. reflexivity.
  - inversion Hl as [|? ? [g ->] Hl']; subst. simpl in H.
    exact (IH _ Hl' H).
Qed.

(** The total of an analysis can be printed with two decimals. *)
Lemma total_printable (float_repr : spec_float -> string) (now : string)
    (m : metrics) (r : results) :
  analyze_metrics float_repr now m = Py.Ok r ->
  50 * Z.of_nat (List.length (ec2_instances m)) < 2 ^ 53 ->
  Stage2Facts.printable (total_potential_savings r).
Proof.
  intros H Hn.
  destruct (AnalyzerFacts.analyze_metrics_inv _ _ _ _ H)
    as (ebs & Hebs & Hrecs & Hsum & _).
  rewrite Hrecs in Hsum. unfold Py.sum in Hsum.
  rewrite map_app, map_map in Hsum. cbn [estimated_savings rightsize] in Hsum.
  rewrite AnalyzerFacts.sum_from_fifties in Hsum.
  pose proof (filter_length_le low_cpu (ec2_instances m)) as Hle.
  pose proof (mapM_cleanup_floats _ _ Hebs) as Hfl.
  destruct (map estimated_savings ebs) as [|x l].
  - cbn [Py.sum_from] in Hsum.
    replace (total_potential_savings r)
      with (Py.PInt (0 + 50 * Z.of_nat (List.length
                                          (filter low_cpu (ec2_instances m)))))
      by congruence.
    apply Stage2Facts.printable_small. lia.
  - inversion Hfl as [|? ? [g ->] Hl']; subst.
    cbn [Py.sum_from Py.add] in Hsum.
    destruct (FloatFacts.float_of_int_small
                (0 + 50 * Z.of_nat (List.length (filter low_cpu (ec2_instances m)))))
      as (f & Hf); [lia|].
    rewrite Hf in Hsum. cbn [Py.bind] in Hsum.
    destruct (sum_from_float_closed _ _ _ Hl' Hsum) as (t & ->).
    apply Stage2Facts.printable_float.
Qed.

(** A report that is a string is always sent. *)
Lemma text_serializes (s : string) :
  Dynamo.serialize (report_attr (Json.JStr s)) = Py.Ok tt.
Proof. reflexivity. Qed.

Lemma with_report_attrs (value : Dynamo.attr) (now : string)
    (it : Dynamo.item) :
  Dynamo.attr_of "ai_report" (FetchFacts.with_report value now it) = Some value
  /\ Dynamo.attr_of "report_generated_at" (FetchFacts.with_report value now it)
     = Some (Dynamo.AText now).
Proof.
  unfold FetchFacts.with_report. split.
  - rewrite FetchFacts.item_set_other by discriminate.
    apply FetchFacts.item_set_same.
  - apply FetchFacts.item_set_same.
Qed.

(** Distribution leaves the table alone. *)
Lemma after_distribution_table (cfg : config) (w : world) (t1 t2 : string)
    (report : Json.value) :
  let w1 := if ENABLE_S3 cfg && negb (String.eqb (S3_BUCKET cfg) "")
            then save_to_s3 cfg w t1 report else w in
  let w2 := if ENABLE_EMAIL cfg && negb (String.eqb (SNS_TOPIC_ARN cfg) "")
            then send_notification cfg w1 t2 report else w1 in
  table w2 = table w.
Proof.
  intros w1 w2.
  assert (H1 : table w1 = table w).
  { unfold w1. destruct (ENABLE_S3 cfg && _); [|reflexivity].
    apply (Stage2Facts.save_to_s3_frame cfg w t1 report). }
  rewrite <- H1. unfold w2.
  destruct (ENABLE_EMAIL cfg && _); [|reflexivity].
  apply (Stage2Facts.send_notification_frame cfg w1 t2 report).
Qed.

(** The update, when the record to update was fetched from this table
    and boto3 can send the report. *)
Lemma update_known (w : world) (a : analysis) (id now : string)
    (report : Json.value) :
  get_latest_analysis (table w) = Some a ->
  Dynamo.item_get (attrs a) "id" = Py.Ok (Dynamo.AText id) ->
  Dynamo.serialize (report_attr report) = Py.Ok tt ->
  update_analysis_with_report w (Dynamo.AText id) now report
  = with_table w
      (Dynamo.with_items (table w)
         (map (fun it => if Dynamo.has_id id it
                         then FetchFacts.with_report (report_attr report) now it
                         else it)
              (Dynamo.items (table w)))).
Proof.
  intros Hlatest Hid Hvalue.
  destruct (FetchFacts.id_in_table _ _ _ Hlatest Hid)
    as (Ho & it & Hin & Hhas & _).
  assert (He : existsb (Dynamo.has_id id) (Dynamo.items (table w)) = true).
  { apply existsb_exists. exists it. split; assumption. }
  pose proof (FetchFacts.update_item_known (table w) id now
                (report_attr report) Hvalue Ho He) as Hu.
  unfold FetchFacts.report_sets in Hu.
  unfold update_analysis_with_report. now rewrite Hu.
Qed.

(** The update, when boto3 refuses the report: nothing is written. *)
Lemma update_refused (w : world) (id : Dynamo.attr) (now : string)
    (report : Json.value) (e : Py.exn) :
  Dynamo.serialize (report_attr report) = Py.Raise e ->
  update_analysis_with_report w id now report = w.
Proof.
  intros H. unfold update_analysis_with_report.
  destruct id as [id|z|j|j]; try reflexivity.
  unfold Dynamo.update_item. cbn [Dynamo.serialize_all]. now rewrite H.
Qed.

(** With the backend out of reach every report is a string. *)
Lemma report_is_text_when_down (float_repr : spec_float -> string)
    (str_repr : string -> string)
    (float_of_str : string -> Py.res spec_float)
    (int_of_str : string -> Py.res Z) (json_dumps : Json.value -> string)
    (env : environ) (net : network) (today : string) (a : analysis)
    (report : Json.value) :
  (forall req, ClientFacts.http_failure (net req)) ->
  generate_ai_report float_repr str_repr float_of_str int_of_str json_dumps
    env net today a = Py.Ok report ->
  exists s, report = Json.JStr s.
Proof.
  intros Hnet. unfold generate_ai_report, Py.try_except.
  assert (Hfb : forall r,
             (text <- generate_fallback_report float_repr str_repr today a ;;
              Py.Ok (Json.JStr text)) = Py.Ok r ->
             exists s, r = Json.JStr s).
  { intros r. destruct (generate_fallback_report _ _ today a) as [text|e];
      cbn [Py.bind]; [|discriminate].
    intros H. injection H as <-. now exists text. }
  destruct (AIClient.init float_of_str int_of_str env) as [c|e];
    cbn [Py.bind]; [|apply Hfb].
  assert (Hcall : forall r,
             generate_report json_dumps c env net (data a) = Py.Ok r ->
             exists s, r = Json.JStr s).
  { intros r. unfold generate_report.
    destruct (_build_prompt json_dumps (data a)) as [prompt|e];
      cbn [Py.bind]; [|discriminate].
    destruct (String.eqb (provider c) "groq").
    { rewrite (ClientFacts.call_groq_on_failure c net prompt Hnet).
      intros H. injection H as <-. eexists. reflexivity. }
    destruct (String.eqb (provider c) "openrouter").
    { rewrite (ClientFacts.call_openrouter_on_failure c net prompt Hnet).
      intros H. injection H as <-. eexists. reflexivity. }
    destruct (String.eqb (provider c) "ollama"); [|discriminate].
    rewrite (ClientFacts.call_ollama_on_failure c env net prompt Hnet).
    intros H. injection H as <-. eexists. reflexivity. }
  destruct (generate_report json_dumps c env net (data a)) as [r|e];
    cbn [Py.bind]; [|apply Hfb].
  destruct (Hcall r eq_refl) as (s0 & ->). cbn [Json.len Py.bind].
  intros H. injection H as <-. now exists s0.
Qed.

Section Runtime.

Variable float_repr : spec_float -> string.
Variable str_repr : string -> string.
Variable float_of_str : string -> Py.res spec_float.
Variable int_of_str : string -> Py.res Z.
Variable json_dumps : Json.value -> string.

(** X10. One record without a [timestamp] among the first ten scanned
    hides every snapshot: [get_latest_analysis] swallows the [KeyError] of
    the sort key and answers [None], so stage 2 answers 404 and touches
    nothing, whatever else the table holds. *)
Theorem record_without_timestamp_hides_all (cfg : config) (env : environ)
    (net : network) (w : world) (now : clock) (it : Dynamo.item) :
  In it (firstn 10 (Dynamo.items (table w))) ->
  Dynamo.attr_of "timestamp" it = None ->
  get_latest_analysis (table w) = None
  /\ lambda_handler float_repr str_repr float_of_str int_of_str json_dumps
       cfg env net w now
     = ({| statusCode := 404;
           body := Json.JDict
                     [("error", Json.JStr "No analysis data found")] |}, w).
Proof.
  intros Hin Hts.
  assert (Hnone : get_latest_analysis (table w) = None).
  { unfold get_latest_analysis, Dynamo.scan. fold PersistenceFacts.names.
    destruct (Dynamo.outage (table w)); [reflexivity|]. cbn [Py.bind].
    destruct (map (Dynamo.project PersistenceFacts.names)
                  (firstn 10 (Dynamo.items (table w)))) as [|p ps] eqn:Hscan;
      [reflexivity|].
    rewrite <- Hscan. unfold sorted_by_timestamp.
    destruct (FetchFacts.mapM_raises
                (fun it0 => k <- Dynamo.item_get it0 "timestamp" ;;
                            Py.Ok (k, it0))
                (map (Dynamo.project PersistenceFacts.names)
                     (firstn 10 (Dynamo.items (table w))))
                (Dynamo.project PersistenceFacts.names it)
                (Py.KeyError "timestamp")) as (e & ->).
    - now apply in_map.
    - unfold Dynamo.item_get.
      rewrite (PersistenceFacts.attr_of_project "timestamp"
                 PersistenceFacts.names it eq_refl), Hts. reflexivity.
    - reflexivity. }
  split; [exact Hnone|]. unfold lambda_handler. now rewrite Hnone.
Qed.

(** X11. Stage 2 writes nothing to the table but the report: after a run,
    whatever it answers, every attribute other than [ai_report] and
    [report_generated_at] reads on every record as it did before, and no
    record is added or removed. *)
Theorem stage2_only_adds_report (cfg : config) (env : environ)
    (net : network) (w : world) (now : clock) (k : string) :
  k <> "ai_report" -> k <> "report_generated_at" ->
  map (Dynamo.attr_of k)
      (Dynamo.items
         (table (snd (lambda_handler float_repr str_repr float_of_str
                        int_of_str json_dumps cfg env net w now))))
  = map (Dynamo.attr_of k) (Dynamo.items (table w)).
Proof.
  intros Hk1 Hk2. unfold lambda_handler.
  destruct (get_latest_analysis (table w)) as [a|] eqn:Hlatest;
    [|reflexivity].
  destruct (generate_ai_report _ _ _ _ _ env net (at_fallback now) a)
    as [report|e]; [|reflexivity].
  pose proof (after_distribution_table cfg w (at_s3 now) (at_sns now) report)
    as Ht. cbv zeta in Ht.
  set (w2 := if ENABLE_EMAIL cfg && negb (String.eqb (SNS_TOPIC_ARN cfg) "")
             then _ else _) in *.
  destruct (Dynamo.item_get (attrs a) "id") as [idv|e] eqn:Hid;
    [|cbn [snd]; now rewrite Ht].
  assert (Hupd :
    map (Dynamo.attr_of k)
        (Dynamo.items
           (table (update_analysis_with_report w2 idv (at_update now) report)))
    = map (Dynamo.attr_of k) (Dynamo.items (table w))).
  { destruct (Dynamo.serialize (report_attr report)) as [[]|e] eqn:Hv.
    2:{ rewrite (update_refused w2 idv (at_update now) report e Hv).
        now rewrite Ht. }
    destruct idv as [id|z|j|j];
      try (unfold update_analysis_with_report; now rewrite Ht).
    rewrite <- Ht in Hlatest.
    rewrite (update_known w2 a id (at_update now) report Hlatest Hid Hv).
    cbn [with_table table Dynamo.with_items Dynamo.items].
    rewrite map_map, Ht. apply map_ext. intros x.
    destruct (Dynamo.has_id id x); [|reflexivity].
    now apply FetchFacts.with_report_other. }
  destruct (Json.len report); cbn [snd]; exact Hupd.
Qed.

(** X12. What a 200 from stage 2 means.  If the fetched record has a
    string [id] and the handler answers 200, then a report was generated
    and its length is the [report_length] of the body.  When boto3 can
    send the report (always, when it is a string) the table is the old one
    with [ai_report] and [report_generated_at] set on the records with that
    id; when it cannot (a float, or an integer of more than 38 digits,
    anywhere in the report) the error is swallowed and the table is left
    as it was.  The table is taken to be as reachable for the update as it
    was for the scan. *)
Theorem report_is_attached (cfg : config) (env : environ) (net : network)
    (w : world) (now : clock) (a : analysis) (id : string) :
  get_latest_analysis (table w) = Some a ->
  Dynamo.item_get (attrs a) "id" = Py.Ok (Dynamo.AText id) ->
  let out := lambda_handler float_repr str_repr float_of_str int_of_str
               json_dumps cfg env net w now in
  statusCode (fst out) = 200 ->
  exists report n,
    generate_ai_report float_repr str_repr float_of_str int_of_str json_dumps
      env net (at_fallback now) a = Py.Ok report
    /\ Json.len report = Py.Ok n
    /\ body (fst out)
       = Json.JDict [("message", Json.JStr "AI report generated successfully");
                     ("timestamp", Json.JStr (at_return now));
                     ("report_length", Json.JInt n)]
    /\ (Dynamo.serialize (report_attr report) = Py.Ok tt ->
        Dynamo.items (table (snd out))
        = map (fun it => if Dynamo.has_id id it
                         then FetchFacts.with_report (report_attr report)
                                (at_update now) it
                         else it)
              (Dynamo.items (table w))
        /\ exists it,
             In it (Dynamo.items (table (snd out)))
             /\ Dynamo.has_id id it = true
             /\ Dynamo.attr_of "ai_report" it = Some (report_attr report)
             /\ Dynamo.attr_of "report_generated_at" it
                = Some (Dynamo.AText (at_update now)))
    /\ (forall e, Dynamo.serialize (report_attr report) = Py.Raise e ->
        table (snd out) = table w)
    /\ (forall s, report = Json.JStr s ->
        Dynamo.serialize (report_attr report) = Py.Ok tt).
Proof.
  intros Hlatest Hid out. unfold out, lambda_handler. rewrite Hlatest.
  destruct (generate_ai_report _ _ _ _ _ env net (at_fallback now) a)
    as [report|e]; [|discriminate].
  pose proof (after_distribution_table cfg w (at_s3 now) (at_sns now) report)
    as Ht. cbv zeta in Ht.
  set (w2 := if ENABLE_EMAIL cfg && negb (String.eqb (SNS_TOPIC_ARN cfg) "")
             then _ else _) in *.
  rewrite Hid.
  destruct (Json.len report) as [n|e] eqn:Hn; [|discriminate].
  intros _. exists report, n.
  split; [reflexivity|]. split; [exact Hn|]. split; [reflexivity|].
  cbn [snd]. split; [|split].
  - intros Hv.
    pose proof Hlatest as Hlatest2. rewrite <- Ht in Hlatest2.
    rewrite (update_known w2 a id (at_update now) report Hlatest2 Hid Hv).
    cbn [with_table table Dynamo.with_items Dynamo.items]. rewrite Ht.
    split; [reflexivity|].
    destruct (FetchFacts.id_in_table _ _ _ Hlatest Hid)
      as (_ & it & Hin & Hhas & _).
    exists (FetchFacts.with_report (report_attr report) (at_update now) it).
    split.
    + apply in_map_iff. exists it. rewrite Hhas.
      split; [reflexivity | exact Hin].
    + split; [now rewrite FetchFacts.with_report_has_id|].
      apply with_report_attrs.
  - intros e Hv.
    rewrite (update_refused w2 (Dynamo.AText id) (at_update now) report e Hv).
    exact Ht.
  - intros s ->. apply text_serializes.
Qed.

(** X13. The two stages compose.  When stage 1 answers 200 on a table of
    fewer than ten records, all older than this analysis, for an account
    of ordinary size, a stage-2 run on the resulting table answers 200
    whatever the environment and the network do.  It attaches its report
    to the record stage 1 has just written whenever boto3 can send that
    report, which is so in particular when the backend is out of reach
    (the report is then one of the two fallback texts); when boto3 cannot
    send it, the table stays as stage 1 left it.  The table is taken to
    stay reachable between the two stages and during the second. *)
Theorem fresh_snapshot_is_reported (account : aws)
    (now1 : CostAnalyzer.clock) (cfg : config) (env : environ)
    (net : network) (w : world) (now2 : clock) :
  let out1 := CostAnalyzer.lambda_handler float_repr account (table w) now1 in
  statusCode (fst out1) = 200 ->
  50 * Z.of_nat (List.length
                   (ec2_instances
                      (collect_aws_metrics account
                         (CostAnalyzer.at_collect now1)))) < 2 ^ 53 ->
  (List.length (Dynamo.items (table w)) < 10)%nat ->
  Forall (PersistenceFacts.older_than (CostAnalyzer.at_analyze now1))
         (Dynamo.items (table w)) ->
  let out2 := lambda_handler float_repr str_repr float_of_str int_of_str
                json_dumps cfg env net (with_table w (snd out1)) now2 in
  statusCode (fst out2) = 200
  /\ exists r total report,
       analyze_metrics float_repr (CostAnalyzer.at_analyze now1)
         (collect_aws_metrics account (CostAnalyzer.at_collect now1))
       = Py.Ok r
       /\ In (PersistenceFacts.record_of (CostAnalyzer.at_store now1) r total)
             (Dynamo.items (snd out1))
       /\ generate_ai_report float_repr str_repr float_of_str int_of_str
            json_dumps env net (at_fallback now2)
            {| attrs :=
                 Dynamo.project PersistenceFacts.names
                   (PersistenceFacts.record_of (CostAnalyzer.at_store now1)
                      r total);
               data := json_of_results r |}
          = Py.Ok report
       /\ (Dynamo.serialize (report_attr report) = Py.Ok tt ->
           exists it,
             In it (Dynamo.items (table (snd out2)))
             /\ Dynamo.attr_of "id" it
                = Some (Dynamo.AText (CostAnalyzer.at_store now1))
             /\ Dynamo.attr_of "timestamp" it
                = Some (Dynamo.AText (CostAnalyzer.at_analyze now1))
             /\ Dynamo.attr_of "data" it
                = Some (Dynamo.AJson (json_of_results r))
             /\ Dynamo.attr_of "ai_report" it = Some (report_attr report)
             /\ Dynamo.attr_of "report_generated_at" it
                = Some (Dynamo.AText (at_update now2)))
       /\ (forall e, Dynamo.serialize (report_attr report) = Py.Raise e ->
           table (snd out2) = snd out1)
       /\ ((forall req, ClientFacts.http_failure (net req)) ->
           Dynamo.serialize (report_attr report) = Py.Ok tt).
Proof.
  intros out1 H200 Hn Hlen Hold.
  assert (Hrun : exists r t',
    analyze_metrics float_repr (CostAnalyzer.at_analyze now1)
      (collect_aws_metrics account (CostAnalyzer.at_collect now1)) = Py.Ok r
    /\ store_results (table w) (CostAnalyzer.at_store now1) r = Py.Ok t'
    /\ snd out1 = t').
  { unfold out1, CostAnalyzer.lambda_handler in *.
    destruct (analyze_metrics _ _ _) as [r|e]; cbn [Py.bind] in *;
      [|discriminate].
    destruct (store_results _ _ r) as [t'|e] eqn:Hs; cbn [Py.bind] in *;
      [|discriminate].
    exists r, t'. split; [reflexivity|]. split; [exact Hs | reflexivity]. }
  destruct Hrun as (r & t' & Hr & Hstore & ->). clear H200 out1.
  destruct (AnalyzerFacts.analyze_metrics_inv _ _ _ _ Hr)
    as (_ & _ & _ & _ & Hts & _).
  destruct (PersistenceFacts.store_results_inv _ _ _ _ Hstore)
    as (total & _ & Hput).
  destruct (PersistenceFacts.put_item_split _ _ _ Hput)
    as (l1 & l2 & Hitems & Hout & Hin & Hle).
  set (record := PersistenceFacts.record_of (CostAnalyzer.at_store now1) r
                   total) in *.
  set (a := {| attrs := Dynamo.project PersistenceFacts.names record;
               data := json_of_results r |}).
  assert (Hrecord : In record (Dynamo.items t')).
  { rewrite Hitems. apply in_or_app. right. now left. }
  assert (Hfetch : get_latest_analysis t' = Some a).
  { rewrite <- Hts in Hold.
    assert (Hold12 : Forall (PersistenceFacts.older_than (timestamp r))
                            (l1 ++ l2)).
    { apply Forall_forall. intros x Hx.
      rewrite Forall_forall in Hold. apply Hold, Hin, Hx. }
    apply Forall_app in Hold12. destruct Hold12 as [Ho1 Ho2].
    apply (PersistenceFacts.fetch_newest t' l1 l2 record (timestamp r)
             (json_of_results r)); try assumption; try reflexivity.
    rewrite length_app in *. simpl. lia. }
  assert (Hid : Dynamo.item_get (attrs a) "id"
                = Py.Ok (Dynamo.AText (CostAnalyzer.at_store now1)))
    by reflexivity.
  destruct (Stage2Facts.ai_report_has_length float_repr str_repr float_of_str
              int_of_str json_dumps env net (at_fallback now2)
              (Dynamo.project PersistenceFacts.names record) r)
    as (report & n & Hreport & Hlen_report).
  { exact (total_printable _ _ _ _ Hr Hn). }
  { apply Forall_forall. intros rec Hrec.
    pose proof (Stage2Facts.savings_printable _ _ _ _ Hr) as Hall.
    rewrite Forall_forall in Hall. apply Hall.
    rewrite <- (firstn_skipn 5 (recommendations r)).
    apply in_or_app. now left. }
  fold a in Hreport.
  intros out2.
  assert (Hout2 : out2
    = ({| statusCode := 200;
          body := Json.JDict
            [("message", Json.JStr "AI report generated successfully");
             ("timestamp", Json.JStr (at_return now2));
             ("report_length", Json.JInt n)] |},
       update_analysis_with_report
         (if ENABLE_EMAIL cfg && negb (String.eqb (SNS_TOPIC_ARN cfg) "")
          then send_notification cfg
                 (if ENABLE_S3 cfg && negb (String.eqb (S3_BUCKET cfg) "")
                  then save_to_s3 cfg (with_table w t') (at_s3 now2) report
                  else with_table w t')
                 (at_sns now2) report
          else if ENABLE_S3 cfg && negb (String.eqb (S3_BUCKET cfg) "")
               then save_to_s3 cfg (with_table w t') (at_s3 now2) report
               else with_table w t')
         (Dynamo.AText (CostAnalyzer.at_store now1)) (at_update now2)
         report)).
  { unfold out2, lambda_handler. cbn [table with_table].
    rewrite Hfetch, Hreport, Hid, Hlen_report. reflexivity. }
  rewrite Hout2. clear Hout2 out2.
  pose proof (after_distribution_table cfg (with_table w t') (at_s3 now2)
                (at_sns now2) report) as Ht. cbv zeta in Ht.
  set (w2 := if ENABLE_EMAIL cfg && negb (String.eqb (SNS_TOPIC_ARN cfg) "")
             then _ else _) in *.
  cbn [table with_table] in Ht. cbn [fst snd statusCode].
  split; [reflexivity|].
  exists r, total, report.
  split; [exact Hr|]. split; [exact Hrecord|]. split; [exact Hreport|].
  split; [|split].
  - intros Hv.
    pose proof Hfetch as Hfetch2. rewrite <- Ht in Hfetch2.
    rewrite (update_known w2 a (CostAnalyzer.at_store now1) (at_update now2)
               report Hfetch2 Hid Hv).
    cbn [with_table table Dynamo.with_items Dynamo.items]. rewrite Ht.
    exists (FetchFacts.with_report (report_attr report) (at_update now2)
              record).
    split.
    + apply in_map_iff. exists record. split; [|exact Hrecord].
      unfold record at 1, Dynamo.has_id. cbn. now rewrite String.eqb_refl.
    + split; [rewrite FetchFacts.with_report_other by discriminate;
              reflexivity|].
      split.
      { rewrite FetchFacts.with_report_other by discriminate.
        cbn. now rewrite Hts. }
      split; [rewrite FetchFacts.with_report_other by discriminate;
              reflexivity|].
      apply with_report_attrs.
  - intros e Hv.
    rewrite (update_refused w2 (Dynamo.AText (CostAnalyzer.at_store now1))
               (at_update now2) report e Hv).
    exact Ht.
  - intros Hnet.
    destruct (report_is_text_when_down _ _ _ _ _ _ _ _ _ _ Hnet Hreport)
      as (s & ->).
    apply text_serializes.
Qed.

End Runtime.

(** A table where a record without [timestamp] is scanned before the 7 GB
    snapshot; and a world with an empty table. *)
Definition half_written : world :=
  {| table :=
       {| Dynamo.items :=
            [[("id", Dynamo.AText "2024-06-02_00-00-00")];
             PersistenceFacts.record_of "2024-06-01_00-00-05"
               PersistenceFacts.seven_gb 0];
          Dynamo.slot := fun _ => 0%nat;
          Dynamo.outage := None |};
     s3 := []; s3_outage := None; sns := []; sns_outage := None |}.

Definition blank : world :=
  {| table := PersistenceFacts.empty_table;
     s3 := []; s3_outage := None; sns := []; sns_outage := None |}.

Lemma record_without_timestamp_hides_all_witness :
  get_latest_analysis (table half_written) = None.
Proof.
  refine (proj1 (record_without_timestamp_hides_all HandlerFacts.repr_stub
                   HandlerFacts.quote_stub HandlerFacts.float_stub
                   HandlerFacts.int_stub ClientFacts.dumps_stub
                   (configure HandlerFacts.bedrock) HandlerFacts.bedrock
                   ClientFacts.down half_written HandlerFacts.june
                   [("id", Dynamo.AText "2024-06-02_00-00-00")] _ _)).
  - simpl. now left.
  - reflexivity.
Defined.

Lemma stage2_only_adds_report_witness :
  map (Dynamo.attr_of "data")
      (Dynamo.items
         (table (snd (lambda_handler HandlerFacts.repr_stub
                        HandlerFacts.quote_stub HandlerFacts.float_stub
                        HandlerFacts.int_stub ClientFacts.dumps_stub
                        (configure HandlerFacts.bedrock) HandlerFacts.bedrock
                        ClientFacts.down HandlerFacts.stored
                        HandlerFacts.june))))
  = map (Dynamo.attr_of "data") (Dynamo.items (table HandlerFacts.stored)).
Proof.
  apply (stage2_only_adds_report HandlerFacts.repr_stub
           HandlerFacts.quote_stub HandlerFacts.float_stub
           HandlerFacts.int_stub ClientFacts.dumps_stub
           (configure HandlerFacts.bedrock) HandlerFacts.bedrock
           ClientFacts.down HandlerFacts.stored HandlerFacts.june "data");
    discriminate.
Defined.

(** A backend whose generated content is the list [[0.5]]. *)
Definition fractional : network :=
  fun _ =>
    Response 200
      (Some (Json.JDict
               [("choices",
                 Json.JList
                   [Json.JDict
                      [("message",
                        Json.JDict
                          [("content",
                            Json.JList
                              [Json.JNum (Py.PFloat (Py.float_lit 5 1))])])]])])).

(** With that backend the handler answers 200 and writes nothing. *)
Example float_in_report_is_not_stored :
  let out := lambda_handler HandlerFacts.repr_stub HandlerFacts.quote_stub
               HandlerFacts.float_stub HandlerFacts.int_stub
               ClientFacts.dumps_stub (configure ClientFacts.no_environ)
               ClientFacts.no_environ fractional HandlerFacts.stored
               HandlerFacts.june in
  statusCode (fst out) = 200 /\ snd out = HandlerFacts.stored.
Proof. vm_compute. split; reflexivity. Qed.

Lemma report_is_attached_witness :
  (exists it,
     In it (Dynamo.items
              (table (snd (lambda_handler HandlerFacts.repr_stub
                             HandlerFacts.quote_stub HandlerFacts.float_stub
                             HandlerFacts.int_stub ClientFacts.dumps_stub
                             (configure HandlerFacts.bedrock)
                             HandlerFacts.bedrock ClientFacts.down
                             HandlerFacts.stored HandlerFacts.june))))
     /\ Dynamo.attr_of "report_generated_at" it
        = Some (Dynamo.AText "2024-06-01T00:10:01"))
  /\ table (snd (lambda_handler HandlerFacts.repr_stub
                   HandlerFacts.quote_stub HandlerFacts.float_stub
                   HandlerFacts.int_stub ClientFacts.dumps_stub
                   (configure ClientFacts.no_environ) ClientFacts.no_environ
                   fractional HandlerFacts.stored HandlerFacts.june))
     = table HandlerFacts.stored.
Proof.
  set (a := {| attrs :=
                 Dynamo.project PersistenceFacts.names
                   (PersistenceFacts.record_of "2024-06-01_00-00-05"
                      PersistenceFacts.seven_gb 0);
               data := json_of_results PersistenceFacts.seven_gb |}).
  assert (H1 : get_latest_analysis (table HandlerFacts.stored) = Some a)
    by (vm_compute; reflexivity).
  assert (H2 : Dynamo.item_get (attrs a) "id"
               = Py.Ok (Dynamo.AText "2024-06-01_00-00-05")) by reflexivity.
  split.
  - assert (H3 : statusCode
                   (fst (lambda_handler HandlerFacts.repr_stub
                           HandlerFacts.quote_stub HandlerFacts.float_stub
                           HandlerFacts.int_stub ClientFacts.dumps_stub
                           (configure HandlerFacts.bedrock)
                           HandlerFacts.bedrock ClientFacts.down
                           HandlerFacts.stored HandlerFacts.june)) = 200)
      by (vm_compute; reflexivity).
    destruct (report_is_attached HandlerFacts.repr_stub
                HandlerFacts.quote_stub HandlerFacts.float_stub
                HandlerFacts.int_stub ClientFacts.dumps_stub
                (configure HandlerFacts.bedrock) HandlerFacts.bedrock
                ClientFacts.down HandlerFacts.stored HandlerFacts.june a
                "2024-06-01_00-00-05" H1 H2 H3)
      as (report & n & Hreport & _ & _ & Hsent & _ & Htext).
    assert (Hdown : forall req,
               ClientFacts.http_failure (ClientFacts.down req))
      by (intros req; exact I).
    destruct (report_is_text_when_down _ _ _ _ _ _ _ _ _ _ Hdown Hreport)
      as (s & Hs).
    destruct (Hsent (Htext s Hs)) as (_ & it & Hin & _ & _ & Hgen).
    exists it. split; assumption.
  - assert (H3 : statusCode
                   (fst (lambda_handler HandlerFacts.repr_stub
                           HandlerFacts.quote_stub HandlerFacts.float_stub
                           HandlerFacts.int_stub ClientFacts.dumps_stub
                           (configure ClientFacts.no_environ)
                           ClientFacts.no_environ fractional
                           HandlerFacts.stored HandlerFacts.june)) = 200)
      by (vm_compute; reflexivity).
    destruct (report_is_attached HandlerFacts.repr_stub
                HandlerFacts.quote_stub HandlerFacts.float_stub
                HandlerFacts.int_stub ClientFacts.dumps_stub
                (configure ClientFacts.no_environ) ClientFacts.no_environ
                fractional HandlerFacts.stored HandlerFacts.june a
                "2024-06-01_00-00-05" H1 H2 H3)
      as (report & n & Hreport & _ & _ & _ & Hrefused & _).
    vm_compute in Hreport. injection Hreport as <-.
    apply (Hrefused
             (Py.TypeError
                "Float types are not supported. Use Decimal types instead.")).
    reflexivity.
Defined.

Lemma fresh_snapshot_is_reported_witness :
  statusCode
    (fst (lambda_handler HandlerFacts.repr_stub HandlerFacts.quote_stub
            HandlerFacts.float_stub HandlerFacts.int_stub
            ClientFacts.dumps_stub (configure HandlerFacts.bedrock)
            HandlerFacts.bedrock ClientFacts.down
            (with_table blank
               (snd (CostAnalyzer.lambda_handler HandlerFacts.repr_stub
                       Stage1Facts.unreachable (table blank)
                       Stage1Facts.morning)))
            HandlerFacts.june)) = 200
  /\ exists it,
       In it
         (Dynamo.items
            (table
               (snd (lambda_handler HandlerFacts.repr_stub
                       HandlerFacts.quote_stub HandlerFacts.float_stub
                       HandlerFacts.int_stub ClientFacts.dumps_stub
                       (configure HandlerFacts.bedrock) HandlerFacts.bedrock
                       ClientFacts.down
                       (with_table blank
                          (snd (CostAnalyzer.lambda_handler
                                  HandlerFacts.repr_stub
                                  Stage1Facts.unreachable (table blank)
                                  Stage1Facts.morning)))
                       HandlerFacts.june))))
       /\ Dynamo.attr_of "id" it = Some (Dynamo.AText "2024-06-01_00-00-06")
       /\ Dynamo.attr_of "report_generated_at" it
          = Some (Dynamo.AText "2024-06-01T00:10:01").
Proof.
  assert (H1 : statusCode
                 (fst (CostAnalyzer.lambda_handler HandlerFacts.repr_stub
                         Stage1Facts.unreachable (table blank)
                         Stage1Facts.morning)) = 200) by reflexivity.
  assert (H2 : 50 * Z.of_nat
                      (List.length
                         (ec2_instances
                            (collect_aws_metrics Stage1Facts.unreachable
                               (CostAnalyzer.at_collect Stage1Facts.morning))))
               < 2 ^ 53) by (vm_compute; reflexivity).
  assert (H3 : (List.length (Dynamo.items (table blank)) < 10)%nat)
    by (simpl; lia).
  assert (H4 : Forall (PersistenceFacts.older_than
                         (CostAnalyzer.at_analyze Stage1Facts.morning))
                      (Dynamo.items (table blank))) by constructor.
  destruct (fresh_snapshot_is_reported HandlerFacts.repr_stub
              HandlerFacts.quote_stub HandlerFacts.float_stub
              HandlerFacts.int_stub ClientFacts.dumps_stub
              Stage1Facts.unreachable Stage1Facts.morning
              (configure HandlerFacts.bedrock) HandlerFacts.bedrock
              ClientFacts.down blank HandlerFacts.june H1 H2 H3 H4)
    as (H200 & r & total & report & _ & _ & _ & Hsent & _ & Hdown).
  split; [exact H200|].
  destruct (Hsent (Hdown (fun req => I)))
    as (it & Hin & Hid & _ & _ & _ & Hgen).
  exists it. repeat split; assumption.
Defined.

End ReportStageFacts.

(** *** Stage 2: the client and its backends *)

Module BackendFacts.
Import CostAnalyzer AIClient.

Lemma supported_dec (p : string) :
  {ClientFacts.supported p} + {~ ClientFacts.supported p}.
Proof.
  unfold ClientFacts.supported.
  destruct (string_dec p "groq") as [E|N1]; [left; now left|].
  destruct (string_dec p "openrouter") as [E|N2]; [left; right; now left|].
  destruct (string_dec p "ollama") as [E|N3]; [left; right; now right|].
  right. intros [H|[H|H]]; contradiction.
Qed.

Lemma get_api_key_cases (env : environ) (p : string) :
  (ClientFacts.supported p
   /\ _get_api_key env p
      = Py.Ok (if String.eqb p "groq" then env "GROQ_API_KEY"
               else if String.eqb p "openrouter" then env "OPENROUTER_API_KEY"
               else None))
  \/ (~ ClientFacts.supported p
      /\ _get_api_key env p
         = Py.Raise (Py.ValueError ("Unsupported AI provider: " ++ p))).
Proof.
  unfold _get_api_key, ClientFacts.supported.
  destruct (String.eqb_spec p "groq") as [E|N1]; [left; split; auto|].
  destruct (String.eqb_spec p "openrouter") as [E|N2]; [left; split; auto|].
  destruct (String.eqb_spec p "ollama") as [E|N3]; [left; split; auto|].
  right. split; [|reflexivity]. intros [H|[H|H]]; contradiction.
Qed.

Section Runtime.

Variable float_of_str : string -> Py.res spec_float.
Variable int_of_str : string -> Py.res Z.
Variable json_dumps : Json.value -> string.

(** X14. When a client can be constructed.  [AIClient()] succeeds exactly
    when the lower-cased provider name is one of the three backends and
    both [AI_TEMPERATURE] and [AI_MAX_TOKENS] parse; the client then has
    that provider, the configured model or the provider's default, and the
    key the environment holds for the provider, which may be missing: no
    key is ever required. *)
Theorem client_construction (env : environ) :
  let p := Py.lower (environ_get env "AI_PROVIDER" "groq") in
  ((exists c, init float_of_str int_of_str env = Py.Ok c)
   <-> (ClientFacts.supported p
        /\ (exists t, float_of_str (environ_get env "AI_TEMPERATURE" "0.7")
                      = Py.Ok t)
        /\ (exists n, int_of_str (environ_get env "AI_MAX_TOKENS" "2000")
                      = Py.Ok n)))
  /\ (forall c, init float_of_str int_of_str env = Py.Ok c ->
        provider c = p
        /\ ClientFacts.supported (provider c)
        /\ model c = environ_get env "AI_MODEL" (_get_default_model p)
        /\ api_key c
           = (if String.eqb p "groq" then env "GROQ_API_KEY"
              else if String.eqb p "openrouter" then env "OPENROUTER_API_KEY"
              else None)
        /\ float_of_str (environ_get env "AI_TEMPERATURE" "0.7")
           = Py.Ok (temperature c)
        /\ int_of_str (environ_get env "AI_MAX_TOKENS" "2000")
           = Py.Ok (max_tokens c)).
Proof.
  intros p. unfold init. fold p.
  destruct (get_api_key_cases env p) as [[Hsup ->] | [Hnot ->]];
    cbn [Py.bind].
  - destruct (float_of_str (environ_get env "AI_TEMPERATURE" "0.7"))
      as [t|e] eqn:Ht; cbn [Py.bind].
    + destruct (int_of_str (environ_get env "AI_MAX_TOKENS" "2000"))
        as [n|e] eqn:Hn; cbn [Py.bind].
      * split.
        -- split; [intros _|intros _; eexists; reflexivity].
           split; [exact Hsup|]. split; eexists; reflexivity.
        -- intros c Hc. injection Hc as <-. cbn.
           repeat split; try reflexivity; exact Hsup.
      * split; [|discriminate]. split.
        -- intros (c & Hc). discriminate.
        -- intros (_ & _ & n & Hn'). discriminate.
    + split; [|discriminate]. split.
      * intros (c & Hc). discriminate.
      * intros (_ & (t & Ht') & _). discriminate.
  - split; [|discriminate]. split.
    + intros (c & Hc). discriminate.
    + intros (Hsup & _). contradiction.
Qed.

Lemma subscript_not_request (v : Json.value) (k : Json.key) (msg : string) :
  Json.subscript v k <> Py.Raise (Py.RequestException msg).
Proof.
  assert (Hidx : forall what l z,
             Json.index_in what l z <> Py.Raise (Py.RequestException msg)).
  { intros what l z. unfold Json.index_in.
    destruct (_ && _); [|discriminate].
    destruct (nth_error l _); discriminate. }
  destruct v as [ |b|n|s|l|kv], k as [s'|z]; simpl; try discriminate;
    try apply Hidx.
  destruct (Json.lookup s' kv); discriminate.
Qed.

Lemma generated_text_not_request (p : string) (j : Json.value)
    (msg : string) :
  ClientFacts.generated_text p j <> Py.Raise (Py.RequestException msg).
Proof.
  unfold ClientFacts.generated_text, chat_content.
  destruct (String.eqb p "ollama"); [apply subscript_not_request|].
  destruct (Json.subscript j _) as [a|e] eqn:Ha; cbn [Py.bind];
    [|rewrite <- Ha; apply subscript_not_request].
  destruct (Json.subscript a _) as [b|e] eqn:Hb; cbn [Py.bind];
    [|rewrite <- Hb; apply subscript_not_request].
  destruct (Json.subscript b _) as [c|e] eqn:Hc; cbn [Py.bind];
    [|rewrite <- Hc; apply subscript_not_request].
  apply subscript_not_request.
Qed.

Lemma except_request_other {A : Type} (c h : Py.res A) :
  (forall msg, c <> Py.Raise (Py.RequestException msg)) ->
  except_request c h = c.
Proof.
  intros H. destruct c as [a|e]; [reflexivity|].
  destruct e; try reflexivity. now destruct (H msg).
Qed.

(** What a call makes of an answer that [raise_for_status] lets pass. *)
Lemma call_on_response (status_code : Z) (body : option Json.value)
    (p : string) (extract : Json.value -> Py.res Json.value)
    (k : Py.res Json.value) :
  ~ (400 <= status_code < 600) ->
  (forall j msg, extract j <> Py.Raise (Py.RequestException msg)) ->
  except_request
    (response <- Py.Ok (Response status_code body) ;;
     _ <- raise_for_status response ;;
     result <- response_json response ;;
     extract result) k
  = match body with
    | Some j => extract j
    | None => k
    end.
Proof.
  intros Hst Hex. cbn [Py.bind raise_for_status].
  assert (E : (400 <=? status_code) && (status_code <? 600) = false).
  { apply andb_false_iff.
    destruct (Z.leb_spec 400 status_code); [right | now left].
    apply Z.ltb_ge. lia. }
  rewrite E. cbn [Py.bind response_json].
  destruct body as [j|]; cbn [Py.bind]; [|reflexivity].
  apply except_request_other. intros msg. apply Hex.
Qed.

(** X15. An answer that is not a 4xx or 5xx is passed on as it stands.
    With a JSON body, [generate_report] returns whatever sits where the
    backend's API puts the text (not necessarily a string) and lets the
    [KeyError], [IndexError] or [TypeError] of a body of another shape
    reach its caller; with a body that is not JSON it returns the fixed
    fallback text. *)
Theorem answer_is_passed_on (c : client) (env : environ) (net : network)
    (metrics_data : Json.value) (prompt : string) (status_code : Z)
    (body : option Json.value) :
  ClientFacts.supported (provider c) ->
  _build_prompt json_dumps metrics_data = Py.Ok prompt ->
  (forall req, net req = Response status_code body) ->
  ~ (400 <= status_code < 600) ->
  generate_report json_dumps c env net metrics_data
  = match body with
    | Some j => ClientFacts.generated_text (provider c) j
    | None => Py.Ok (Json.JStr (_fallback_report prompt))
    end.
Proof.
  intros Hsup Hprompt Hnet Hst.
  unfold generate_report. rewrite Hprompt. cbn [Py.bind].
  destruct Hsup as [E | [E | E]]; rewrite E; simpl;
    [unfold _call_groq | unfold _call_openrouter | unfold _call_ollama];
    unfold post; rewrite Hnet.
  - apply (call_on_response status_code body "groq" chat_content); [exact Hst|].
    intros j msg. apply (generated_text_not_request "groq").
  - apply (call_on_response status_code body "openrouter" chat_content);
      [exact Hst|].
    intros j msg. apply (generated_text_not_request "openrouter").
  - apply (call_on_response status_code body "ollama"
             (fun j => Json.subscript j (Json.KStr "response"))); [exact Hst|].
    intros j msg. apply subscript_not_request.
Qed.

(** X16. What a call does not depend on.  The hosted backends never read
    the environment; the self-hosted one reads [OLLAMA_HOST] only, and
    sends neither the API key nor the temperature nor the token limit: two
    Ollama clients with the same model get the same report. *)
Theorem calls_ignore_what_they_do_not_send (c : client) (env : environ)
    (net : network) (metrics_data : Json.value) :
  (provider c <> "ollama" ->
   forall env',
     generate_report json_dumps c env net metrics_data
     = generate_report json_dumps c env' net metrics_data)
  /\ (provider c = "ollama" ->
      (forall env',
         environ_get env' "OLLAMA_HOST" "http://localhost:11434"
         = environ_get env "OLLAMA_HOST" "http://localhost:11434" ->
         generate_report json_dumps c env net metrics_data
         = generate_report json_dumps c env' net metrics_data)
      /\ (forall c',
            provider c' = "ollama" -> model c' = model c ->
            generate_report json_dumps c env net metrics_data
            = generate_report json_dumps c' env net metrics_data)).
Proof.
  split.
  - intros Hp env'. unfold generate_report.
    destruct (_build_prompt json_dumps metrics_data) as [prompt|e];
      cbn [Py.bind]; [|reflexivity].
    destruct (String.eqb (provider c) "groq"); [reflexivity|].
    destruct (String.eqb (provider c) "openrouter"); [reflexivity|].
    destruct (String.eqb_spec (provider c) "ollama"); [contradiction|].
    reflexivity.
  - intros Hp. split.
    + intros env' Henv. unfold generate_report.
      destruct (_build_prompt json_dumps metrics_data) as [prompt|e];
        cbn [Py.bind]; [|reflexivity].
      rewrite Hp. simpl. unfold _call_ollama. now rewrite Henv.
    + intros c' Hp' Hm. unfold generate_report.
      destruct (_build_prompt json_dumps metrics_data) as [prompt|e];
        cbn [Py.bind]; [|reflexivity].
      rewrite Hp, Hp'. simpl. unfold _call_ollama. now rewrite Hm.
Qed.

End Runtime.

(** A self-hosted backend that answers with a text, and one whose 200 is
    an HTML page. *)
Definition local_model : network :=
  fun _ => Response 200 (Some (Json.JDict [("response", Json.JStr "Looks fine.")])).

Definition login_page : network := fun _ => Response 200 None.

Definition ollama : client :=
  {| provider := "ollama"; api_key := None; model := "llama3.1";
     temperature := Py.float_lit 7 1; max_tokens := 2000 |}.

Lemma answer_is_passed_on_witness :
  generate_report ClientFacts.dumps_stub ollama ClientFacts.no_environ
    local_model (json_of_results PersistenceFacts.seven_gb)
  = Py.Ok (Json.JStr "Looks fine.")
  /\ exists prompt,
       generate_report ClientFacts.dumps_stub ClientFacts.groq
         ClientFacts.no_environ login_page
         (json_of_results PersistenceFacts.seven_gb)
       = Py.Ok (Json.JStr (_fallback_report prompt)).
Proof.
  destruct (ClientFacts.build_prompt_of_results ClientFacts.dumps_stub
              PersistenceFacts.seven_gb "0.70") as (prompt & Hprompt);
    [vm_compute; reflexivity|].
  split.
  - rewrite (answer_is_passed_on ClientFacts.dumps_stub ollama
               ClientFacts.no_environ local_model
               (json_of_results PersistenceFacts.seven_gb) prompt 200
               (Some (Json.JDict [("response", Json.JStr "Looks fine.")]))).
    + reflexivity.
    + right. now right.
    + exact Hprompt.
    + intros req. reflexivity.
    + lia.
  - exists prompt.
    apply (answer_is_passed_on ClientFacts.dumps_stub ClientFacts.groq
             ClientFacts.no_environ login_page
             (json_of_results PersistenceFacts.seven_gb) prompt 200 None).
    + now left.
    + exact Hprompt.
    + intros req. reflexivity.
    + lia.
Defined.

Lemma calls_ignore_what_they_do_not_send_witness :
  generate_report ClientFacts.dumps_stub ollama ClientFacts.no_environ
    local_model (json_of_results PersistenceFacts.seven_gb)
  = generate_report ClientFacts.dumps_stub
      {| provider := "ollama"; api_key := Some "gsk-test";
         model := "llama3.1"; temperature := Py.float_lit 2 1;
         max_tokens := 10 |}
      ClientFacts.no_environ local_model
      (json_of_results PersistenceFacts.seven_gb).
Proof.
  apply (proj2 (proj2 (calls_ignore_what_they_do_not_send
                         ClientFacts.dumps_stub ollama ClientFacts.no_environ
                         local_model
                         (json_of_results PersistenceFacts.seven_gb))
                 eq_refl));
    reflexivity.
Defined.

End BackendFacts.

(** *** Stage 2: the prompt templates *)

Module TemplateFacts.
Import CostAnalyzer PromptTemplates.

Lemma filterM_pure {A B : Type} (f : B -> Py.res bool) (g : A -> bool)
    (j : A -> B) (l : list A) :
  (forall a, f (j a) = Py.Ok (g a)) ->
  filterM f (map j l) = Py.Ok (map j (filter g l)).
Proof.
  intros H. induction l as [|a l IH]; [reflexivity|].
  simpl. rewrite H, IH. cbn [Py.bind]. now destruct (g a).
Qed.

Lemma is_low_cpu_agrees (i : instance) :
  is_low_cpu (json_of_instance i) = Py.Ok (low_cpu i).
Proof. reflexivity. Qed.

Lemma is_unattached_agrees (v : volume) :
  is_unattached (json_of_volume v) = Py.Ok (negb (is_attached v)).
Proof. reflexivity. Qed.

(** X17. The template counts what the analyzer flags.  On the snapshot of
    an analysis, the two list comprehensions of [get_cost_analysis_prompt]
    raise nothing and select exactly the instances and the volumes that
    [analyze_metrics] made recommendations for, so the two counts the
    prompt prints add up to the number of recommendations. *)
Theorem template_counts_match_analysis (float_repr : spec_float -> string)
    (now : string) (m : metrics) (r : results) :
  analyze_metrics float_repr now m = Py.Ok r ->
  exists low loose,
    filterM is_low_cpu (map json_of_instance (ec2_instances (metrics_of r)))
    = Py.Ok low
    /\ filterM is_unattached (map json_of_volume (ebs_volumes (metrics_of r)))
       = Py.Ok loose
    /\ low = map json_of_instance (filter low_cpu (ec2_instances m))
    /\ loose = map json_of_volume
                 (filter (fun v => negb (is_attached v)) (ebs_volumes m))
    /\ (List.length low + List.length loose
        = List.length (recommendations r))%nat.
Proof.
  intros H.
  destruct (AnalyzerFacts.analyze_metrics_inv _ _ _ _ H)
    as (ebs & Hebs & Hrecs & _ & _ & Hm).
  destruct (RuleFacts.mapM_cleanup_shape _ _ Hebs) as [Hids _].
  rewrite Hm. do 2 eexists.
  split; [apply (filterM_pure is_low_cpu low_cpu), is_low_cpu_agrees|].
  split; [apply (filterM_pure is_unattached (fun v => negb (is_attached v))),
          is_unattached_agrees|].
  split; [reflexivity|]. split; [reflexivity|].
  rewrite Hrecs, length_app, !length_map. f_equal.
  rewrite <- (length_map volume_id), <- Hids. now rewrite length_map.
Qed.

Lemma template_counts_match_analysis_witness :
  exists low loose,
    filterM is_low_cpu
      (map json_of_instance
         (ec2_instances (metrics_of PersistenceFacts.seven_gb))) = Py.Ok low
    /\ filterM is_unattached
         (map json_of_volume
            (ebs_volumes (metrics_of PersistenceFacts.seven_gb)))
       = Py.Ok loose
    /\ (List.length low + List.length loose = 1)%nat.
Proof.
  destruct (template_counts_match_analysis (fun _ => "")
              "2024-06-01T00:00:05"
              (AnalyzerFacts.only [] [AnalyzerFacts.loose_volume "vol-7" 7])
              PersistenceFacts.seven_gb PersistenceFacts.seven_gb_analyzed)
    as (low & loose & H1 & H2 & _ & _ & Hn).
  exists low, loose. repeat split; assumption.
Defined.

Lemma mapM_enumerate_nth {A B : Type} (f : Z -> A -> Py.res B) (l : list A)
    (start : Z) (bs : list B) :
  mapM_enumerate f start l = Py.Ok bs ->
  List.length bs = List.length l
  /\ forall n a, nth_error l n = Some a ->
       exists b, nth_error bs n = Some b /\ f (start + Z.of_nat n) a = Py.Ok b.
Proof.
  revert start bs. induction l as [|x l IH]; intros start bs H; simpl in H.
  - injection H as <-. split; [reflexivity|]. intros [|n] a Hn; discriminate.
  - destruct (f start x) as [b|e] eqn:Hb; simpl in H; [|discriminate].
    destruct (mapM_enumerate f (start + 1) l) as [bs'|e] eqn:Hbs;
      simpl in H; [|discriminate].
    injection H as <-. destruct (IH _ _ Hbs) as [Hlen Hnth].
    split; [simpl; now rewrite Hlen|].
    intros [|n] a Hn; simpl in Hn.
    + injection Hn as <-. exists b. split; [reflexivity|].
      now rewrite Z.add_0_r.
    + destruct (Hnth n a Hn) as (b' & Hb' & Hf). exists b'.
      split; [exact Hb'|]. rewrite <- Hf. f_equal. lia.
Qed.

Section Printing.

Variable float_repr : spec_float -> string.
Variable str_repr : string -> string.

Lemma format_recommendation_returns (idx : Z) (rec : recommendation) :
  Stage2Facts.printable (estimated_savings rec) ->
  exists block,
    format_recommendation float_repr str_repr idx (json_of_recommendation rec)
    = Py.Ok block.
Proof.
  intros (text & Htext). unfold format_recommendation, json_of_recommendation.
  destruct (detail rec) as [ct cu|sz];
    cbn [json_of_details app Json.get Json.lookup String.eqb Ascii.eqb
         Bool.eqb Py.bind Json.format_2f];
    rewrite Htext; cbn [Py.bind]; eexists; reflexivity.
Qed.

Lemma format_recommendations_returns (recs : list recommendation) :
  Forall (fun rec => Stage2Facts.printable (estimated_savings rec)) recs ->
  exists text,
    _format_recommendations float_repr str_repr
      (Json.JList (map json_of_recommendation recs)) = Py.Ok text.
Proof.
  intros Hrecs. unfold _format_recommendations.
  destruct recs as [|rec recs]; [eexists; reflexivity|].
  cbn [map Json.truthy negb Json.iterate Py.bind].
  destruct (Stage2Facts.mapM_enumerate_returns
              (format_recommendation float_repr str_repr)
              (map json_of_recommendation (rec :: recs)) 1)
    as (blocks & Hblocks & _).
  { apply Forall_forall. intros j Hj idx. apply in_map_iff in Hj.
    destruct Hj as (x & <- & Hx). apply format_recommendation_returns.
    rewrite Forall_forall in Hrecs. now apply Hrecs. }
  cbn [map] in Hblocks. rewrite Hblocks. eexists. reflexivity.
Qed.

(** X18. Every recommendation is formatted.  For recommendations whose
    savings print, [_format_recommendations] returns the fixed sentence
    when there is none and otherwise the blocks joined by a newline, one
    block per recommendation in order, numbered from 1; unlike the fallback
    report it drops none. *)
Theorem every_recommendation_is_formatted (recs : list recommendation) :
  Forall (fun rec => Stage2Facts.printable (estimated_savings rec)) recs ->
  exists blocks,
    _format_recommendations float_repr str_repr
      (Json.JList (map json_of_recommendation recs))
    = Py.Ok (match recs with
             | [] => "No specific recommendations at this time."
             | _ => Py.join "
" blocks
             end)
    /\ List.length blocks = List.length recs
    /\ forall n rec, nth_error recs n = Some rec ->
         exists block,
           nth_error blocks n = Some block
           /\ format_recommendation float_repr str_repr (1 + Z.of_nat n)
                (json_of_recommendation rec) = Py.Ok block.
Proof.
  intros Hrecs.
  destruct (Stage2Facts.mapM_enumerate_returns
              (format_recommendation float_repr str_repr)
              (map json_of_recommendation recs) 1) as (blocks & Hblocks & _).
  { apply Forall_forall. intros j Hj idx. apply in_map_iff in Hj.
    destruct Hj as (x & <- & Hx). apply format_recommendation_returns.
    rewrite Forall_forall in Hrecs. now apply Hrecs. }
  destruct (mapM_enumerate_nth _ _ _ _ Hblocks) as [Hlen Hnth].
  rewrite length_map in Hlen.
  exists blocks. split; [|split; [exact Hlen|]].
  - unfold _format_recommendations. destruct recs as [|rec recs];
      [reflexivity|].
    cbn [map Json.truthy negb Json.iterate Py.bind].
    cbn [map] in Hblocks. rewrite Hblocks. reflexivity.
  - intros n rec Hn. apply (Hnth n (json_of_recommendation rec)).
    now apply map_nth_error.
Qed.

(** X19. Both templates render every analysis.  On the snapshot of an
    analysis of an account of ordinary size, [get_cost_analysis_prompt] and
    [get_summary_prompt] raise nothing. *)
Theorem templates_render_every_analysis (now : string) (m : metrics)
    (r : results) :
  analyze_metrics float_repr now m = Py.Ok r ->
  50 * Z.of_nat (List.length (ec2_instances m)) < 2 ^ 53 ->
  (exists prompt,
     get_cost_analysis_prompt float_repr str_repr (json_of_results r)
     = Py.Ok prompt /\ prompt <> "")
  /\ (exists prompt,
        get_summary_prompt (json_of_results r) = Py.Ok prompt
        /\ prompt <> "").
Proof.
  intros H Hn.
  destruct (ReportStageFacts.total_printable _ _ _ _ H Hn) as (total & Htotal).
  pose proof (Stage2Facts.savings_printable _ _ _ _ H) as Hrecs.
  destruct (format_recommendations_returns (recommendations r) Hrecs)
    as (details & Hdetails).
  split.
  - unfold get_cost_analysis_prompt, json_of_results, json_of_metrics.
    cbn [Json.get Json.lookup String.eqb Ascii.eqb Bool.eqb Py.bind
         Json.iterate Json.len Json.format_2f].
    rewrite (filterM_pure is_low_cpu low_cpu json_of_instance
               _ is_low_cpu_agrees).
    rewrite (filterM_pure is_unattached (fun v => negb (is_attached v))
               json_of_volume _ is_unattached_agrees).
    cbn [Py.bind]. rewrite Htotal. cbn [Py.bind]. rewrite Hdetails.
    cbn [Py.bind]. eexists. split; [reflexivity | discriminate].
  - unfold get_summary_prompt, json_of_results.
    cbn [Json.get Json.lookup String.eqb Ascii.eqb Bool.eqb Py.bind
         Json.len Json.format_2f].
    rewrite Htotal. cbn [Py.bind]. eexists. split; [reflexivity | discriminate].
Qed.

End Printing.

Lemma every_recommendation_is_formatted_witness :
  exists blocks,
    _format_recommendations HandlerFacts.repr_stub HandlerFacts.quote_stub
      (Json.JList (map json_of_recommendation
                     (recommendations PersistenceFacts.seven_gb)))
    = Py.Ok (Py.join "
" blocks)
    /\ List.length blocks = 1%nat.
Proof.
  destruct (every_recommendation_is_formatted HandlerFacts.repr_stub
              HandlerFacts.quote_stub
              (recommendations PersistenceFacts.seven_gb))
    as (blocks & H & Hlen & _).
  - repeat constructor. apply Stage2Facts.printable_float.
  - exists blocks. split; [exact H | exact Hlen].
Defined.

Lemma templates_render_every_analysis_witness :
  (exists prompt,
     get_cost_analysis_prompt (fun _ => "") HandlerFacts.quote_stub
       (json_of_results PersistenceFacts.seven_gb) = Py.Ok prompt)
  /\ (exists prompt,
        get_summary_prompt (json_of_results PersistenceFacts.seven_gb)
        = Py.Ok prompt).
Proof.
  destruct (templates_render_every_analysis (fun _ => "")
              HandlerFacts.quote_stub "2024-06-01T00:00:05"
              (AnalyzerFacts.only [] [AnalyzerFacts.loose_volume "vol-7" 7])
              PersistenceFacts.seven_gb PersistenceFacts.seven_gb_analyzed)
    as ((p1 & H1 & _) & (p2 & H2 & _)).
  - simpl. lia.
  - split; [now exists p1 | now exists p2].
Defined.

(** *** [get_comparison_prompt] *)

Definition no_zero_division {A : Type} (c : Py.res A) : Prop :=
  forall msg, c <> Py.Raise (Py.ZeroDivisionError msg).

Lemma nzd_bind {A B : Type} (c : Py.res A) (k : A -> Py.res B) :
  no_zero_division c -> (forall a, no_zero_division (k a)) ->
  no_zero_division (Py.bind c k).
Proof.
  intros Hc Hk msg. destruct c as [a|e]; simpl; [apply Hk|].
  intros H. injection H as ->. exact (Hc msg eq_refl).
Qed.

Lemma nzd_ok {A : Type} (a : A) : no_zero_division (Py.Ok a).
Proof. intros msg. discriminate. Qed.

Lemma nzd_float_of_int (z : Z) : no_zero_division (Py.float_of_int z).
Proof.
  intros msg. unfold Py.float_of_int.
  destruct (binary_normalize _ _ _ _ _); discriminate.
Qed.

Lemma nzd_get (d : Json.value) (k : string) (default : Json.value) :
  no_zero_division (Json.get d k default).
Proof. intros msg. destruct d; discriminate. Qed.

Lemma nzd_len (v : Json.value) : no_zero_division (Json.len v).
Proof. intros msg. destruct v; discriminate. Qed.

Lemma nzd_format_2f (x : Py.num) : no_zero_division (Py.format_2f x).
Proof.
  destruct x as [z|f]; [|apply nzd_ok].
  apply nzd_bind; [apply nzd_float_of_int | intros; apply nzd_ok].
Qed.

Lemma nzd_json_format_2f (v : Json.value) :
  no_zero_division (Json.format_2f v).
Proof.
  destruct v as [ |b|n|s|l|kv]; try (intros msg; discriminate);
    apply nzd_format_2f.
Qed.

Lemma nzd_format_plus_1f (x : Py.num) :
  no_zero_division (Py.format_plus_1f x).
Proof.
  destruct x as [z|f]; [|apply nzd_ok].
  apply nzd_bind; [apply nzd_float_of_int | intros; apply nzd_ok].
Qed.

Lemma nzd_sub (x y : Py.num) : no_zero_division (Py.sub x y).
Proof.
  destruct x as [a|f], y as [b|g]; simpl; try apply nzd_ok;
    (apply nzd_bind; [apply nzd_float_of_int | intros; apply nzd_ok]).
Qed.

Lemma nzd_mul (x y : Py.num) : no_zero_division (Py.mul x y).
Proof.
  destruct x as [a|f], y as [b|g]; simpl; try apply nzd_ok;
    (apply nzd_bind; [apply nzd_float_of_int | intros; apply nzd_ok]).
Qed.

Lemma nzd_subtract (a b : Json.value) : no_zero_division (subtract a b).
Proof.
  unfold subtract. destruct (as_num a), (as_num b);
    try (intros msg; discriminate). apply nzd_sub.
Qed.

(** The guard of the source: a divisor that compares above 0 is not 0. *)
Lemma nzd_truediv (x p : Py.num) :
  Py.gt p (Py.PInt 0) = true -> no_zero_division (Py.truediv x p).
Proof.
  intros Hgt. destruct p as [b|g].
  - assert (Hb : (b =? 0) = false).
    { unfold Py.gt, Py.compare in Hgt. apply Z.eqb_neq. intros ->.
      discriminate. }
    destruct x as [a|f]; simpl; rewrite Hb.
    + intros msg. destruct (Py.fdiv _ _); discriminate.
    + apply nzd_bind; [apply nzd_float_of_int | intros; apply nzd_ok].
  - destruct g as [s|s| |s m e]; try discriminate;
      destruct x as [a|f]; simpl; try apply nzd_ok;
      (apply nzd_bind; [apply nzd_float_of_int | intros; apply nzd_ok]).
Qed.

Lemma nzd_change_percent (change : Py.num) (previous : Json.value) :
  no_zero_division (change_percent change previous).
Proof.
  unfold change_percent, greater_than.
  destruct (as_num previous) as [p|]; [|intros msg; discriminate].
  cbn [Py.bind]. destruct (Py.gt p (Py.PInt 0)) eqn:Hgt; [|apply nzd_ok].
  apply nzd_bind; [now apply nzd_truediv | intros; apply nzd_mul].
Qed.

(** X20. The week-over-week template never divides by zero.  Whatever the
    two snapshots hold, [get_comparison_prompt] does not raise
    [ZeroDivisionError]: the quotient is taken only when last week's total
    compares above 0, and when it does not (it is zero, negative or NaN)
    the change is the integer 0, printed [+0.0]. *)
Theorem comparison_never_divides_by_zero
    (current_data previous_data : Json.value) :
  no_zero_division (get_comparison_prompt current_data previous_data)
  /\ (forall change previous p,
        as_num previous = Some p -> Py.gt p (Py.PInt 0) = false ->
        change_percent change previous = Py.Ok (Py.PInt 0)
        /\ Py.format_plus_1f (Py.PInt 0) = Py.Ok "+0.0").
Proof.
  split.
  - unfold get_comparison_prompt.
    apply nzd_bind; [apply nzd_get | intros current_savings].
    apply nzd_bind; [apply nzd_get | intros previous_savings].
    apply nzd_bind; [apply nzd_subtract | intros change].
    apply nzd_bind; [apply nzd_change_percent | intros percent].
    apply nzd_bind; [apply nzd_json_format_2f | intros current_text].
    apply nzd_bind; [apply nzd_get | intros current_recs].
    apply nzd_bind; [apply nzd_len | intros current_count].
    apply nzd_bind; [apply nzd_json_format_2f | intros previous_text].
    apply nzd_bind; [apply nzd_get | intros previous_recs].
    apply nzd_bind; [apply nzd_len | intros previous_count].
    apply nzd_bind; [apply nzd_format_2f | intros change_text].
    apply nzd_bind; [apply nzd_format_plus_1f | intros percent_text].
    apply nzd_ok.
  - intros change previous p Hp Hgt. split; [|vm_compute; reflexivity].
    unfold change_percent, greater_than. rewrite Hp. cbn [Py.bind].
    now rewrite Hgt.
Qed.

Lemma comparison_never_divides_by_zero_witness :
  change_percent (Py.PInt 45) (Json.JInt 0) = Py.Ok (Py.PInt 0).
Proof.
  refine (proj1 (proj2 (comparison_never_divides_by_zero Json.JNull Json.JNull)
                   (Py.PInt 45) (Json.JInt 0) (Py.PInt 0) _ _));
    reflexivity.
Defined.

End TemplateFacts.

(** *** Stage 1: from the services' answers to the recommendations *)

Module CollectionFacts.
Import CostAnalyzer.

Lemma filter_map_comm {A B : Type} (p : B -> bool) (f : A -> B)
    (l : list A) :
  filter p (map f l) = map f (filter (fun a => p (f a)) l).
Proof.
  induction l as [|a l IH]; [reflexivity|].
  simpl. destruct (p (f a)); simpl; now rewrite IH.
Qed.

(** The volumes EC2 lists with no attachment. *)
Definition detached (v : ec2_volume) : bool :=
  match Attachments v with
  | Some (_ :: _) => false
  | _ => true
  end.

Lemma measure_detached (v : ec2_volume) :
  negb (is_attached (measure v)) = detached v.
Proof.
  unfold measure, detached. simpl.
  destruct (Attachments v) as [[|x l]|]; reflexivity.
Qed.

(** X21. From the services' answers to the recommendations.  When both
    queries answer and the analysis returns, the recommended resources
    are, in order, the listed instances (reservation by reservation) whose
    seven-day CPU average is below 15 and then the listed volumes without
    an attachment, whatever the [State] of a volume says. *)
Theorem collected_resources_are_flagged (float_repr : spec_float -> string)
    (a : aws) (collected analyzed : string)
    (reservations : list (list ec2_instance)) (volumes : list ec2_volume)
    (r : results) :
  describe_instances a = Py.Ok reservations ->
  describe_volumes a = Py.Ok volumes ->
  analyze_metrics float_repr analyzed (collect_aws_metrics a collected)
  = Py.Ok r ->
  map resource_id (recommendations r)
  = (map InstanceId
       (filter (fun i => low_cpu (describe a i)) (List.concat reservations))
     ++ map VolumeId (filter detached volumes))%list.
Proof.
  intros Hi Hv H.
  destruct (AnalyzerFacts.analyze_metrics_inv _ _ _ _ H)
    as (ebs & Hebs & Hrecs & _).
  destruct (RuleFacts.mapM_cleanup_shape _ _ Hebs) as [Hids _].
  rewrite Hrecs, map_app, map_map, Hids.
  unfold collect_aws_metrics, get_ec2_metrics, get_ebs_metrics.
  cbn [ec2_instances ebs_volumes]. rewrite Hi, Hv.
  rewrite !filter_map_comm, !map_map. cbn [rightsize resource_id].
  f_equal. f_equal. apply filter_ext. intros v. apply measure_detached.
Qed.

(** X22. No data reads as idle.  An instance whose CloudWatch query
    raises, or has no datapoint in the window, is given a CPU average of
    0, and so every analysis that returns recommends it for downsizing,
    with savings of 50. *)
Theorem silent_instance_is_flagged (float_repr : spec_float -> string)
    (a : aws) (collected analyzed : string)
    (reservations : list (list ec2_instance)) (i : ec2_instance)
    (r : results) :
  describe_instances a = Py.Ok reservations ->
  In i (List.concat reservations) ->
  (get_metric_statistics a (InstanceId i) = Py.Ok []
   \/ exists e, get_metric_statistics a (InstanceId i) = Py.Raise e) ->
  analyze_metrics float_repr analyzed (collect_aws_metrics a collected)
  = Py.Ok r ->
  cpu_average (describe a i) = Py.PInt 0
  /\ exists rec,
       In rec (recommendations r)
       /\ type_ rec = "ec2_rightsize"
       /\ resource_id rec = InstanceId i
       /\ detail rec = Ec2Details (InstanceType i) (Py.PInt 0)
       /\ estimated_savings rec = Py.PInt 50.
Proof.
  intros Hi Hin Hsilent H.
  assert (Hcpu : cpu_average (describe a i) = Py.PInt 0).
  { unfold describe. destruct Hsilent as [-> | (e & ->)]; reflexivity. }
  split; [exact Hcpu|].
  exists (rightsize float_repr (describe a i)).
  split.
  - apply (AnalyzerFacts.rightsize_iff_low_cpu _ _ _ _ _ H).
    + unfold collect_aws_metrics, get_ec2_metrics. cbn [ec2_instances].
      rewrite Hi. now apply in_map.
    + now rewrite Hcpu.
  - cbn [rightsize type_ resource_id detail estimated_savings].
    rewrite Hcpu. repeat split.
Qed.

Lemma max_from_in (x : Py.num) (xs : list Py.num) :
  In (Py.max_from x xs) (x :: xs).
Proof.
  unfold Py.max_from. revert x. induction xs as [|y ys IH]; intros x.
  - now left.
  - simpl. destruct (Py.gt y x).
    + destruct (IH y) as [E|E]; [right; left; exact E | right; right; exact E].
    + destruct (IH x) as [E|E]; [left; exact E | right; right; exact E].
Qed.

(** X23. The two figures [get_cloudwatch_metric] returns.  A failed query
    and an empty window both give the integers 0 and 0; a window of
    datapoints (fewer than [2^53]) gives two floats rounded to two
    decimals: the sum of the averages divided by their number, and the
    [Maximum] of one of the datapoints. *)
Theorem cloudwatch_metric_cases (answer : Py.res (list datapoint)) :
  ((answer = Py.Ok [] \/ exists e, answer = Py.Raise e) ->
   get_cloudwatch_metric answer = no_data)
  /\ (forall d ds,
        answer = Py.Ok (d :: ds) ->
        Z.of_nat (List.length (d :: ds)) < 2 ^ 53 ->
        exists total count peak,
          Py.sum (map (fun x => Py.PFloat (Average x)) (d :: ds))
          = Py.Ok (Py.PFloat total)
          /\ Py.float_of_int (Z.of_nat (List.length (d :: ds))) = Py.Ok count
          /\ In peak (d :: ds)
          /\ get_cloudwatch_metric answer
             = {| average := Py.PFloat (Py.round2_float (Py.fdiv total count));
                  max := Py.PFloat (Py.round2_float (Maximum peak)) |}).
Proof.
  split.
  - intros [-> | (e & ->)]; reflexivity.
  - intros d ds -> Hlen.
    set (l := d :: ds) in *.
    assert (Hsum : exists total,
               Py.sum (map (fun x => Py.PFloat (Average x)) l)
               = Py.Ok (Py.PFloat total)).
    { unfold Py.sum, l. cbn [map Py.sum_from Py.add].
      change (Py.float_of_int 0) with (Py.Ok (S754_zero false)).
      cbn [Py.bind].
      assert (Hfl : Forall AnalyzerFacts.is_float
                      (map (fun x => Py.PFloat (Average x)) ds)).
      { apply Forall_forall. intros x Hx. apply in_map_iff in Hx.
        destruct Hx as (y & <- & _). eexists. reflexivity. }
      destruct (AnalyzerFacts.sum_from_floats _
                  (Py.fadd (S754_zero false) (Average d)) Hfl) as (t & Ht).
      destruct (ReportStageFacts.sum_from_float_closed _ _ _ Hfl Ht)
        as (total & ->).
      now exists total. }
    destruct Hsum as (total & Hsum).
    destruct (FloatFacts.float_of_int_small (Z.of_nat (List.length l)))
      as (count & Hcount); [lia|].
    pose proof (max_from_in (Py.PFloat (Maximum d))
                  (map (fun x => Py.PFloat (Maximum x)) ds)) as Hmax.
    change (Py.PFloat (Maximum d) :: map (fun x => Py.PFloat (Maximum x)) ds)
      with (map (fun x => Py.PFloat (Maximum x)) l) in Hmax.
    apply in_map_iff in Hmax. destruct Hmax as (peak & Hpeak & Hin).
    exists total, count, peak.
    split; [exact Hsum|]. split; [exact Hcount|]. split; [exact Hin|].
    unfold get_cloudwatch_metric. cbn [Py.bind]. unfold l at 1.
    fold l. rewrite Hsum. cbn [Py.bind Py.truediv].
    assert (Hnz : (Z.of_nat (List.length l) =? 0) = false).
    { apply Z.eqb_neq. unfold l. simpl List.length. lia. }
    rewrite Hnz, Hcount. cbn [Py.bind].
    unfold l at 1. cbn [map Py.max Py.bind]. rewrite <- Hpeak.
    reflexivity.
Qed.

Definition one_idle : aws :=
  {| describe_instances :=
       Py.Ok [[{| InstanceId := "i-1"; InstanceType := "t3.large";
                  LaunchTime := "2024-01-01T00:00:00" |}]];
     describe_volumes :=
       Py.Ok [{| VolumeId := "vol-1"; Size := 30; State := "in-use";
                 Attachments := None; CreateTime := "2024-01-01T00:00:00" |}];
     get_metric_statistics := fun _ => Py.Raise (Py.ServiceError "Throttling") |}.

Lemma collected_resources_are_flagged_witness :
  exists r,
    analyze_metrics (fun _ => "") "2024-06-01T00:00:05"
      (collect_aws_metrics one_idle "2024-06-01T00:00:00") = Py.Ok r
    /\ map resource_id (recommendations r) = ["i-1"; "vol-1"].
Proof.
  eexists. split; [vm_compute; reflexivity|].
  refine (collected_resources_are_flagged (fun _ => "") one_idle
            "2024-06-01T00:00:00" "2024-06-01T00:00:05" _ _ _
            eq_refl eq_refl _).
  vm_compute. reflexivity.
Defined.

Lemma silent_instance_is_flagged_witness :
  cpu_average
    (describe one_idle
       {| InstanceId := "i-1"; InstanceType := "t3.large";
          LaunchTime := "2024-01-01T00:00:00" |}) = Py.PInt 0.
Proof.
  destruct (AnalyzerFacts.analyze_metrics_returns (fun _ => "")
              "2024-06-01T00:00:05"
              (collect_aws_metrics one_idle "2024-06-01T00:00:00"))
    as (r & Hr).
  - repeat constructor; simpl; lia.
  - simpl. lia.
  - refine (proj1 (silent_instance_is_flagged (fun _ => "") one_idle
                     "2024-06-01T00:00:00" "2024-06-01T00:00:05" _ _ r
                     eq_refl _ _ Hr)).
    + now left.
    + right. eexists. reflexivity.
Defined.

Lemma cloudwatch_metric_cases_witness :
  exists stats,
    get_cloudwatch_metric
      (Py.Ok [{| Average := Py.float_lit 125 1; Maximum := Py.float_lit 40 0 |}])
    = stats
    /\ max stats = Py.PFloat (Py.round2_float (Py.float_lit 40 0)).
Proof.
  destruct (proj2 (cloudwatch_metric_cases
                     (Py.Ok [{| Average := Py.float_lit 125 1;
                                Maximum := Py.float_lit 40 0 |}]))
              _ _ eq_refl) as (total & count & peak & _ & _ & Hin & Hrun).
  - simpl. lia.
  - eexists. split; [reflexivity|]. rewrite Hrun. cbn [max].
    destruct Hin as [<-|[]]. reflexivity.
Defined.

End CollectionFacts.

(** *** Stage 1: what a run leaves in the table *)

Module StoreFacts.
Import CostAnalyzer.

(** No item of the list has the key [id]. *)
Definition lacks (id : string) (l : list Dynamo.item) : Prop :=
  Forall (fun y => Dynamo.has_id id y = false) l.

Lemma replace_id_first (id : string) (it : Dynamo.item)
    (l l' : list Dynamo.item) :
  Dynamo.replace_id id it l = Some l' ->
  exists l1 x l2,
    l = (l1 ++ x :: l2)%list /\ l' = (l1 ++ it :: l2)%list
    /\ Dynamo.has_id id x = true /\ lacks id l1.
Proof.
  revert l'. induction l as [|y l IH]; intros l' H; simpl in H; [discriminate|].
  destruct (Dynamo.has_id id y) eqn:Hy.
  - injection H as <-. exists [], y, l. repeat split; [assumption|constructor].
  - destruct (Dynamo.replace_id id it l) as [r|]; simpl in H; [|discriminate].
    injection H as <-.
    destruct (IH r eq_refl) as (l1 & x & l2 & -> & -> & Hx & Hl1).
    exists (y :: l1), x, l2. repeat split; [assumption|].
    constructor; assumption.
Qed.

Lemma replace_id_none (id : string) (it : Dynamo.item) (l : list Dynamo.item) :
  Dynamo.replace_id id it l = None -> lacks id l.
Proof.
  induction l as [|y l IH]; intros H; simpl in H; [constructor|].
  destruct (Dynamo.has_id id y) eqn:Hy; [discriminate|].
  destruct (Dynamo.replace_id id it l) as [r|]; simpl in H; [discriminate|].
  constructor; [exact Hy | now apply IH].
Qed.

Lemma replace_at_first (id : string) (it x : Dynamo.item)
    (l1 l2 : list Dynamo.item) :
  lacks id l1 -> Dynamo.has_id id x = true ->
  Dynamo.replace_id id it (l1 ++ x :: l2) = Some (l1 ++ it :: l2)%list.
Proof.
  intros Hl1 Hx. induction l1 as [|y l1 IH]; simpl.
  - now rewrite Hx.
  - inversion Hl1 as [|? ? Hy Hl1']; subst. rewrite Hy, (IH Hl1').
    reflexivity.
Qed.

Lemma record_has_id (now : string) (r : results) (total : Z) :
  Dynamo.has_id now (PersistenceFacts.record_of now r total) = true.
Proof. unfold Dynamo.has_id. simpl. apply String.eqb_refl. Qed.

(** A store adds the record, or replaces in place the first record with
    the same id. *)
Lemma store_adds_or_replaces (t t' : Dynamo.table) (now : string)
    (r : results) :
  store_results t now r = Py.Ok t' ->
  exists total l1 l2,
    Py.int (total_potential_savings r) = Py.Ok total
    /\ Dynamo.items t'
       = (l1 ++ PersistenceFacts.record_of now r total :: l2)%list
    /\ lacks now l1
    /\ Dynamo.outage t' = None
    /\ ((lacks now (Dynamo.items t) /\ Dynamo.items t = (l1 ++ l2)%list)
        \/ (exists x, Dynamo.has_id now x = true
                      /\ Dynamo.items t = (l1 ++ x :: l2)%list)).
Proof.
  intros H.
  destruct (PersistenceFacts.store_results_inv _ _ _ _ H)
    as (total & Hint & Hput).
  exists total. unfold Dynamo.put_item in Hput.
  destruct (Dynamo.serialize_all _) as [[]|e0]; cbn [Py.bind] in Hput;
    [|discriminate].
  destruct (Dynamo.outage t) eqn:Ho; [discriminate|].
  cbn [PersistenceFacts.record_of Dynamo.attr_of String.eqb Ascii.eqb
       Bool.eqb] in Hput.
  fold (PersistenceFacts.record_of now r total) in Hput.
  destruct (Dynamo.replace_id now _ (Dynamo.items t)) as [l|] eqn:Hr;
    injection Hput as <-; cbn [Dynamo.with_items Dynamo.items Dynamo.outage].
  - destruct (replace_id_first _ _ _ _ Hr) as (l1 & x & l2 & Hl & -> & Hx & Hl1).
    exists l1, l2. repeat split; try assumption.
    right. now exists x.
  - pose proof (replace_id_none _ _ _ Hr) as Hlacks.
    destruct (PersistenceFacts.insert_at_split (Dynamo.slot t now)
                (PersistenceFacts.record_of now r total) (Dynamo.items t))
      as (l1 & l2 & Hl & ->).
    exists l1, l2. repeat split; try assumption.
    + unfold lacks in *. rewrite Hl in Hlacks.
      apply Forall_app in Hlacks. tauto.
    + left. split; assumption.
Qed.

(** X24. Runs within one second overwrite each other.  The record id is
    the clock reading to the second, so when two stores read the same
    second the record of the first is replaced in place by the record of
    the second: the table has as many records after the second store as
    after the first, and every other record stays where it was. *)
Theorem same_second_runs_overwrite (t t1 t2 : Dynamo.table) (now : string)
    (r1 r2 : results) :
  store_results t now r1 = Py.Ok t1 ->
  store_results t1 now r2 = Py.Ok t2 ->
  exists l1 l2 total1 total2,
    Dynamo.items t1
    = (l1 ++ PersistenceFacts.record_of now r1 total1 :: l2)%list
    /\ Dynamo.items t2
       = (l1 ++ PersistenceFacts.record_of now r2 total2 :: l2)%list
    /\ lacks now l1
    /\ List.length (Dynamo.items t2) = List.length (Dynamo.items t1).
Proof.
  intros H1 H2.
  destruct (store_adds_or_replaces _ _ _ _ H1)
    as (total1 & l1 & l2 & _ & Hitems1 & Hl1 & Ho1 & _).
  destruct (PersistenceFacts.store_results_inv _ _ _ _ H2)
    as (total2 & _ & Hput).
  exists l1, l2, total1, total2.
  unfold Dynamo.put_item in Hput.
  destruct (Dynamo.serialize_all _) as [[]|e0]; cbn [Py.bind] in Hput;
    [|discriminate].
  rewrite Ho1 in Hput.
  cbn [PersistenceFacts.record_of Dynamo.attr_of String.eqb Ascii.eqb
       Bool.eqb] in Hput.
  fold (PersistenceFacts.record_of now r2 total2) in Hput.
  rewrite Hitems1 in Hput.
  rewrite (replace_at_first now _ _ l1 l2 Hl1 (record_has_id now r1 total1))
    in Hput.
  injection Hput as <-. cbn [Dynamo.with_items Dynamo.items].
  split; [exact Hitems1|]. split; [reflexivity|]. split; [exact Hl1|].
  rewrite Hitems1, !length_app. reflexivity.
Qed.

(** X25. A run with a new id loses nothing.  When no record has the id of
    this second, a store that succeeds adds exactly one record and keeps
    every other record, in the order they had. *)
Theorem new_id_adds_one_record (t t' : Dynamo.table) (now : string)
    (r : results) :
  store_results t now r = Py.Ok t' ->
  lacks now (Dynamo.items t) ->
  exists total l1 l2,
    Dynamo.items t = (l1 ++ l2)%list
    /\ Dynamo.items t'
       = (l1 ++ PersistenceFacts.record_of now r total :: l2)%list
    /\ List.length (Dynamo.items t') = S (List.length (Dynamo.items t)).
Proof.
  intros H Hlacks.
  destruct (store_adds_or_replaces _ _ _ _ H)
    as (total & l1 & l2 & _ & Hitems & _ & _ & [[_ Hold] | (x & Hx & Hold)]).
  - exists total, l1, l2. split; [exact Hold|]. split; [exact Hitems|].
    rewrite Hitems, Hold, !length_app. simpl. lia.
  - exfalso. unfold lacks in Hlacks. rewrite Hold in Hlacks.
    apply Forall_app in Hlacks. destruct Hlacks as [_ Hl].
    inversion Hl as [|? ? Hx' _]; subst. congruence.
Qed.

(** An account with a volume of [10^40] GB: the total is refused by
    boto3's number conversion, so nothing is stored and stage 1 answers
    500. *)
Definition oversized : aws :=
  {| describe_instances := Py.Ok [];
     describe_volumes :=
       Py.Ok [{| VolumeId := "vol-1"; Size := 10 ^ 40; State := "available";
                 Attachments := Some []; CreateTime := "2024-01-01T00:00:00" |}];
     get_metric_statistics := fun _ => Py.Ok [] |}.

Example oversized_total_is_refused :
  lambda_handler (fun _ => "") oversized PersistenceFacts.empty_table
    Stage1Facts.morning
  = ({| statusCode := 500;
        body := Json.JDict
          [("error",
            Json.JStr
              "[<class 'decimal.Inexact'>, <class 'decimal.Rounded'>]")] |},
     PersistenceFacts.empty_table).
Proof. vm_compute. reflexivity. Qed.

Lemma same_second_runs_overwrite_witness :
  exists t1 t2,
    store_results PersistenceFacts.empty_table "2024-06-01_00-00-05"
      FetchFacts.earlier = Py.Ok t1
    /\ store_results t1 "2024-06-01_00-00-05" PersistenceFacts.seven_gb
       = Py.Ok t2
    /\ List.length (Dynamo.items t2) = List.length (Dynamo.items t1).
Proof.
  destruct (store_results PersistenceFacts.empty_table "2024-06-01_00-00-05"
              FetchFacts.earlier) as [t1|e] eqn:H1; [|discriminate].
  destruct (store_results t1 "2024-06-01_00-00-05" PersistenceFacts.seven_gb)
    as [t2|e] eqn:H2.
  - destruct (same_second_runs_overwrite _ _ _ _ _ _ H1 H2)
      as (l1 & l2 & total1 & total2 & _ & _ & _ & Hlen).
    exists t1, t2. split; [reflexivity|]. split; [exact H2 | exact Hlen].
  - vm_compute in H1. injection H1 as <-. discriminate.
Defined.

Lemma new_id_adds_one_record_witness :
  exists t',
    store_results PersistenceFacts.empty_table "2024-06-01_00-00-05"
      PersistenceFacts.seven_gb = Py.Ok t'
    /\ List.length (Dynamo.items t') = 1%nat.
Proof.
  destruct (store_results PersistenceFacts.empty_table "2024-06-01_00-00-05"
              PersistenceFacts.seven_gb) as [t'|e] eqn:H; [|discriminate].
  destruct (new_id_adds_one_record _ _ _ _ H) as (total & l1 & l2 & _ & _ & Hlen).
  - constructor.
  - exists t'. split; [reflexivity | exact Hlen].
Defined.

End StoreFacts.

(** *** Stage 2: the switches read from the environment *)

Module ConfigFacts.
Import CostAnalyzer AIClient Recommender.

Section Runtime.

Variable float_repr : spec_float -> string.
Variable str_repr : string -> string.
Variable float_of_str : string -> Py.res spec_float.
Variable int_of_str : string -> Py.res Z.
Variable json_dumps : Json.value -> string.

Lemma s3_untouched (cfg : config) (env : environ) (net : network)
    (w : world) (now : clock) :
  ENABLE_S3 cfg && negb (String.eqb (S3_BUCKET cfg) "") = false ->
  s3 (snd (lambda_handler float_repr str_repr float_of_str int_of_str
             json_dumps cfg env net w now)) = s3 w.
Proof.
  intros Hoff. unfold lambda_handler. rewrite Hoff.
  destruct (get_latest_analysis (table w)) as [a|]; [|reflexivity].
  destruct (generate_ai_report _ _ _ _ _ env net (at_fallback now) a)
    as [report|e]; [|reflexivity].
  set (w2 := if ENABLE_EMAIL cfg && negb (String.eqb (SNS_TOPIC_ARN cfg) "")
             then send_notification cfg w (at_sns now) report else w).
  assert (H2 : s3 w2 = s3 w).
  { unfold w2. destruct (ENABLE_EMAIL cfg && _); [|reflexivity].
    apply (Stage2Facts.send_notification_frame cfg w (at_sns now) report). }
  destruct (Dynamo.item_get (attrs a) "id") as [id|e]; [|exact H2].
  pose proof (Stage2Facts.update_frame w2 id (at_update now) report)
    as [Hu _].
  destruct (Json.len report); cbn [snd]; now rewrite Hu.
Qed.

Lemma sns_untouched (cfg : config) (env : environ) (net : network)
    (w : world) (now : clock) :
  ENABLE_EMAIL cfg && negb (String.eqb (SNS_TOPIC_ARN cfg) "") = false ->
  sns (snd (lambda_handler float_repr str_repr float_of_str int_of_str
              json_dumps cfg env net w now)) = sns w.
Proof.
  intros Hoff. unfold lambda_handler. rewrite Hoff.
  destruct (get_latest_analysis (table w)) as [a|]; [|reflexivity].
  destruct (generate_ai_report _ _ _ _ _ env net (at_fallback now) a)
    as [report|e]; [|reflexivity].
  set (w1 := if ENABLE_S3 cfg && negb (String.eqb (S3_BUCKET cfg) "")
             then save_to_s3 cfg w (at_s3 now) report else w).
  assert (H1 : sns w1 = sns w).
  { unfold w1. destruct (ENABLE_S3 cfg && _); [|reflexivity].
    apply (Stage2Facts.save_to_s3_frame cfg w (at_s3 now) report). }
  destruct (Dynamo.item_get (attrs a) "id") as [id|e]; [|exact H1].
  pose proof (Stage2Facts.update_frame w1 id (at_update now) report)
    as [_ Hu].
  destruct (Json.len report); cbn [snd]; now rewrite Hu.
Qed.

(** X26. Only the word [true] switches a channel on.  With the settings
    read from the environment, a run writes no S3 object when
    [ENABLE_S3_REPORTS] is set to anything that does not lower-case to
    [true], or when [S3_BUCKET] is unset; and it publishes no message when
    [ENABLE_EMAIL_NOTIFICATIONS] is set to such a value, or when
    [SNS_TOPIC_ARN] is unset. *)
Theorem only_true_switches_on (env env' : environ) (net : network)
    (w : world) (now : clock) :
  let out := lambda_handler float_repr str_repr float_of_str int_of_str
               json_dumps (configure env) env' net w now in
  (((exists v, env "ENABLE_S3_REPORTS" = Some v /\ Py.lower v <> "true")
    \/ env "S3_BUCKET" = None) ->
   s3 (snd out) = s3 w)
  /\ (((exists v, env "ENABLE_EMAIL_NOTIFICATIONS" = Some v
                  /\ Py.lower v <> "true")
       \/ env "SNS_TOPIC_ARN" = None) ->
      sns (snd out) = sns w).
Proof.
  split.
  - intros H. apply s3_untouched. unfold configure, environ_get.
    cbn [ENABLE_S3 S3_BUCKET].
    destruct H as [(v & -> & Hv) | ->].
    + apply String.eqb_neq in Hv. now rewrite Hv.
    + cbn. apply andb_false_r.
  - intros H. apply sns_untouched. unfold configure, environ_get.
    cbn [ENABLE_EMAIL SNS_TOPIC_ARN].
    destruct H as [(v & -> & Hv) | ->].
    + apply String.eqb_neq in Hv. now rewrite Hv.
    + cbn. apply andb_false_r.
Qed.

End Runtime.

(** An environment that asks for S3 reports with [yes]. *)
Definition says_yes : environ :=
  fun name =>
    if String.eqb name "ENABLE_S3_REPORTS" then Some "yes"
    else if String.eqb name "S3_BUCKET" then Some "reports-bucket"
    else None.

Lemma only_true_switches_on_witness :
  s3 (snd (lambda_handler HandlerFacts.repr_stub HandlerFacts.quote_stub
             HandlerFacts.float_stub HandlerFacts.int_stub
             ClientFacts.dumps_stub (configure says_yes) says_yes
             ClientFacts.down HandlerFacts.stored HandlerFacts.june))
  = s3 HandlerFacts.stored.
Proof.
  apply (proj1 (only_true_switches_on HandlerFacts.repr_stub
                  HandlerFacts.quote_stub HandlerFacts.float_stub
                  HandlerFacts.int_stub ClientFacts.dumps_stub says_yes
                  says_yes ClientFacts.down HandlerFacts.stored
                  HandlerFacts.june)).
  left. exists "yes". split; [reflexivity|]. vm_compute. discriminate.
Defined.

End ConfigFacts.

(** *** Stage 2: what the answer tells *)

Module AnswerFacts.
Import CostAnalyzer AIClient Recommender.

Section Runtime.

Variable float_repr : spec_float -> string.
Variable str_repr : string -> string.
Variable float_of_str : string -> Py.res spec_float.
Variable int_of_str : string -> Py.res Z.
Variable json_dumps : Json.value -> string.

(** Whatever [generate_ai_report] returns has a length: the client's
    result is checked inside the [try], the fallback is a string. *)
Lemma ai_report_len (env : environ) (net : network) (today : string)
    (a : analysis) (report : Json.value) :
  generate_ai_report float_repr str_repr float_of_str int_of_str json_dumps
    env net today a = Py.Ok report ->
  exists n, Json.len report = Py.Ok n.
Proof.
  unfold generate_ai_report, Py.try_except.
  assert (Hfb : forall r,
             (text <- generate_fallback_report float_repr str_repr today a ;;
              Py.Ok (Json.JStr text)) = Py.Ok r ->
             exists n, Json.len r = Py.Ok n).
  { intros r. destruct (generate_fallback_report _ _ today a) as [text|e];
      cbn [Py.bind]; [|discriminate].
    intros H. injection H as <-. now exists (Py.len_str text). }
  destruct (AIClient.init float_of_str int_of_str env) as [c|e];
    cbn [Py.bind]; [|apply Hfb].
  destruct (generate_report json_dumps c env net (data a)) as [r|e];
    cbn [Py.bind]; [|apply Hfb].
  destruct (Json.len r) as [n|e] eqn:Hn; cbn [Py.bind]; [|apply Hfb].
  intros H. injection H as <-. now exists n.
Qed.

(** X27. The answer does not tell whether the report was delivered.  The
    response of the stage-2 handler is the same for every setting of the
    switches, bucket and topic and for every state of S3 and SNS: it
    depends on the table, the environment of the client, the network and
    the clock only. *)
Theorem answer_hides_delivery (cfg cfg' : config) (env : environ)
    (net : network) (w w' : world) (now : clock) :
  table w = table w' ->
  fst (lambda_handler float_repr str_repr float_of_str int_of_str json_dumps
         cfg env net w now)
  = fst (lambda_handler float_repr str_repr float_of_str int_of_str
           json_dumps cfg' env net w' now).
Proof.
  intros Ht. unfold lambda_handler. rewrite <- Ht.
  destruct (get_latest_analysis (table w)) as [a|]; [|reflexivity].
  destruct (generate_ai_report _ _ _ _ _ env net (at_fallback now) a)
    as [report|e]; [|reflexivity].
  destruct (Dynamo.item_get (attrs a) "id") as [id|e]; [|reflexivity].
  destruct (Json.len report); reflexivity.
Qed.

(** X28. When stage 2 answers 500.  Exactly when a record was fetched and
    either no report could be generated (the AI path and the fallback both
    raised), in which case nothing was touched, or the record has no [id],
    in which case the report may already have gone out.  The length of the
    report never causes it, and the table is never changed by a run that
    answers 500. *)
Theorem stage2_failure_cases (cfg : config) (env : environ) (net : network)
    (w : world) (now : clock) :
  let out := lambda_handler float_repr str_repr float_of_str int_of_str
               json_dumps cfg env net w now in
  (statusCode (fst out) = 500
   <-> exists a,
         get_latest_analysis (table w) = Some a
         /\ ((exists e,
                generate_ai_report float_repr str_repr float_of_str
                  int_of_str json_dumps env net (at_fallback now) a
                = Py.Raise e)
             \/ Dynamo.attr_of "id" (attrs a) = None))
  /\ (statusCode (fst out) = 500 -> table (snd out) = table w)
  /\ (forall a e,
        get_latest_analysis (table w) = Some a ->
        generate_ai_report float_repr str_repr float_of_str int_of_str
          json_dumps env net (at_fallback now) a = Py.Raise e ->
        out = ({| statusCode := 500;
                  body := Json.JDict [("error", Json.JStr (Py.str_exn e))] |},
               w)).
Proof.
  unfold lambda_handler.
  destruct (get_latest_analysis (table w)) as [a|] eqn:Hlatest.
  2:{ cbn [fst snd statusCode]. split; [|split].
      - split; [discriminate | intros (a & Ha & _); discriminate].
      - discriminate.
      - intros a e Ha. discriminate. }
  destruct (generate_ai_report _ _ _ _ _ env net (at_fallback now) a)
    as [report|e] eqn:Hreport.
  2:{ cbn [fst snd statusCode]. split; [|split].
      - split; [intros _|reflexivity]. exists a. split; [reflexivity|].
        left. now exists e.
      - reflexivity.
      - intros a' e' Ha' He'. injection Ha' as <-. rewrite Hreport in He'.
        now injection He' as <-. }
  pose proof (ReportStageFacts.after_distribution_table cfg w (at_s3 now)
                (at_sns now) report) as Ht. cbv zeta in Ht.
  set (w2 := if ENABLE_EMAIL cfg && negb (String.eqb (SNS_TOPIC_ARN cfg) "")
             then _ else _) in *.
  destruct (ai_report_len env net (at_fallback now) a report Hreport)
    as (n & Hn).
  unfold Dynamo.item_get.
  destruct (Dynamo.attr_of "id" (attrs a)) as [id|] eqn:Hid.
  - rewrite Hn. cbn [fst snd statusCode]. split; [|split].
    + split; [discriminate|].
      intros (a' & Ha' & [(e & He) | Hnone]); injection Ha' as <-.
      * rewrite Hreport in He. discriminate.
      * rewrite Hid in Hnone. discriminate.
    + discriminate.
    + intros a' e' Ha' He'. injection Ha' as <-. rewrite Hreport in He'.
      discriminate.
  - cbn [fst snd statusCode]. split; [|split].
    + split; [intros _|reflexivity]. exists a. split; [reflexivity|].
      now right.
    + intros _. exact Ht.
    + intros a' e' Ha' He'. injection Ha' as <-. rewrite Hreport in He'.
      discriminate.
Qed.

End Runtime.

(** A world like [stored], with S3 and SNS both failing. *)
Definition cut_off : world :=
  {| table := table HandlerFacts.stored;
     s3 := []; s3_outage := Some (Py.ServiceError "AccessDenied");
     sns := []; sns_outage := Some (Py.ServiceError "AuthorizationError") |}.

Lemma answer_hides_delivery_witness :
  fst (lambda_handler HandlerFacts.repr_stub HandlerFacts.quote_stub
         HandlerFacts.float_stub HandlerFacts.int_stub ClientFacts.dumps_stub
         (configure ConfigFacts.says_yes) HandlerFacts.bedrock
         ClientFacts.down HandlerFacts.stored HandlerFacts.june)
  = fst (lambda_handler HandlerFacts.repr_stub HandlerFacts.quote_stub
           HandlerFacts.float_stub HandlerFacts.int_stub
           ClientFacts.dumps_stub (configure HandlerFacts.bedrock)
           HandlerFacts.bedrock ClientFacts.down cut_off HandlerFacts.june).
Proof.
  apply (answer_hides_delivery HandlerFacts.repr_stub HandlerFacts.quote_stub
           HandlerFacts.float_stub HandlerFacts.int_stub
           ClientFacts.dumps_stub (configure ConfigFacts.says_yes)
           (configure HandlerFacts.bedrock) HandlerFacts.bedrock
           ClientFacts.down HandlerFacts.stored cut_off HandlerFacts.june).
  reflexivity.
Defined.

(** A table whose only record has no [id]. *)
Definition keyless : world :=
  {| table :=
       {| Dynamo.items :=
            [[("timestamp", Dynamo.AText "2024-06-01T00:00:05");
              ("data",
               Dynamo.AJson (json_of_results PersistenceFacts.seven_gb))]];
          Dynamo.slot := fun _ => 0%nat;
          Dynamo.outage := None |};
     s3 := []; s3_outage := None; sns := []; sns_outage := None |}.

Lemma stage2_failure_cases_witness :
  statusCode
    (fst (lambda_handler HandlerFacts.repr_stub HandlerFacts.quote_stub
            HandlerFacts.float_stub HandlerFacts.int_stub
            ClientFacts.dumps_stub (configure HandlerFacts.bedrock)
            HandlerFacts.bedrock ClientFacts.down keyless HandlerFacts.june))
  = 500.
Proof.
  apply (proj2 (proj1 (stage2_failure_cases HandlerFacts.repr_stub
                         HandlerFacts.quote_stub HandlerFacts.float_stub
                         HandlerFacts.int_stub ClientFacts.dumps_stub
                         (configure HandlerFacts.bedrock) HandlerFacts.bedrock
                         ClientFacts.down keyless HandlerFacts.june))).
  eexists. split; [vm_compute; reflexivity|]. right. reflexivity.
Defined.

End AnswerFacts.
